(** * job-switchboard: the dashboard's switch log and the timesheet visualiser

    A shallow embedding of [src/main.py] (colour assignment, the switch
    operation, the jobs file, the grid of job buttons, the edit window, the
    start of the dashboard and its details label) and [src/vis.py] (session
    reconstruction, midnight splitting, day grouping and the chart layout),
    with the properties of the specification, and further properties of the
    code, stated and proved over it.

    Conventions.
    - A Python [str] is a Rocq [string] holding its UTF-8 bytes, so that
      [str.encode()] is the identity and comparison by code point is
      comparison by byte; the slices and lengths of the colour strings count
      characters, as Python does.
    - What the libraries decide on their own is a parameter:
      [datetime.fromisoformat] for the theorems on [vis.py], the colours
      matplotlib accepts, [str.strip].
    - A naive [datetime] is a pair (proleptic Gregorian ordinal of its date,
      microsecond of the day); comparison of such pairs is lexicographic,
      as the comparison of the seven fields year..microsecond is.
    - Python floats are the kernel's binary64 floats.
    - Exceptions and [print] are threaded through a small writer/error monad. *)

From Stdlib Require Import ZArith Lia Ascii String List Floats Uint63 Permutation Sorted.
From Stdlib Require Import HexadecimalString DecimalString.
From stdpp Require Import base option list gmap strings sorting.
From Equations Require Import Equations.

Set Warnings "-inexact-float".
Open Scope string_scope.
Open Scope list_scope.
Open Scope Z_scope.

(** ** Exceptions, results and the print/raise monad *)

Inductive exn : Type :=
| KeyError
| ValueError
| IndexError
| TypeError
| OverflowError
| AttributeError
| UnicodeDecodeError.

Inductive result (A : Type) : Type :=
| Ok (a : A)
| Raise (e : exn).
Arguments Ok {A} a.
Arguments Raise {A} e.

(** A computation yields the lines it printed and either a value or the
    exception that ended it. *)
Definition M (A : Type) : Type := (list string * result A)%type.

Definition ret {A} (a : A) : M A := ([], Ok a).
Definition raise {A} (e : exn) : M A := ([], Raise e).
Definition print (line : string) : M unit := ([line], Ok tt).
Definition lift {A} (r : result A) : M A := ([], r).

Definition bind {A B} (m : M A) (k : A -> M B) : M B :=
  match m with
  | (out, Ok a) => let '(out', r) := k a in (out ++ out', r)
  | (out, Raise e) => (out, Raise e)
  end.

(** [try: m except: handler] *)
Definition try_except {A} (m : M A) (handler : exn -> M A) : M A :=
  match m with
  | (out, Raise e) => let '(out', r) := handler e in (out ++ out', r)
  | done => done
  end.

(** Sequencing on plain results, for code that raises but prints nothing. *)
Definition rbind {A B} (r : result A) (k : A -> result B) : result B :=
  match r with
  | Ok a => k a
  | Raise e => Raise e
  end.

(** [p] holds at [lo], [lo + 1], ..., [lo + n - 1]. *)
Fixpoint all_from (n : nat) (lo : Z) (p : Z -> bool) : bool :=
  match n with
  | O => true
  | S n' => p lo && all_from n' (lo + 1) p
  end.

Declare Scope mon_scope.
Delimit Scope mon_scope with mon.
Notation "x <- m ;; k" := (bind m (fun x => k))
  (at level 100, m at next level, right associativity) : mon_scope.
Notation "m ;;; k" := (bind m (fun _ => k))
  (at level 100, right associativity) : mon_scope.

(** ** The [datetime] library, as far as the program uses it *)

Module Datetime.

(** [date.max.toordinal()], the ordinal of 9999-12-31. *)
Definition MAXORDINAL : Z := 3652059.
Definition US_PER_SECOND : Z := 1000000.
Definition US_PER_MINUTE : Z := 60 * US_PER_SECOND.
Definition US_PER_HOUR : Z := 60 * US_PER_MINUTE.
Definition US_PER_DAY : Z := 24 * US_PER_HOUR.

Record datetime : Type := mk_datetime {
  ordinal : Z;      (* toordinal() of the date part, 1 = 0001-01-01 *)
  us_of_day : Z     (* microseconds since 00:00:00 of that date *)
}.

Definition valid_datetime (dt : datetime) : Prop :=
  1 <= ordinal dt <= MAXORDINAL /\ 0 <= us_of_day dt < US_PER_DAY.

(** [dt.date()]: dates are their ordinals. *)
Definition date (dt : datetime) : Z := ordinal dt.
Definition hour (dt : datetime) : Z := us_of_day dt / US_PER_HOUR.
Definition minute (dt : datetime) : Z := (us_of_day dt / US_PER_MINUTE) mod 60.
Definition second (dt : datetime) : Z := (us_of_day dt / US_PER_SECOND) mod 60.
Definition microsecond (dt : datetime) : Z := us_of_day dt mod US_PER_SECOND.

(** Microseconds since the start of day 0: the position on the time line. *)
Definition to_us (dt : datetime) : Z := ordinal dt * US_PER_DAY + us_of_day dt.

(** [a < b], [a <= b] and [a == b] on datetimes. *)
Definition dt_ltb (a b : datetime) : bool :=
  (ordinal a <? ordinal b) || ((ordinal a =? ordinal b) && (us_of_day a <? us_of_day b)).
Definition dt_leb (a b : datetime) : bool := negb (dt_ltb b a).
Definition dt_eqb (a b : datetime) : bool :=
  (ordinal a =? ordinal b) && (us_of_day a =? us_of_day b).

(** [datetime.combine(d, datetime.min.time())]: midnight at the start of [d]. *)
Definition combine_min (d : Z) : datetime := mk_datetime d 0.

(** [d + timedelta(days=n)] on dates. *)
Definition date_add_days (d n : Z) : result Z :=
  if (1 <=? d + n) && (d + n <=? MAXORDINAL) then Ok (d + n) else Raise OverflowError.

(** [dt + timedelta(microseconds=delta)]: carry into the date, range check. *)
Definition add_timedelta (dt : datetime) (delta_us : Z) : result datetime :=
  let t := us_of_day dt + delta_us in
  let d := ordinal dt + t / US_PER_DAY in
  if (1 <=? d) && (d <=? MAXORDINAL) then Ok (mk_datetime d (t mod US_PER_DAY))
  else Raise OverflowError.

(** *** Calendar arithmetic ([_ymd2ord], [_ord2ymd]) *)

Definition is_leap (year : Z) : bool :=
  (year mod 4 =? 0) && (negb (year mod 100 =? 0) || (year mod 400 =? 0)).

Definition days_before_year (year : Z) : Z :=
  let y := year - 1 in y * 365 + y / 4 - y / 100 + y / 400.

Definition DAYS_IN_MONTH : list Z := [31; 28; 31; 30; 31; 30; 31; 31; 30; 31; 30; 31].
Definition DAYS_BEFORE_MONTH : list Z :=
  [0; 31; 59; 90; 120; 151; 181; 212; 243; 273; 304; 334].

Definition days_in_month (year month : Z) : Z :=
  if (month =? 2) && is_leap year then 29
  else nth (Z.to_nat (month - 1)) DAYS_IN_MONTH 0.

Definition days_before_month (year month : Z) : Z :=
  nth (Z.to_nat (month - 1)) DAYS_BEFORE_MONTH 0
  + (if (2 <? month) && is_leap year then 1 else 0).

Definition ymd2ord (year month day : Z) : Z :=
  days_before_year year + days_before_month year month + day.

Definition DI400Y : Z := days_before_year 401.
Definition DI100Y : Z := days_before_year 101.
Definition DI4Y : Z := days_before_year 5.

Definition ord2ymd (n0 : Z) : Z * Z * Z :=
  let n := n0 - 1 in
  let n400 := n / DI400Y in let n := n mod DI400Y in
  let year := n400 * 400 + 1 in
  let n100 := n / DI100Y in let n := n mod DI100Y in
  let n4 := n / DI4Y in let n := n mod DI4Y in
  let n1 := n / 365 in let n := n mod 365 in
  let year := year + n100 * 100 + n4 * 4 + n1 in
  if (n1 =? 4) || (n100 =? 4) then (year - 1, 12, 31)
  else
    let leapyear := (n1 =? 3) && (negb (n4 =? 24) || (n100 =? 3)) in
    let month := Z.shiftr (n + 50) 5 in
    let preceding := nth (Z.to_nat (month - 1)) DAYS_BEFORE_MONTH 0
                     + (if (2 <? month) && leapyear then 1 else 0) in
    if n <? preceding then
      let month' := month - 1 in
      let preceding' := preceding
                        - (nth (Z.to_nat (month' - 1)) DAYS_IN_MONTH 0
                           + (if (month' =? 2) && leapyear then 1 else 0)) in
      (year, month', n - preceding' + 1)
    else (year, month, n - preceding + 1).

(** *** Decimal fields *)

Definition digit_of (c : ascii) : option Z :=
  let n := Z.of_N (N_of_ascii c) in
  if (48 <=? n) && (n <=? 57) then Some (n - 48) else None.

(** [int(s)] for a string of ASCII digits only. *)
Fixpoint digits_from (acc : Z) (s : string) : option Z :=
  match s with
  | EmptyString => Some acc
  | String c s' =>
      match digit_of c with
      | Some d => digits_from (10 * acc + d) s'
      | None => None
      end
  end.

Definition int_field (s : string) : option Z :=
  match s with
  | EmptyString => None
  | _ => digits_from 0 s
  end.

Definition digit_char (d : Z) : ascii := ascii_of_N (Z.to_N (48 + d mod 10)).

(** ["%0<width>d"] for a non-negative number. *)
Fixpoint pad_decimal (width : nat) (n : Z) : string :=
  match width with
  | O => EmptyString
  | S w => pad_decimal w (n / 10) +:+ String (digit_char n) EmptyString
  end.

Definition substr (start len : nat) (s : string) : string := String.substring start len s.
Definition char_at (i : nat) (s : string) : option ascii := String.get i s.

(** *** [datetime.fromisoformat] on naive timestamps

    The formats [isoformat()] emits and every CPython since 3.7 reads:
    [YYYY-MM-DD[*HH[:MM[:SS[.fff[fff]]]]]], where [*] is any one character.
    [None] stands for the [ValueError]. Later versions of the library read
    further ISO 8601 forms, which this parser leaves out; it serves to run the
    program on examples, and the theorems on [vis.py] are stated for an
    arbitrary parser. *)

Definition parse_isoformat_date (s : string) : option Z :=
  if negb (String.length s =? 10)%nat then None
  else
    match int_field (substr 0 4 s), char_at 4 s, int_field (substr 5 2 s),
          char_at 7 s, int_field (substr 8 2 s) with
    | Some y, Some "-"%char, Some m, Some "-"%char, Some d =>
        if (1 <=? y) && (y <=? 9999) && (1 <=? m) && (m <=? 12)
           && (1 <=? d) && (d <=? days_in_month y m)
        then Some (ymd2ord y m d) else None
    | _, _, _, _, _ => None
    end.

Definition parse_fraction (s : string) : option Z :=
  match String.length s with
  | 3%nat => option_map (fun n => n * 1000) (int_field s)
  | 6%nat => int_field s
  | _ => None
  end.

(** [HH[:MM[:SS[.fff[fff]]]]] to the microsecond of the day. *)
Definition parse_isoformat_time (s : string) : option Z :=
  let n := String.length s in
  let field (pos : nat) : option Z := int_field (substr pos 2 s) in
  let colon (pos : nat) : bool :=
    match char_at pos s with Some ":"%char => true | _ => false end in
  let assemble (hh mm ss us : Z) : option Z :=
    if (hh <=? 23) && (mm <=? 59) && (ss <=? 59)
    then Some (hh * US_PER_HOUR + mm * US_PER_MINUTE + ss * US_PER_SECOND + us)
    else None in
  match field 0%nat with
  | None => None
  | Some hh =>
      if (n =? 2)%nat then assemble hh 0 0 0
      else if negb (colon 2%nat) then None
      else match field 3%nat with
      | None => None
      | Some mm =>
          if (n =? 5)%nat then assemble hh mm 0 0
          else if negb (colon 5%nat) then None
          else match field 6%nat with
          | None => None
          | Some ss =>
              if (n =? 8)%nat then assemble hh mm ss 0
              else match char_at 8 s with
              | Some "."%char =>
                  match parse_fraction (substr 9 (n - 9) s) with
                  | Some us => assemble hh mm ss us
                  | None => None
                  end
              | _ => None
              end
          end
      end
  end.

Definition fromisoformat (s : string) : option datetime :=
  match parse_isoformat_date (substr 0 10 s) with
  | None => None
  | Some d =>
      let n := String.length s in
      if (n =? 10)%nat then Some (mk_datetime d 0)
      else if (n <=? 11)%nat then None
      else option_map (mk_datetime d) (parse_isoformat_time (substr 11 (n - 11) s))
  end.

(** *** [datetime.isoformat()] and [date.isoformat()] *)

Definition date_isoformat (d : Z) : string :=
  let '(y, m, dd) := ord2ymd d in
  pad_decimal 4 y +:+ "-" +:+ pad_decimal 2 m +:+ "-" +:+ pad_decimal 2 dd.

Definition isoformat (dt : datetime) : string :=
  date_isoformat (date dt) +:+ "T" +:+ pad_decimal 2 (hour dt) +:+ ":"
  +:+ pad_decimal 2 (minute dt) +:+ ":" +:+ pad_decimal 2 (second dt)
  +:+ (if microsecond dt =? 0 then "" else "." +:+ pad_decimal 6 (microsecond dt)).

End Datetime.
Export Datetime.

(** ** Strings and floats as Python uses them *)

(** [needle in hay] on strings. *)
Fixpoint contains (needle hay : string) : bool :=
  String.prefix needle hay
  || match hay with
     | EmptyString => false
     | String _ hay' => contains needle hay'
     end.

(** [s.split(sep)] for a one-character separator. *)
Fixpoint split (sep : ascii) (s : string) : list string :=
  match s with
  | EmptyString => [EmptyString]
  | String c s' =>
      if Ascii.eqb c sep then EmptyString :: split sep s'
      else match split sep s' with
           | piece :: pieces => String c piece :: pieces
           | [] => [String c EmptyString]
           end
  end.

(** [c in s] for a character. *)
Fixpoint has_char (c : ascii) (s : string) : bool :=
  match s with
  | EmptyString => false
  | String c' s' => Ascii.eqb c' c || has_char c s'
  end.

(** [float(z)] for an int that fits a machine word. *)
Definition float_of_Z (z : Z) : float :=
  if z <? 0 then (- PrimFloat.of_uint63 (Uint63.of_Z (- z)))%float
  else PrimFloat.of_uint63 (Uint63.of_Z z).

(** [max(a, b)] on floats: the first argument unless the second is greater. *)
Definition py_max (a b : float) : float := if PrimFloat.ltb a b then b else a.

(** [int(x)] for a finite float: truncation toward zero. *)
Definition int_of_float (x : float) : Z :=
  match Prim2SF x with
  | S754_finite sign m e =>
      let magnitude := if 0 <=? e then Z.shiftl (Z.pos m) e else Z.shiftr (Z.pos m) (- e) in
      if sign then - magnitude else magnitude
  | _ => 0
  end.

(** ** vis.py *)

Module Vis.

(** One element of history.json: a dict whose keys may be missing; the
    values that are present are strings, as the dashboard writes them. *)
Record event : Type := mk_event {
  timestamp : option string;
  project : option string;
  color : option string
}.

(** [d.get(key, fallback)] *)
Definition get (field : option string) (fallback : string) : string :=
  default fallback field.

(** What [os.path.exists], [open] and [json.load] find: no file; a file
    whose bytes are not text in the encoding of [open], so that reading it
    inside [json.load] raises [UnicodeDecodeError]; text that is not JSON
    ([json.JSONDecodeError]); a JSON list of events; or a JSON value that is
    not a list (null, a boolean, a number, a string, an object), of which the
    programs only see whether it is truthy and whether it is an object. *)
Inductive history_file : Type :=
| FileMissing
| FileUndecodable
| FileNotJSON
| FileJSON (events : list event)
| FileJSONOther (truthy is_object : bool).

(** The session tuple [(start, end, project, color)]. *)
Record session : Type := Session {
  s_start : datetime;
  s_end : datetime;
  s_project : string;
  s_color : string
}.

(** *** [list.sort(key=...)]: stable, keys compared with [<] only *)

Section StableSort.
Context {A K : Type} (key : A -> K) (ltb : K -> K -> bool).

Fixpoint insert_sorted (x : A) (l : list A) : list A :=
  match l with
  | [] => [x]
  | y :: l' => if ltb (key y) (key x) then y :: insert_sorted x l' else x :: y :: l'
  end.

Definition stable_sort (l : list A) : list A := foldr insert_sorted [] l.
End StableSort.

(** [a < b] on the sort keys [e.get("timestamp")] when both are strings. *)
Definition key_ltb (a b : option string) : bool :=
  match a, b with
  | Some x, Some y => String.ltb x y
  | _, _ => false
  end.

(** [events.sort(key=lambda e: e.get("timestamp"))]. A key [None] cannot be
    compared with anything; a list of fewer than two events is never compared. *)
Definition sort_events (events : list event) : result (list event) :=
  if (2 <=? length events)%nat && existsb (fun e => negb (bool_decide (is_Some (timestamp e)))) events
  then Raise TypeError
  else Ok (stable_sort timestamp key_ltb events).

Section Builder.
(** [datetime.fromisoformat], [None] standing for its [ValueError]. *)
Variable fromisoformat : string -> option datetime.

(** The body of the inner [try]: re-insert the zero of a one-digit hour. *)
Definition fix_hour (ts : string) : M datetime :=
  match split "T" ts with
  | [date_part; time_part] =>
      pad <- (if (0 <? String.length time_part)%nat
              then match String.get 1 time_part with
                   | Some c => ret (Ascii.eqb c ":")
                   | None => raise IndexError
                   end
              else ret false) ;;
      let time_part := if pad then "0" +:+ time_part else time_part in
      let fixed_ts := date_part +:+ "T" +:+ time_part in
      match fromisoformat fixed_ts with
      | Some dt => ret dt
      | None => raise ValueError
      end
  | _ => raise ValueError
  end%mon.

Definition parse_event (event : event) : M datetime :=
  match timestamp event with
  | None => raise KeyError
  | Some ts =>
      try_except
        (match fromisoformat ts with Some dt => ret dt | None => raise ValueError end)
        (fun e =>
           match e with
           | ValueError =>
               try_except (fix_hour ts)
                 (fun e => print ("Error parsing timestamp: " +:+ ts) ;;; raise e)
           | _ => raise e
           end)
  end%mon.

Definition day_end (dt : datetime) : result datetime :=
  match date_add_days (date dt) 1 with
  | Ok d => Ok (combine_min d)
  | Raise e => Raise e
  end.

(** The loop [for i in range(len(events) - 1)]. *)
Fixpoint build_pairs (events : list event) : M (list session) :=
  match events with
  | e :: ((e' :: _) as rest) =>
      current <- parse_event e ;;
      next_event <- parse_event e' ;;
      end_ <- (if date current =? date next_event then ret next_event
               else lift (day_end current)) ;;
      sessions <- build_pairs rest ;;
      ret (Session current end_ (get (project e) "Unknown") (get (color e) "#cccccc")
             :: sessions)
  | _ => ret []
  end%mon.

Definition final_session (events : list event) : M session :=
  match last events with
  | None => raise IndexError
  | Some e =>
      final_event <- parse_event e ;;
      let final_project := get (project e) "Unknown" in
      let final_color := get (color e) "#cccccc" in
      final_end <- (if contains "END_OF_DAY" final_project then ret final_event
                    else lift (add_timedelta final_event US_PER_HOUR)) ;;
      ret (Session final_event final_end final_project final_color)
  end%mon.

Definition build_sessions (events : list event) : M (list session) :=
  (sessions <- build_pairs events ;;
   final <- final_session events ;;
   ret (sessions ++ [final]))%mon.
End Builder.

(** The [while] loop of [split_session_by_day]; [current.date() + 1 day]
    stays at or below [end.date()], so it cannot leave the range of dates. *)
Equations? split_loop (current end_ : datetime) (project color : string)
    (splits : list session) : list session
    by wf (Z.to_nat (date end_ - date current)) lt :=
  split_loop current end_ project color splits with decide (date current < date end_) := {
    | left _ =>
        let next_midnight := combine_min (date current + 1) in
        split_loop next_midnight end_ project color
          (splits ++ [Session current next_midnight project color]);
    | right _ =>
        if dt_ltb current end_ then splits ++ [Session current end_ project color]
        else splits }.
Proof. unfold date in *; simpl; lia. Qed.

Definition split_session_by_day (start end_ : datetime) (project color : string)
  : list session :=
  split_loop start end_ project color [].

Definition split_sessions (sessions : list session) : list session :=
  flat_map (fun s =>
              if date (s_start s) =? date (s_end s) then [s]
              else split_session_by_day (s_start s) (s_end s) (s_project s) (s_color s))
           sessions.

(** [sessions_by_day.setdefault(day, []).append(session)], keyed by the start
    date ([date.isoformat] is injective and monotone on dates, so the date
    itself serves as the key and as the sort key of the columns). *)
Definition setdefault_append (by_day : gmap Z (list session)) (s : session)
  : gmap Z (list session) :=
  let day := date (s_start s) in
  <[day := default [] (by_day !! day) ++ [s]]> by_day.

Definition group_by_day (sessions_split : list session) : gmap Z (list session) :=
  foldl setdefault_append ∅ sessions_split.

(** [sorted(sessions_by_day.keys())] *)
Definition sorted_days (by_day : gmap Z (list session)) : list Z :=
  merge_sort Z.le (elements (dom by_day)).

(** *** Plotting *)

Inductive artist : Type :=
| Rectangle (x y width height : float) (facecolor edgecolor : string)
            (alpha : option float) (linewidth : option Z)
| Text (x : nat) (y : float) (s : string).

Definition hour_of_day (dt : datetime) : float :=
  (float_of_Z (hour dt) + float_of_Z (minute dt) / float_of_Z 60
   + float_of_Z (second dt) / float_of_Z 3600)%float.

Definition end_hour_of (start end_ : datetime) : float :=
  if negb (date end_ =? date start) then 24%float else hour_of_day end_.

(** The body of the inner plotting loop, for a session in column [i]. *)
Definition draw_session (i : nat) (s : session) : list artist :=
  let start_hour := hour_of_day (s_start s) in
  let end_hour := end_hour_of (s_start s) (s_end s) in
  let duration := (end_hour - start_hour)%float in
  let left := (float_of_Z (Z.of_nat i) - 0.4)%float in
  [Rectangle left start_hour 0.8 duration (s_color s) "black" (Some 0.7%float) None]
  ++ (if PrimFloat.leb 0.2 duration
      then [Text i (start_hour + duration / 2)%float (s_project s)] else [])
  ++ (if PrimFloat.ltb 19 end_hour
      then let outline_start := py_max start_hour 19 in
           let outline_duration := (end_hour - outline_start)%float in
           [Rectangle left outline_start 0.8 outline_duration "none" "red" None (Some 2)]
      else []).

Definition plot (days : list Z) (by_day : gmap Z (list session)) : list artist :=
  concat (imap (fun i day => flat_map (draw_session i) (default [] (by_day !! day))) days).

(** What [plt.show()] is given of the log: the patches and labels, and one
    tick per day (titles, limits and the fixed hour ticks are left out). *)
Record chart : Type := mk_chart {
  artists : list artist;
  xticks : list Z
}.

Section Visualiser.
Variable fromisoformat : string -> option datetime.
(** [matplotlib.colors.is_color_like]: the strings that matplotlib takes
    for a colour.  [Rectangle] raises [ValueError] on a [facecolor] that is
    none. *)
Variable is_color_like : string -> bool.

(** The pipeline after sorting, up to the day-grouped map. *)
Definition sessions_by_day (events : list event) : M (gmap Z (list session)) :=
  (sessions <- build_sessions fromisoformat events ;;
   ret (group_by_day (split_sessions sessions)))%mon.

(** The plotting loop comes to its end when every [Rectangle] takes the
    colour of its session. *)
Definition colors_accepted (days : list Z) (by_day : gmap Z (list session)) : bool :=
  forallb (fun day => forallb (fun s => is_color_like (s_color s))
                        (default [] (by_day !! day))) days.

(** [visualiser()].  Only [json.JSONDecodeError] is caught around
    [json.load]: the [UnicodeDecodeError] of a file that is not text leaves
    the function.  A falsy value that is not a list passes for an empty log;
    a truthy one has no [sort].  Nothing is printed while the chart is
    made. *)
Definition visualiser (file : history_file) : M (option chart) :=
  match file with
  | FileMissing => print "File 'history.json' not found." ;;; ret None
  | FileUndecodable => raise UnicodeDecodeError
  | FileNotJSON => print "Error: The file is not valid JSON." ;;; ret None
  | FileJSONOther false _ => print "No events found in history." ;;; ret None
  | FileJSONOther true _ => raise AttributeError
  | FileJSON events =>
      match events with
      | [] => print "No events found in history." ;;; ret None
      | _ =>
          events <- lift (sort_events events) ;;
          by_day <- sessions_by_day events ;;
          let days := sorted_days by_day in
          if colors_accepted days by_day
          then ret (Some (mk_chart (plot days by_day) days))
          else raise ValueError
      end
  end%mon.
End Visualiser.

(** *** Running conditions, as checks *)

Definition valid_datetimeb (dt : datetime) : bool :=
  (1 <=? ordinal dt) && (ordinal dt <=? MAXORDINAL)
  && (0 <=? us_of_day dt) && (us_of_day dt <? US_PER_DAY).

(** The event parses to a well-formed datetime. *)
Definition parses_valid (fromisoformat : string -> option datetime) (e : event) : bool :=
  match parse_event fromisoformat e with
  | (_, Ok d) => valid_datetimeb d
  | (_, Raise _) => false
  end.

(** The event parses to a well-formed datetime that is not on the last
    representable day (so that neither [day_end] nor the final hour can leave
    the range of [datetime]). *)
Definition parses_in_range (fromisoformat : string -> option datetime) (e : event) : bool :=
  match parse_event fromisoformat e with
  | (_, Ok d) => valid_datetimeb d && (date d <? MAXORDINAL)
  | (_, Raise _) => false
  end.

(** The parsed times of the events, in the order of the list, never go back. *)
Fixpoint chronological (fromisoformat : string -> option datetime) (events : list event)
  : bool :=
  match events with
  | e :: ((e' :: _) as rest) =>
      match parse_event fromisoformat e, parse_event fromisoformat e' with
      | (_, Ok a), (_, Ok b) => dt_leb a b
      | _, _ => false
      end && chronological fromisoformat rest
  | _ => true
  end.

(** *** Shapes of session lists *)

(** A time of day within [00:00, 24:00). *)
Definition time_in_day (dt : datetime) : Prop := 0 <= us_of_day dt < US_PER_DAY.

(** [l] cuts the interval from [a] to [b] at every midnight in between. *)
Inductive tiles (p c : string) : datetime -> datetime -> list session -> Prop :=
| tiles_same_day a b :
    date a = date b -> dt_ltb a b = true -> tiles p c a b [Session a b p c]
| tiles_to_midnight a :
    tiles p c a (combine_min (date a + 1)) [Session a (combine_min (date a + 1)) p c]
| tiles_cut a b l :
    tiles p c (combine_min (date a + 1)) b l ->
    tiles p c a b (Session a (combine_min (date a + 1)) p c :: l).

(** A session that stays within one calendar day, possibly ending at the
    midnight that closes it. *)
Definition within_day (day : Z) (s : session) : Prop :=
  date (s_start s) = day
  /\ dt_leb (combine_min day) (s_start s) = true
  /\ dt_leb (s_end s) (combine_min (day + 1)) = true
  /\ (date (s_end s) = day \/ s_end s = combine_min (day + 1)).

(** [y] does not sort before [x]. *)
Definition key_below {A : Type} (key : A -> string) (x y : A) : Prop :=
  String.ltb (key y) (key x) = false.

(** What the builder guarantees of a session before the splitting pass. *)
Definition pre_split_ok (s : session) : Prop :=
  time_in_day (s_start s) /\ time_in_day (s_end s) /\ date (s_start s) <= date (s_end s).

(** *** Durations *)

Definition duration_us (s : session) : Z := to_us (s_end s) - to_us (s_start s).

Definition total_us (sessions : list session) : Z :=
  foldr (fun s acc => duration_us s + acc) 0 sessions.

(** The second of the day that the chart reads off a datetime. *)
Definition clock_second (dt : datetime) : Z := hour dt * 3600 + minute dt * 60 + second dt.

(** The fractional hour at which the chart puts second [sec] of a day. *)
Definition hour_of_second (sec : Z) : float :=
  (float_of_Z (sec / 3600) + float_of_Z (sec / 60 mod 60) / float_of_Z 60
   + float_of_Z (sec mod 60) / float_of_Z 3600)%float.

(** The red outline of the evening part of a session. *)
Definition is_outline (a : artist) : bool :=
  match a with
  | Rectangle _ _ _ _ facecolor edgecolor _ _ =>
      String.eqb facecolor "none" && String.eqb edgecolor "red"
  | Text _ _ _ => false
  end.

(** *** Sample data *)

Definition sample_event (ts p : string) : event :=
  mk_event (Some ts) (Some p) (Some "#5bdee5").

(** The example of the specification: 09:00 on A, 12:00 on B. *)
Definition morning_log : list event :=
  [sample_event "2024-01-01T09:00:00" "A"; sample_event "2024-01-01T12:00:00" "B"].

(** A last project whose name only contains the sentinel. *)
Definition overtime_log : list event :=
  [sample_event "2024-01-01T17:00:00" "PRE_END_OF_DAY"].

(** A timestamp that no fix-up rescues. *)
Definition garbled_log : list event :=
  [sample_event "2024-01-01T09:00:00" "A"; sample_event "yesterday 9am" "B"].

(** A switch half an hour before midnight and one a quarter past. *)
Definition midnight_log : list event :=
  [sample_event "2024-01-01T23:30:00" "A"; sample_event "2024-01-02T00:15:00" "B"].

(** A last switch half an hour before midnight. *)
Definition late_log : list event :=
  [sample_event "2024-01-01T22:00:00" "A"; sample_event "2024-01-01T23:30:00" "B"].

(** Two switches on one morning, the earlier one with an unpadded hour,
    in the order in which [sort_events] leaves them. *)
Definition unpadded_log : list event :=
  [sample_event "2024-01-01T10:00:00" "A"; sample_event "2024-01-01T9:30:00" "B"].

(** 2024-01-01T23:30:00 and 2024-01-03T00:30:00. *)
Definition sample_start : datetime := mk_datetime 738886 84600000000.
Definition sample_end : datetime := mk_datetime 738888 1800000000.

End Vis.

Export Vis.

(** ** main.py *)

Module Main.

(** *** [hashlib.md5] (RFC 1321) on a list of bytes *)

Definition mask32 (x : Z) : Z := x mod 2 ^ 32.
Definition rotl32 (x s : Z) : Z :=
  mask32 (Z.lor (Z.shiftl x s) (Z.shiftr x (32 - s))).
Definition not32 (x : Z) : Z := Z.lxor x 0xffffffff.

Definition md5_shifts : list Z :=
  [7; 12; 17; 22; 7; 12; 17; 22; 7; 12; 17; 22; 7; 12; 17; 22;
   5; 9; 14; 20; 5; 9; 14; 20; 5; 9; 14; 20; 5; 9; 14; 20;
   4; 11; 16; 23; 4; 11; 16; 23; 4; 11; 16; 23; 4; 11; 16; 23;
   6; 10; 15; 21; 6; 10; 15; 21; 6; 10; 15; 21; 6; 10; 15; 21].

Definition md5_sines : list Z :=
  [0xd76aa478; 0xe8c7b756; 0x242070db; 0xc1bdceee;
   0xf57c0faf; 0x4787c62a; 0xa8304613; 0xfd469501;
   0x698098d8; 0x8b44f7af; 0xffff5bb1; 0x895cd7be;
   0x6b901122; 0xfd987193; 0xa679438e; 0x49b40821;
   0xf61e2562; 0xc040b340; 0x265e5a51; 0xe9b6c7aa;
   0xd62f105d; 0x02441453; 0xd8a1e681; 0xe7d3fbc8;
   0x21e1cde6; 0xc33707d6; 0xf4d50d87; 0x455a14ed;
   0xa9e3e905; 0xfcefa3f8; 0x676f02d9; 0x8d2a4c8a;
   0xfffa3942; 0x8771f681; 0x6d9d6122; 0xfde5380c;
   0xa4beea44; 0x4bdecfa9; 0xf6bb4b60; 0xbebfbc70;
   0x289b7ec6; 0xeaa127fa; 0xd4ef3085; 0x04881d05;
   0xd9d4d039; 0xe6db99e5; 0x1fa27cf8; 0xc4ac5665;
   0xf4292244; 0x432aff97; 0xab9423a7; 0xfc93a039;
   0x655b59c3; 0x8f0ccc92; 0xffeff47d; 0x85845dd1;
   0x6fa87e4f; 0xfe2ce6e0; 0xa3014314; 0x4e0811a1;
   0xf7537e82; 0xbd3af235; 0x2ad7d2bb; 0xeb86d391].

(** Little-endian bytes to a number, and a number to [n] little-endian bytes. *)
Definition le_int (bytes : list Z) : Z := foldr (fun b acc => b + 256 * acc) 0 bytes.
Fixpoint le_bytes (n : nat) (x : Z) : list Z :=
  match n with
  | O => []
  | S n' => x mod 256 :: le_bytes n' (x / 256)
  end.
(** Big-endian bytes to a number: [int(hexdigest, 16)] of those bytes. *)
Definition be_int (bytes : list Z) : Z := foldl (fun acc b => 256 * acc + b) 0 bytes.

Definition md5_pad (msg : list Z) : list Z :=
  let len := Z.of_nat (length msg) in
  let zeros := Z.to_nat ((55 - len) mod 64) in
  msg ++ [0x80] ++ repeat 0 zeros ++ le_bytes 8 ((8 * len) mod 2 ^ 64).

Definition md5_state : Type := (Z * Z * Z * Z)%type.

Definition md5_step (words : list Z) (st : md5_state) (i : Z) : md5_state :=
  let '(a, b, c, d) := st in
  let '(f, g) :=
    if i <? 16 then (Z.lor (Z.land b c) (Z.land (not32 b) d), i)
    else if i <? 32 then (Z.lor (Z.land d b) (Z.land (not32 d) c), (5 * i + 1) mod 16)
    else if i <? 48 then (Z.lxor (Z.lxor b c) d, (3 * i + 5) mod 16)
    else (Z.lxor c (Z.lor b (not32 d)), (7 * i) mod 16) in
  let f := mask32 (f + a + nth (Z.to_nat i) md5_sines 0 + nth (Z.to_nat g) words 0) in
  (d, mask32 (b + rotl32 f (nth (Z.to_nat i) md5_shifts 0)), b, c).

Definition md5_block (st : md5_state) (block : list Z) : md5_state :=
  let words := map (fun j => le_int (take 4 (drop (4 * j) block))) (seq 0 16) in
  let '(a0, b0, c0, d0) := st in
  let '(a, b, c, d) := foldl (md5_step words) st (map Z.of_nat (seq 0 64)) in
  (mask32 (a0 + a), mask32 (b0 + b), mask32 (c0 + c), mask32 (d0 + d)).

Fixpoint md5_blocks (n : nat) (st : md5_state) (msg : list Z) : md5_state :=
  match n with
  | O => st
  | S n' => md5_blocks n' (md5_block st (take 64 msg)) (drop 64 msg)
  end.

(** [hashlib.md5(msg).digest()]: sixteen bytes. *)
Definition md5_digest (msg : list Z) : list Z :=
  let padded := md5_pad msg in
  let '(a, b, c, d) :=
    md5_blocks (length padded / 64)
      (0x67452301, 0xefcdab89, 0x98badcfe, 0x10325476) padded in
  le_bytes 4 a ++ le_bytes 4 b ++ le_bytes 4 c ++ le_bytes 4 d.

(** [s.encode()].  A [str] is kept as the bytes of its UTF-8 encoding, which
    are what [encode] returns.  A [str] with a lone surrogate, such as
    [json.load] makes from the escape \ud800, has no encoding: there
    [s.encode()] raises [UnicodeEncodeError], and such a [str] is not among
    the strings of this development ([encodable] below tells). *)
Definition encode (s : string) : list Z :=
  map (fun c => Z.of_N (N_of_ascii c)) (list_ascii_of_string s).

(** Well-formed UTF-8, as the Unicode standard tabulates it: [need] more
    continuation bytes are due, the next of them within [lo] and [hi]. *)
Fixpoint utf8_from (need : nat) (lo hi : Z) (s : string) : bool :=
  match s with
  | EmptyString => Nat.eqb need 0
  | String c s' =>
      let n := Z.of_N (N_of_ascii c) in
      match need with
      | O =>
          if n <? 128 then utf8_from 0 128 191 s'
          else if (194 <=? n) && (n <=? 223) then utf8_from 1 128 191 s'
          else if n =? 224 then utf8_from 2 160 191 s'
          else if (225 <=? n) && (n <=? 236) then utf8_from 2 128 191 s'
          else if n =? 237 then utf8_from 2 128 159 s'
          else if (238 <=? n) && (n <=? 239) then utf8_from 2 128 191 s'
          else if n =? 240 then utf8_from 3 144 191 s'
          else if (241 <=? n) && (n <=? 243) then utf8_from 3 128 191 s'
          else if n =? 244 then utf8_from 3 128 143 s'
          else false
      | S need' => (lo <=? n) && (n <=? hi) && utf8_from need' 128 191 s'
      end
  end.

(** The bytes are the encoding of a text: [s.encode()] returns them. *)
Definition encodable (s : string) : bool := utf8_from 0 128 191 s.

(** [int(hashlib.md5(s.encode()).hexdigest(), 16)] *)
Definition md5_int (s : string) : Z := be_int (md5_digest (encode s)).

(** *** [colorsys.hsv_to_rgb] *)

Definition rgb : Type := (float * float * float)%type.

Definition hsv_to_rgb (h s v : float) : rgb :=
  if PrimFloat.eqb s 0 then (v, v, v)
  else
    let i := int_of_float (h * 6)%float in
    let f := (h * 6 - float_of_Z i)%float in
    let p := (v * (1 - s))%float in
    let q := (v * (1 - s * f))%float in
    let t := (v * (1 - s * (1 - f)))%float in
    match i mod 6 with
    | 0 => (v, t, p)
    | 1 => (q, v, p)
    | 2 => (p, v, t)
    | 3 => (p, q, v)
    | 4 => (t, p, v)
    | _ => (v, p, q)
    end.

(** *** Unique colour generation *)

(** The colour the hash of a name selects. *)
Definition hashed_color (project_name : string) : rgb :=
  let hash_val := md5_int project_name in
  let hue := (float_of_Z (hash_val mod 360) / 360)%float in
  let saturation := 0.6%float in
  let value := 0.9%float in
  hsv_to_rgb hue saturation value.

(** [get_color], the module-level [project_color_cache] passed in and out. *)
Definition get_color (project_name : string) (project_color_cache : gmap string rgb)
  : rgb * gmap string rgb :=
  match project_color_cache !! project_name with
  | Some cached => (cached, project_color_cache)
  | None =>
      let c := hashed_color project_name in
      (c, <[project_name := c]> project_color_cache)
  end.

(** ['{:02x}'.format(n)] *)
Definition format_02x (n : Z) : string :=
  let digits := HexadecimalString.NilZero.string_of_uint (N.to_hex_uint (Z.to_N (Z.abs n))) in
  if n <? 0 then "-" +:+ digits
  else if (String.length digits <? 2)%nat then "0" +:+ digits else digits.

Definition rgb_to_hex (c : rgb) : string :=
  let '(r, g, b) := c in
  "#" +:+ format_02x (int_of_float (r * 255)%float)
      +:+ format_02x (int_of_float (g * 255)%float)
      +:+ format_02x (int_of_float (b * 255)%float).

(** *** Project switching *)

(** The module-level state [switch_project] reads and writes, with the
    contents of history.json ([None] while the file does not exist) and the
    text of the status label. *)
Record dashboard : Type := mk_dashboard {
  current_project : option string;
  project_start_time : option datetime;
  history : list event;
  log_file : option (list event);
  project_color_cache : gmap string rgb;
  status_label : string
}.

(** [save_history()] rewrites the whole file from [history]. *)
Definition save_history (st : dashboard) : dashboard :=
  mk_dashboard (current_project st) (project_start_time st) (history st)
    (Some (history st)) (project_color_cache st) (status_label st).

(** Truth value of the optional argument [color_override]. *)
Definition truthy (o : option string) : bool :=
  match o with
  | Some s => negb (String.eqb s "")
  | None => false
  end.

(** [switch_project(project, color_override)]; [now] and [now'] are the two
    readings of [datetime.now()]. *)
Definition switch_project (project : string) (color_override : option string)
    (now now' : datetime) (st : dashboard) : dashboard :=
  if bool_decide (Some project = current_project st) then st
  else
    let '(color, cache) :=
      if String.eqb project "END_OF_DAY" then ("#ff6666", project_color_cache st)
      else if truthy color_override then (default "" color_override, project_color_cache st)
      else let '(c, cache) := get_color project (project_color_cache st) in
           (rgb_to_hex c, cache) in
    let event := mk_event (Some (isoformat now')) (Some project) (Some color) in
    save_history
      (mk_dashboard (Some project) (Some now) (history st ++ [event]) (log_file st)
         cache ("Current project: " +:+ project)).

(** *** Text colour on a background *)

(** A [str] is kept as the bytes of its UTF-8 encoding, while [s[i:j]] and
    [len(s)] count characters: a character begins at every byte that is not
    a continuation byte (10xxxxxx). *)
Definition is_continuation (c : ascii) : bool :=
  let n := Z.of_N (N_of_ascii c) in
  (128 <=? n) && (n <? 192).

(** The bytes of the characters at the positions [i] to [j - 1] of a text of
    which [s] is the rest, [n] characters having begun before [s]. *)
Fixpoint chars_between (i j n : nat) (s : string) : string :=
  match s with
  | EmptyString => EmptyString
  | String c s' =>
      let n := if is_continuation c then n else S n in
      if (i <? n)%nat && (n <=? j)%nat then String c (chars_between i j n s')
      else chars_between i j n s'
  end.

(** [s[i:j]] for [i <= j]. *)
Definition slice (i j : nat) (s : string) : string := chars_between i j 0 s.

(** [len(s)] *)
Fixpoint py_len (s : string) : nat :=
  match s with
  | EmptyString => 0
  | String c s' => if is_continuation c then py_len s' else S (py_len s')
  end.

(** [s] is made of whole characters: its first byte, if any, begins one. *)
Definition whole_chars (s : string) : bool :=
  match s with
  | EmptyString => true
  | String c _ => negb (is_continuation c)
  end.

(** [s] is one character. *)
Definition one_char (s : string) : bool :=
  whole_chars s && Nat.eqb (py_len s) 1.

(** The white space [int] skips: tab to carriage return, and the blank. *)
Definition is_c_space (c : ascii) : bool :=
  let n := Z.of_N (N_of_ascii c) in
  (9 <=? n) && (n <=? 13) || (n =? 32).

Definition hex_value (c : ascii) : option Z :=
  let n := Z.of_N (N_of_ascii c) in
  if (48 <=? n) && (n <=? 57) then Some (n - 48)
  else if (97 <=? n) && (n <=? 102) then Some (n - 87)
  else if (65 <=? n) && (n <=? 70) then Some (n - 55)
  else None.

Fixpoint skip_spaces (s : string) : string :=
  match s with
  | String c s' => if is_c_space c then skip_spaces s' else s
  | EmptyString => EmptyString
  end.

Fixpoint only_spaces (s : string) : bool :=
  match s with
  | String c s' => is_c_space c && only_spaces s'
  | EmptyString => true
  end.

(** Hexadecimal digits, single underscores between them, then white space
    to the end. *)
Fixpoint hex_digits (acc : Z) (after_underscore : bool) (s : string) : option Z :=
  match s with
  | EmptyString => if after_underscore then None else Some acc
  | String c s' =>
      match hex_value c with
      | Some d => hex_digits (16 * acc + d) false s'
      | None =>
          if after_underscore then None
          else if Ascii.eqb c "_" then hex_digits acc true s'
          else if only_spaces s then Some acc else None
      end
  end.

(** [int(s, 16)] on ASCII text (the library also reads the digits and
    spaces of other scripts). *)
Definition py_int16 (s : string) : result Z :=
  let s := skip_spaces s in
  let '(negative, s) :=
    match s with
    | String "-" s' => (true, s')
    | String "+" s' => (false, s')
    | _ => (false, s)
    end in
  let s :=
    match s with
    | String "0" (String x s') =>
        if Ascii.eqb x "x" || Ascii.eqb x "X"
        then match s' with String "_" s'' => s'' | _ => s' end
        else s
    | _ => s
    end in
  match s with
  | String c _ =>
      match hex_value c, hex_digits 0 false s with
      | Some _, Some v => Ok (if negative then - v else v)
      | _, _ => Raise ValueError
      end
  | EmptyString => Raise ValueError
  end.

Definition get_contrasting_text_color (bg_hex : string) : result string :=
  rbind (py_int16 (slice 1 3 bg_hex)) (fun r =>
  rbind (py_int16 (slice 3 5 bg_hex)) (fun g =>
  rbind (py_int16 (slice 5 7 bg_hex)) (fun b =>
  let brightness := (float_of_Z (r * 299 + g * 587 + b * 114) / 1000)%float in
  Ok (if PrimFloat.ltb brightness 128 then "white" else "black")))).

(** The colour of a hue in degrees, at the fixed saturation and value. *)
Definition color_of_hue (degrees : Z) : rgb :=
  hsv_to_rgb (float_of_Z degrees / 360) 0.6 0.9.

(** *** The jobs file *)

Record job : Type := mk_job {
  job_name : string;
  job_color : string
}.

(** An element of jobs.json: a dict (of which only the two keys matter, their
    values taken to be strings, as the program writes them), a bare string,
    or anything else.  The file, when it is JSON, is taken to hold a list.
    (A file that is not text, and a JSON number, null or boolean, which
    [for j in jobs] cannot walk, end [load_jobs] with an exception that it
    does not catch; they are not among the cases.) *)
Inductive jobs_entry : Type :=
| EntryDict (name color : option string)
| EntryStr (s : string)
| EntryOther.

Inductive jobs_file : Type :=
| JobsMissing
| JobsNotJSON
| JobsJSON (entries : list jobs_entry).

(** [{"name": name, "color": rgb_to_hex(get_color(name))}] *)
Definition default_job (name : string) (cache : gmap string rgb) : job * gmap string rgb :=
  let '(c, cache) := get_color name cache in
  (mk_job name (rgb_to_hex c), cache).

(** The loop of [load_jobs] over the entries of the file. *)
Fixpoint normalise_jobs (entries : list jobs_entry) (cache : gmap string rgb)
  : list job * gmap string rgb :=
  match entries with
  | [] => ([], cache)
  | EntryDict (Some name) (Some color) :: rest =>
      let '(new_jobs, cache) := normalise_jobs rest cache in
      (mk_job name color :: new_jobs, cache)
  | EntryStr j :: rest =>
      let '(upgraded, cache) := default_job j cache in
      let '(new_jobs, cache) := normalise_jobs rest cache in
      (upgraded :: new_jobs, cache)
  | _ :: rest => normalise_jobs rest cache
  end.

Definition load_jobs (file : jobs_file) (cache : gmap string rgb)
  : list job * gmap string rgb :=
  let '(job1, cache) := default_job "Job1" cache in
  let '(job2, cache) := default_job "Job2" cache in
  let default_job_list := [job1; job2] in
  match file with
  | JobsJSON entries =>
      let '(new_jobs, cache) := normalise_jobs entries cache in
      (match new_jobs with [] => default_job_list | _ => new_jobs end, cache)
  | JobsNotJSON => (default_job_list, cache)
  | JobsMissing => (default_job_list, cache)
  end.

Definition save_jobs (jobs : list job) : jobs_file :=
  JobsJSON (map (fun j => EntryDict (Some (job_name j)) (Some (job_color j))) jobs).

(** *** The grid of job buttons *)

(** [math.ceil(x)] for a finite float. *)
Definition py_ceil (x : float) : Z :=
  let t := int_of_float x in
  if PrimFloat.ltb (float_of_Z t) x then t + 1 else t.

Record button : Type := mk_button {
  b_text : string;
  b_bg : string;
  b_fg : string;
  b_command : string * string;   (* the arguments of [switch_project] *)
  b_row : Z;
  b_column : Z
}.

Record grid : Type := mk_grid {
  rows_count : Z;
  cols : Z;
  buttons : list button
}.

Definition grid_cols (num_jobs : Z) : Z :=
  if 0 <? num_jobs then py_ceil (PrimFloat.sqrt (float_of_Z num_jobs)) else 1.

Definition grid_rows (num_jobs cols : Z) : Z :=
  py_ceil (float_of_Z num_jobs / float_of_Z cols).

(** The loop [for i, job in enumerate(jobs)], from index [i] on: the buttons
    it asks Tk for.  Tk looks at [bg] itself when a button is made and raises
    [TclError] on a string that is no colour of its own; that is not part of
    the model, whose buttons are those of a run in which Tk takes every
    colour. *)
Fixpoint make_buttons (cols : Z) (i : Z) (jobs : list job) : result (list button) :=
  match jobs with
  | [] => Ok []
  | job :: rest =>
      rbind (get_contrasting_text_color (job_color job)) (fun fg_color =>
      rbind (make_buttons cols (i + 1) rest) (fun btns =>
      Ok (mk_button (job_name job) (job_color job) fg_color
            (job_name job, job_color job) (i / cols) (i mod cols) :: btns)))
  end.

Definition update_job_buttons (file : jobs_file) (cache : gmap string rgb)
  : result grid * gmap string rgb :=
  let '(jobs, cache) := load_jobs file cache in
  let num_jobs := Z.of_nat (length jobs) in
  let cols := grid_cols num_jobs in
  let rows_count := grid_rows num_jobs cols in
  (rbind (make_buttons cols 0 jobs) (fun btns => Ok (mk_grid rows_count cols btns)), cache).

(** *** The edit window *)

(** A row of the window: its frame, the text of the entry and the background
    of the colour button. *)
Record job_row : Type := mk_job_row {
  r_frame : nat;
  r_name_entry : string;
  r_color_button : string
}.

(** [add_job_row(job_name, job_color)]; [frame] is the frame it creates.
    As for the job buttons, Tk is taken to accept the colour. *)
Definition add_job_row (frame : nat) (job_name job_color : string)
    (rows : list job_row) (cache : gmap string rgb)
  : result (list job_row) * gmap string rgb :=
  let '(job_color, cache) :=
    if String.eqb job_color "" then
      if String.eqb job_name "" then ("#777777", cache)
      else let '(c, cache) := get_color job_name cache in (rgb_to_hex c, cache)
    else (job_color, cache) in
  (rbind (get_contrasting_text_color job_color) (fun _ =>
   Ok (rows ++ [mk_job_row frame job_name job_color])), cache).

(** [remove_job_row(frame)]: the first row of that frame goes. *)
Fixpoint remove_job_row (frame : nat) (rows : list job_row) : list job_row :=
  match rows with
  | [] => []
  | row :: rest =>
      if Nat.eqb (r_frame row) frame then rest else row :: remove_job_row frame rest
  end.

Section SaveEdits.
(** [str.strip] *)
Variable strip : string -> string.

(** The rows that [save_edits] keeps: those with a name left after [strip]. *)
Fixpoint collect_jobs (rows : list job_row) : list job :=
  match rows with
  | [] => []
  | row :: rest =>
      let name := strip (r_name_entry row) in
      let color := r_color_button row in
      if String.eqb name "" then collect_jobs rest
      else mk_job name color :: collect_jobs rest
  end.

(** [save_edits()]: the file it writes, the grid it redraws, the cache. *)
Definition save_edits (rows : list job_row) (cache : gmap string rgb)
  : jobs_file * result grid * gmap string rgb :=
  let new_jobs := collect_jobs rows in
  let '(new_jobs, cache) :=
    match new_jobs with
    | [] =>
        let '(falcon, cache) := default_job "Falcon" cache in
        let '(toyota, cache) := default_job "Toyota" cache in
        ([falcon; toyota], cache)
    | _ => (new_jobs, cache)
    end in
  let file := save_jobs new_jobs in
  let '(redrawn, cache) := update_job_buttons file cache in
  (file, redrawn, cache).
End SaveEdits.

(** The loop of [edit_jobs] that creates a row for each current job; the
    frames are numbered in the order in which they are created. *)
Fixpoint add_job_rows (frame : nat) (jobs : list job) (rows : list job_row)
    (cache : gmap string rgb) : result (list job_row) * gmap string rgb :=
  match jobs with
  | [] => (Ok rows, cache)
  | job :: rest =>
      let '(added, cache) := add_job_row frame (job_name job) (job_color job) rows cache in
      match added with
      | Ok rows => add_job_rows (S frame) rest rows cache
      | Raise e => (Raise e, cache)
      end
  end.

(** [edit_jobs()] up to the rows it shows. *)
Definition edit_jobs (file : jobs_file) (cache : gmap string rgb)
  : result (list job_row) * gmap string rgb :=
  let '(jobs, cache) := load_jobs file cache in
  add_job_rows 0 jobs [] cache.

(** *** The details label *)

(** [str(n)] for a number that is not negative. *)
Definition decimal (n : Z) : string :=
  DecimalString.NilZero.string_of_uint (N.to_uint (Z.to_N n)).

Definition lower_char (c : ascii) : ascii :=
  let n := N_of_ascii c in
  if ((65 <=? n) && (n <=? 90))%N then ascii_of_N (n + 32) else c.

(** [s.lower()] on ASCII text. *)
Fixpoint lower (s : string) : string :=
  match s with
  | EmptyString => EmptyString
  | String c s' => String (lower_char c) (lower s')
  end.

(** [dt.strftime("%I:%M%p")] *)
Definition strftime_I_M_p (dt : datetime) : string :=
  let h12 := if hour dt mod 12 =? 0 then 12 else hour dt mod 12 in
  pad_decimal 2 h12 +:+ ":" +:+ pad_decimal 2 (minute dt)
  +:+ (if hour dt <? 12 then "AM" else "PM").

(** [hours] and [minutes] of [update_details]: [delta.seconds] is the part
    of the difference below one day. *)
Definition elapsed_hours_minutes (start now : datetime) : Z * Z :=
  let delta_seconds := ((to_us now - to_us start) / US_PER_SECOND) mod 86400 in
  (delta_seconds / 3600, (delta_seconds mod 3600) / 60).

(** The text [update_details] puts on the details label. *)
Definition update_details (st : dashboard) (now : datetime) : string :=
  match current_project st, project_start_time st with
  | Some p, Some start =>
      if negb (String.eqb p "") && negb (String.eqb p "END_OF_DAY") then
        let start_time_str := lower (strftime_I_M_p start) in
        let '(hours, minutes) := elapsed_hours_minutes start now in
        "Start Time: " +:+ start_time_str +:+ String "010" ("Duration: " +:+ decimal hours
          +:+ "hrs " +:+ decimal minutes +:+ "mins")
      else ""
  | _, _ => ""
  end.

(** *** Starting and ending the day *)

(** [end_day()]: the sentinel is logged (and the window closed). *)
Definition end_day (now now' : datetime) (st : dashboard) : dashboard :=
  switch_project "END_OF_DAY" None now now' st.

(** [json.load(f)] at the top of the module, inside [try] ... [except
    json.JSONDecodeError]. *)
Definition load_history (log : history_file) : result unit :=
  match log with
  | FileUndecodable => Raise UnicodeDecodeError
  | _ => Ok tt
  end.

(** [history[-1]["project"]] when [history] is truthy but no list. *)
Definition last_of_other (log : history_file) : result unit :=
  match log with
  | FileJSONOther true true => Raise KeyError
  | FileJSONOther true false => Raise TypeError
  | _ => Ok tt
  end.

Section Startup.
Variable fromisoformat : string -> option datetime.

(** The module body: read the history, draw the job buttons, restore the
    project that was active when the dashboard was closed.  A history that is
    not JSON counts as an empty one; one that is not text ends the program
    at once, [json.JSONDecodeError] being all that is caught.  A history that
    is a truthy JSON value but not a list fails at [history[-1]["project"]]:
    an object has no key -1, the other values cannot be indexed so.  With a
    falsy value that is not a list nothing is restored; [history] then is
    that value, which the [dashboard] record, made for a list, shows as the empty
    list. *)
Definition startup (log : history_file) (jobs : jobs_file) (now : datetime)
  : result (dashboard * grid) :=
  let history := match log with FileJSON events => events | _ => [] end in
  let on_disk := match log with FileJSON events => Some events | _ => None end in
  rbind (load_history log) (fun _ =>
  let '(drawn, cache) := update_job_buttons jobs ∅ in
  rbind drawn (fun job_grid =>
  rbind (last_of_other log) (fun _ =>
  match last history with
  | None => Ok (mk_dashboard None None history on_disk cache "No project selected", job_grid)
  | Some last_event =>
      rbind (match project last_event with Some p => Ok p | None => Raise KeyError end)
        (fun p =>
      if String.eqb p "END_OF_DAY"
      then Ok (mk_dashboard None None history on_disk cache "No project selected", job_grid)
      else
        rbind (match timestamp last_event with Some ts => Ok ts | None => Raise KeyError end)
          (fun ts =>
        let start := match fromisoformat ts with Some dt => dt | None => now end in
        Ok (mk_dashboard (Some p) (Some start) history on_disk cache
              ("Current project: " +:+ p), job_grid)))
  end))).
End Startup.

(** One press of a button: the arguments of [switch_project] and the two
    readings of the clock. *)
Record press : Type := mk_press {
  p_project : string;
  p_color : option string;
  p_now : datetime;
  p_now' : datetime
}.

Definition run_presses (presses : list press) (st : dashboard) : dashboard :=
  foldl (fun st p => switch_project (p_project p) (p_color p) (p_now p) (p_now' p) st)
        st presses.

(** No two neighbours in the log name the same project. *)
Fixpoint no_repeats (events : list event) : bool :=
  match events with
  | e :: ((e' :: _) as rest) =>
      negb (bool_decide (project e = project e')) && no_repeats rest
  | _ => true
  end.

(** The state of a dashboard started without a history file. *)
Definition fresh_dashboard : dashboard :=
  mk_dashboard None None [] None ∅ "No project selected".

(** The colour cache after [get_color] was called on each of [names] in turn
    in a fresh process. *)
Definition after_calls (names : list string) : gmap string rgb :=
  foldl (fun cache name => snd (get_color name cache)) ∅ names.

(** Every cached colour is the one the hash of its name selects. *)
Definition cache_consistent (cache : gmap string rgb) : Prop :=
  forall name c, cache !! name = Some c -> c = hashed_color name.

(** *** Running conditions of the dashboard, as checks *)

(** The colour is of the form [#RRGGBB]. *)
Definition hex_color (s : string) : bool :=
  match s with
  | String c0 (String c1 (String c2 (String c3 (String c4 (String c5
      (String c6 EmptyString)))))) =>
      Ascii.eqb c0 "#"
      && forallb (fun c => bool_decide (is_Some (hex_value c))) [c1; c2; c3; c4; c5; c6]
  | _ => false
  end.

(** The entries of jobs.json that [load_jobs] keeps as they are have a
    colour of that form. *)
Definition entry_ok (e : jobs_entry) : bool :=
  match e with
  | EntryDict (Some _) (Some c) => hex_color c
  | _ => true
  end.

Definition jobs_file_ok (file : jobs_file) : bool :=
  match file with
  | JobsJSON entries => forallb entry_ok entries
  | _ => true
  end.

(** The bare strings among the entries are texts that [get_color] can
    encode. *)
Definition entry_encodable (e : jobs_entry) : bool :=
  match e with
  | EntryStr s => encodable s
  | _ => true
  end.

(** The state between two presses of a button: the log on disk is the log
    in memory (no file while nothing was logged), the current project is
    that of the last event, no two neighbours of the log name one project,
    and every event has its three fields. *)
Definition logged_state (st : dashboard) : Prop :=
  (log_file st = Some (history st) \/ (log_file st = None /\ history st = []))
  /\ (last (history st) ≫= project) = current_project st
  /\ no_repeats (history st) = true
  /\ Forall (fun e => is_Some (timestamp e) /\ is_Some (project e) /\ is_Some (color e))
            (history st)
  /\ cache_consistent (project_color_cache st).

(** history.json as the next start of the program finds it. *)
Definition file_of (st : dashboard) : history_file :=
  match log_file st with
  | Some events => FileJSON events
  | None => FileMissing
  end.

End Main.
Export Main.

(** ** Orders of dates and timestamps *)

(** The date of an ordinal as one number, year first. *)
Definition ymd_key (n : Z) : Z :=
  let '(y, m, d) := ord2ymd n in y * 10000 + m * 100 + d.

(** [e'] does not sort before [e] in [sort_events]. *)
Definition stamp_le (e e' : event) : Prop :=
  key_ltb (timestamp e') (timestamp e) = false.

(** * Properties *)

(** ** The monad *)

Lemma bind_Ok {A B} (m : M A) (k : A -> M B) out b :
  bind m k = (out, Ok b) ->
  exists o1 a o2, m = (o1, Ok a) /\ k a = (o2, Ok b) /\ out = o1 ++ o2.
Proof.
  destruct m as [o1 [a|e]]; simpl; [destruct (k a) as [o2 r] eqn:E|];
    intros H; inversion H; subst; eauto 10.
Qed.

Lemma bind_Raise_l {A B} (m : M A) (k : A -> M B) out e :
  m = (out, Raise e) -> bind m k = (out, Raise e).
Proof. intros ->. reflexivity. Qed.

Lemma bind_ret_l {A B} (a : A) (k : A -> M B) : bind (ret a) k = k a.
Proof. unfold bind, ret. destruct (k a). reflexivity. Qed.

Lemma bind_silent {A B} (m : M A) (k : A -> M B) a :
  m = ([], Ok a) -> bind m k = k a.
Proof. intros ->. apply bind_ret_l. Qed.

(** ** Splitting a string at a separator *)

Lemma split_no_sep sep s : has_char sep s = false -> split sep s = [s].
Proof.
  induction s as [|c s IH]; simpl; [reflexivity|].
  intros H. apply orb_false_iff in H as [Hc Hs].
  rewrite Hc, (IH Hs). reflexivity.
Qed.

Lemma split_one_sep sep a b :
  has_char sep a = false -> has_char sep b = false ->
  split sep (a +:+ String sep b) = [a; b].
Proof.
  intros Ha Hb. induction a as [|c a IH]; simpl.
  - rewrite Ascii.eqb_refl, (split_no_sep _ _ Hb). reflexivity.
  - simpl in Ha. apply orb_false_iff in Ha as [Hc Ha].
    rewrite Hc, (IH Ha). reflexivity.
Qed.

Lemma split_one_piece sep s b : split sep s = [b] -> s = b.
Proof.
  revert b. induction s as [|c s IH]; intros b; simpl.
  - intros [= <-]. reflexivity.
  - destruct (Ascii.eqb c sep).
    + destruct s; simpl; [discriminate|].
      destruct (Ascii.eqb a sep); [discriminate|].
      destruct (split sep s); discriminate.
    + destruct (split sep s) as [|p ps] eqn:E; [intros [= <-]|intros [= <- ->]].
      * destruct s; simpl in E; [discriminate|].
        destruct (Ascii.eqb a sep); [discriminate|]. destruct (split sep s); discriminate.
      * f_equal. apply IH. reflexivity.
Qed.

Lemma split_two_pieces sep s a b :
  split sep s = [a; b] -> s = a +:+ String sep b.
Proof.
  revert a. induction s as [|c s IH]; intros a; simpl; [discriminate|].
  destruct (Ascii.eqb_spec c sep) as [->|Hne].
  - intros [= <- H]. rewrite (split_one_piece _ _ _ H). reflexivity.
  - destruct (split sep s) as [|p ps] eqn:E; [discriminate|].
    intros [= <- ->]. rewrite (IH p eq_refl). reflexivity.
Qed.

(** ** Parsing one timestamp *)

Section ParseFacts.
Variable fromisoformat : string -> option datetime.

Lemma fix_hour_silent ts : fst (fix_hour fromisoformat ts) = [].
Proof.
  unfold fix_hour.
  destruct (split "T" ts) as [|dp [|tp [|? ?]]]; try reflexivity.
  destruct (0 <? String.length tp)%nat; [destruct (String.get 1 tp)|];
    try reflexivity; rewrite bind_ret_l;
    match goal with |- context [fromisoformat ?x] => destruct (fromisoformat x) end;
    reflexivity.
Qed.

(** A successful fix-up parsed the timestamp itself or the timestamp with a
    zero inserted after its [T]. *)
Lemma fix_hour_Ok ts out d :
  fix_hour fromisoformat ts = (out, Ok d) ->
  fromisoformat ts = Some d
  \/ exists dp tp, ts = dp +:+ "T" +:+ tp
                   /\ fromisoformat (dp +:+ "T" +:+ "0" +:+ tp) = Some d.
Proof.
  unfold fix_hour.
  destruct (split "T" ts) as [|dp [|tp [|? ?]]] eqn:Hs; try discriminate.
  apply split_two_pieces in Hs. change (ts = dp +:+ "T" +:+ tp) in Hs.
  destruct (0 <? String.length tp)%nat; [destruct (String.get 1 tp) as [c|]|];
    try discriminate; rewrite bind_ret_l.
  - destruct (Ascii.eqb c ":").
    + destruct (fromisoformat (dp +:+ "T" +:+ "0" +:+ tp)) eqn:E; [|discriminate].
      intros [= _ <-]. right. exists dp, tp. split; [exact Hs | exact E].
    + rewrite <- Hs. destruct (fromisoformat ts); [|discriminate].
      intros [= _ <-]. left. reflexivity.
  - rewrite <- Hs. destruct (fromisoformat ts); [|discriminate].
    intros [= _ <-]. left. reflexivity.
Qed.

Lemma parse_event_Ok e out d :
  parse_event fromisoformat e = (out, Ok d) ->
  out = []
  /\ exists ts, timestamp e = Some ts
     /\ (fromisoformat ts = Some d
         \/ exists dp tp, ts = dp +:+ "T" +:+ tp
                          /\ fromisoformat (dp +:+ "T" +:+ "0" +:+ tp) = Some d).
Proof.
  unfold parse_event. destruct (timestamp e) as [ts|]; [|discriminate].
  destruct (fromisoformat ts) as [d'|] eqn:E; simpl.
  - intros [= <- <-]. eauto.
  - pose proof (fix_hour_silent ts) as Hout.
    destruct (fix_hour fromisoformat ts) as [o [d'|ex]] eqn:F; simpl in *; subst o.
    + intros [= <- <-]. split; [reflexivity|]. exists ts. split; [reflexivity|].
      destruct (fix_hour_Ok _ _ _ F) as [H|H]; [congruence|]. right. exact H.
    + discriminate.
Qed.

Lemma parse_event_silent e out d :
  parse_event fromisoformat e = (out, Ok d) -> parse_event fromisoformat e = ([], Ok d).
Proof. intros H. destruct (parse_event_Ok _ _ _ H) as [-> _]. exact H. Qed.

(** An unparseable timestamp: the message, then the exception. *)
Lemma parse_event_malformed e ts :
  timestamp e = Some ts ->
  fromisoformat ts = None ->
  (forall dp tp, ts = dp +:+ "T" +:+ tp ->
                 fromisoformat (dp +:+ "T" +:+ "0" +:+ tp) = None) ->
  exists ex, parse_event fromisoformat e
             = (["Error parsing timestamp: " +:+ ts], Raise ex).
Proof.
  intros Hts Hnone Hfix. unfold parse_event. rewrite Hts, Hnone. simpl.
  pose proof (fix_hour_silent ts) as Hout.
  destruct (fix_hour fromisoformat ts) as [o [d|ex]] eqn:F; simpl in *; subst o.
  - destruct (fix_hour_Ok _ _ _ F) as [H|(dp & tp & -> & H)]; [congruence|].
    rewrite (Hfix dp tp eq_refl) in H. discriminate.
  - exists ex. reflexivity.
Qed.

(** A one-digit hour is padded and the padded timestamp parsed. *)
Lemma parse_event_padded e dp h rest d :
  let ts := dp +:+ "T" +:+ String h (String ":" rest) in
  timestamp e = Some ts ->
  has_char "T" dp = false ->
  has_char "T" (String h (String ":" rest)) = false ->
  fromisoformat (dp +:+ "T" +:+ "0" +:+ String h (String ":" rest)) = Some d ->
  parse_event fromisoformat e = ([], Ok (default d (fromisoformat ts))).
Proof.
  intros ts Hts Hdp Htp Hfix. unfold parse_event. rewrite Hts.
  destruct (fromisoformat ts) as [d'|] eqn:E; [reflexivity|]. simpl.
  unfold fix_hour, ts.
  change (dp +:+ "T" +:+ String h (String ":" rest))
    with (dp +:+ String "T" (String h (String ":" rest))).
  rewrite (split_one_sep "T" dp _ Hdp Htp).
  cbn [String.length Nat.ltb Nat.leb String.get].
  rewrite bind_ret_l, Ascii.eqb_refl, Hfix. reflexivity.
Qed.
End ParseFacts.


(** ** Building the sessions *)

Lemma valid_datetimeb_spec dt : valid_datetimeb dt = true <-> valid_datetime dt.
Proof. unfold valid_datetimeb, valid_datetime. lia. Qed.

Lemma day_end_Ok dt d :
  day_end dt = Ok d -> d = combine_min (date dt + 1) /\ date dt + 1 <= MAXORDINAL.
Proof.
  unfold day_end, date_add_days.
  destruct ((1 <=? date dt + 1) && (date dt + 1 <=? MAXORDINAL)) eqn:E; [|discriminate].
  intros [= <-]. split; [reflexivity | lia].
Qed.

Lemma day_end_in_range dt :
  valid_datetime dt -> date dt < MAXORDINAL -> day_end dt = Ok (combine_min (date dt + 1)).
Proof.
  unfold valid_datetime, day_end, date_add_days, date. intros [[H1 H2] _] H3.
  destruct ((1 <=? ordinal dt + 1) && (ordinal dt + 1 <=? MAXORDINAL)) eqn:E;
    [reflexivity | lia].
Qed.

Lemma add_hour_in_range dt :
  valid_datetime dt -> date dt < MAXORDINAL ->
  exists d', add_timedelta dt US_PER_HOUR = Ok d'.
Proof.
  unfold valid_datetime, add_timedelta, date. intros [[H1 H2] [H3 H4]] H5.
  assert (0 <= (us_of_day dt + US_PER_HOUR) / US_PER_DAY <= 1) as Hq.
  { unfold US_PER_DAY, US_PER_HOUR, US_PER_MINUTE, US_PER_SECOND in *.
    split; [apply Z.div_pos; lia | apply Z.lt_succ_r, Z.div_lt_upper_bound; lia]. }
  destruct ((1 <=? _) && (_ <=? MAXORDINAL)) eqn:E; [eauto | lia].
Qed.

Section BuilderFacts.
Variable fromisoformat : string -> option datetime.

Lemma build_pairs_cons2 e e' rest :
  build_pairs fromisoformat (e :: e' :: rest)
  = (current <- parse_event fromisoformat e ;;
     next_event <- parse_event fromisoformat e' ;;
     end_ <- (if date current =? date next_event then ret next_event
              else lift (day_end current)) ;;
     sessions <- build_pairs fromisoformat (e' :: rest) ;;
     ret (Session current end_ (get (project e) "Unknown") (get (color e) "#cccccc")
            :: sessions))%mon.
Proof. reflexivity. Qed.

(** What a successful run of the pairwise loop has produced. *)
Lemma build_pairs_Ok events out ss :
  build_pairs fromisoformat events = (out, Ok ss) ->
  out = [] /\ S (length ss) = Nat.max 1 (length events)
  /\ forall (i : nat) e e', events !! i = Some e -> events !! S i = Some e' ->
       exists cur nxt,
         parse_event fromisoformat e = ([], Ok cur)
         /\ parse_event fromisoformat e' = ([], Ok nxt)
         /\ (date cur = date nxt \/ date cur + 1 <= MAXORDINAL)
         /\ ss !! i = Some (Session cur
                              (if date cur =? date nxt then nxt
                               else combine_min (date cur + 1))
                              (get (project e) "Unknown") (get (color e) "#cccccc")).
Proof.
  revert out ss. induction events as [|e rest IH]; intros out ss H.
  - injection H as <- <-. repeat split. intros i e e' Hi. discriminate.
  - destruct rest as [|e' rest'].
    + injection H as <- <-. repeat split. intros [|i] ? ? _ Hi; discriminate.
    + rewrite build_pairs_cons2 in H.
      apply bind_Ok in H as (o1 & cur & o2 & Hcur & H & ->).
      apply bind_Ok in H as (o3 & nxt & o4 & Hnxt & H & ->).
      apply bind_Ok in H as (o5 & end_ & o6 & Hend & H & ->).
      apply bind_Ok in H as (o7 & tl & o8 & Htl & H & ->).
      injection H as <- <-.
      destruct (parse_event_Ok _ _ _ _ Hcur) as [-> _].
      destruct (parse_event_Ok _ _ _ _ Hnxt) as [-> _].
      destruct (IH _ _ Htl) as (-> & Hlen & Hnth).
      assert (o5 = [] /\ (date cur = date nxt \/ date cur + 1 <= MAXORDINAL)
              /\ end_ = (if date cur =? date nxt then nxt else combine_min (date cur + 1)))
        as (-> & Hrange & ->).
      { destruct (Z.eqb_spec (date cur) (date nxt)) as [Heq|Hne].
        - injection Hend as <- <-. auto.
        - unfold lift in Hend. injection Hend as <- Hend.
          apply day_end_Ok in Hend as [-> Hle]. auto. }
      split; [reflexivity|]. split; [simpl in *; lia|].
      intros [|i] e0 e0' H0 H1.
      * injection H0 as <-. injection H1 as <-. exists cur, nxt. auto.
      * apply (Hnth i e0 e0' H0 H1).
Qed.

Lemma build_pairs_parsed events out ss :
  build_pairs fromisoformat events = (out, Ok ss) ->
  forall (i : nat) e, events !! i = Some e -> (2 <= length events)%nat ->
    exists d, parse_event fromisoformat e = ([], Ok d).
Proof.
  intros H i e Hi Hlen. destruct (build_pairs_Ok _ _ _ H) as (_ & _ & Hnth).
  destruct (events !! S i) as [e'|] eqn:Hnext.
  - destruct (Hnth i e e' Hi Hnext) as (cur & _ & Hc & _). eauto.
  - destruct i as [|i].
    + apply lookup_ge_None in Hnext. lia.
    + destruct (events !! i) as [e0|] eqn:Hprev.
      * destruct (Hnth i e0 e Hprev Hi) as (_ & nxt & _ & Hn & _). eauto.
      * apply lookup_ge_None in Hprev. apply lookup_lt_Some in Hi. lia.
Qed.

(** What a successful synthesis of the final session has produced. *)
Lemma final_session_Ok events out s :
  final_session fromisoformat events = (out, Ok s) ->
  out = []
  /\ exists e d, last events = Some e
     /\ parse_event fromisoformat e = ([], Ok d)
     /\ s_start s = d
     /\ s_project s = get (project e) "Unknown"
     /\ s_color s = get (color e) "#cccccc"
     /\ (if contains "END_OF_DAY" (get (project e) "Unknown") then s_end s = d
         else add_timedelta d US_PER_HOUR = Ok (s_end s)).
Proof.
  unfold final_session. destruct (last events) as [e|]; [|discriminate].
  intros H. apply bind_Ok in H as (o1 & d & o2 & Hd & H & ->).
  apply bind_Ok in H as (o3 & fe & o4 & Hfe & H & ->).
  injection H as <- <-.
  destruct (parse_event_Ok _ _ _ _ Hd) as [-> _].
  unfold ret, lift in Hfe.
  assert (o3 = []) as -> by (destruct (contains _ _); congruence).
  split; [reflexivity|]. exists e, d. repeat split; try assumption.
  simpl. destruct (contains _ _); congruence.
Qed.

Lemma build_sessions_Ok events out sessions :
  build_sessions fromisoformat events = (out, Ok sessions) ->
  out = []
  /\ exists pairs final,
       build_pairs fromisoformat events = ([], Ok pairs)
       /\ final_session fromisoformat events = ([], Ok final)
       /\ sessions = pairs ++ [final].
Proof.
  unfold build_sessions. intros H.
  apply bind_Ok in H as (o1 & pairs & o2 & Hp & H & ->).
  apply bind_Ok in H as (o3 & final & o4 & Hf & H & ->).
  injection H as <- <-.
  destruct (build_pairs_Ok _ _ _ Hp) as (-> & _).
  destruct (final_session_Ok _ _ _ Hf) as (-> & _).
  split; [reflexivity|]. eauto.
Qed.

(** Every event of a log whose sessions were built has a parsed timestamp. *)
Lemma build_sessions_parsed events out sessions e :
  build_sessions fromisoformat events = (out, Ok sessions) ->
  e ∈ events -> exists d, parse_event fromisoformat e = ([], Ok d).
Proof.
  intros H He. apply build_sessions_Ok in H as (_ & pairs & final & Hp & Hf & _).
  apply list_elem_of_lookup in He as [i Hi].
  destruct (decide (2 <= length events)%nat) as [Hlen|Hlen].
  - apply (build_pairs_parsed _ _ _ Hp i e Hi Hlen).
  - apply final_session_Ok in Hf as (_ & e' & d & Hlast & Hd & _).
    destruct events as [|e0 [|e1 l]]; simpl in Hlen; try lia; [discriminate|].
    destruct i; [|discriminate]. injection Hi as <-. injection Hlast as <-. eauto.
Qed.

Lemma parses_in_range_spec e :
  parses_in_range fromisoformat e = true ->
  exists d, parse_event fromisoformat e = ([], Ok d)
            /\ valid_datetime d /\ date d < MAXORDINAL.
Proof.
  unfold parses_in_range.
  destruct (parse_event fromisoformat e) as [o [d|ex]] eqn:E; [|discriminate].
  intros H. apply andb_true_iff in H as [Hv Hd].
  exists d. apply valid_datetimeb_spec in Hv.
  destruct (parse_event_Ok _ _ _ _ E) as [-> _].
  split; [reflexivity|]. split; [exact Hv | lia].
Qed.

(** The pairwise loop runs to its end on a log of in-range timestamps. *)
Lemma build_pairs_total events :
  forallb (parses_in_range fromisoformat) events = true ->
  exists ss, build_pairs fromisoformat events = ([], Ok ss).
Proof.
  induction events as [|e rest IH]; [eexists; reflexivity|].
  intros H. apply andb_true_iff in H as [He Hrest].
  destruct rest as [|e' rest']; [eexists; reflexivity|].
  destruct (IH Hrest) as [ss Hss].
  apply parses_in_range_spec in He as (cur & Hcur & Hv & Hd).
  pose proof Hrest as Hrest'. apply andb_true_iff in Hrest' as [He' _].
  apply parses_in_range_spec in He' as (nxt & Hnxt & _).
  rewrite build_pairs_cons2.
  rewrite (bind_silent _ _ _ Hcur), (bind_silent _ _ _ Hnxt).
  destruct (date cur =? date nxt).
  - rewrite bind_ret_l, (bind_silent _ _ _ Hss). eexists; reflexivity.
  - unfold lift. rewrite (day_end_in_range _ Hv Hd).
    fold (ret (combine_min (date cur + 1))).
    rewrite bind_ret_l, (bind_silent _ _ _ Hss). eexists; reflexivity.
Qed.

Lemma final_session_total events :
  forallb (parses_in_range fromisoformat) events = true -> events <> [] ->
  exists s, final_session fromisoformat events = ([], Ok s).
Proof.
  intros H Hne. unfold final_session.
  destruct (last events) as [e|] eqn:Hlast.
  - assert (e ∈ events) as He.
    { apply last_Some in Hlast as [l' ->]. apply elem_of_app. right.
      apply list_elem_of_singleton. reflexivity. }
    rewrite forallb_forall in H. apply list_elem_of_In in He.
    apply H, parses_in_range_spec in He as (d & Hd & Hv & Hr).
    rewrite (bind_silent _ _ _ Hd).
    destruct (contains _ _).
    + rewrite bind_ret_l. eexists; reflexivity.
    + destruct (add_hour_in_range _ Hv Hr) as [d' ->].
      unfold lift. fold (ret d'). rewrite bind_ret_l. eexists; reflexivity.
  - apply last_None in Hlast. contradiction.
Qed.

Lemma build_sessions_total events :
  forallb (parses_in_range fromisoformat) events = true -> events <> [] ->
  exists sessions, build_sessions fromisoformat events = ([], Ok sessions).
Proof.
  intros H Hne. unfold build_sessions.
  destruct (build_pairs_total _ H) as [ss ->].
  destruct (final_session_total _ H Hne) as [s ->].
  eexists; reflexivity.
Qed.
End BuilderFacts.

(** ** Sorting the log *)

Section StableSortFacts.
Context {A K : Type} (key : A -> K) (ltb : K -> K -> bool).

Lemma insert_sorted_Permutation x l : Permutation (insert_sorted key ltb x l) (x :: l).
Proof.
  induction l as [|y l IH]; simpl; [reflexivity|].
  destruct (ltb (key y) (key x)); [|reflexivity].
  rewrite IH. apply perm_swap.
Qed.

Lemma stable_sort_Permutation l : Permutation (stable_sort key ltb l) l.
Proof.
  induction l as [|x l IH]; simpl; [reflexivity|].
  rewrite insert_sorted_Permutation. apply perm_skip, IH.
Qed.

(** Stability: the events of any one class of keys keep their order. *)
Lemma insert_sorted_filter (P : A -> bool) x l :
  (forall y, P x = true -> P y = true -> ltb (key y) (key x) = false) ->
  List.filter P (insert_sorted key ltb x l) = List.filter P (x :: l).
Proof.
  intros Hclass. induction l as [|y l IH]; [reflexivity|].
  simpl. destruct (ltb (key y) (key x)) eqn:E; [|reflexivity].
  simpl. simpl in IH. rewrite IH. pose proof (Hclass y) as Hy.
  destruct (P x), (P y); try reflexivity.
  rewrite Hy in E by reflexivity. discriminate.
Qed.

Lemma stable_sort_filter (P : A -> bool) l :
  (forall x y, P x = true -> P y = true -> ltb (key y) (key x) = false) ->
  List.filter P (stable_sort key ltb l) = List.filter P l.
Proof.
  intros Hclass. induction l as [|x l IH]; [reflexivity|].
  simpl stable_sort. rewrite insert_sorted_filter by (intros; eauto).
  simpl. rewrite IH. reflexivity.
Qed.
End StableSortFacts.

Lemma sort_events_Ok events sorted :
  sort_events events = Ok sorted ->
  sorted = stable_sort timestamp key_ltb events /\ Permutation sorted events.
Proof.
  unfold sort_events. destruct (_ && _); [discriminate|].
  intros [= <-]. split; [reflexivity | apply stable_sort_Permutation].
Qed.

Lemma sort_events_nonempty events sorted :
  sort_events events = Ok sorted -> events <> [] -> sorted <> [].
Proof.
  intros H Hne ->. apply sort_events_Ok in H as [_ H].
  apply Permutation_nil in H. contradiction.
Qed.

(** The order of strings: what is not above [b] and [b] not above [c]. *)
Lemma string_compare_le_trans a b c :
  String.compare a b <> Gt -> String.compare b c <> Gt -> String.compare a c <> Gt.
Proof.
  revert b c. induction a as [|x a IH]; intros [|y b] [|z c]; simpl; try congruence.
  unfold Ascii.compare.
  destruct (N.compare_spec (N_of_ascii x) (N_of_ascii y)) as [Hxy|Hxy|Hxy],
           (N.compare_spec (N_of_ascii y) (N_of_ascii z)) as [Hyz|Hyz|Hyz],
           (N.compare_spec (N_of_ascii x) (N_of_ascii z)) as [Hxz|Hxz|Hxz];
    try congruence; try lia; eauto.
Qed.

Lemma string_ltb_false a b : String.ltb a b = false <-> String.compare b a <> Gt.
Proof.
  unfold String.ltb. rewrite (String.compare_antisym b a).
  destruct (String.compare a b); simpl; split; congruence.
Qed.

Lemma string_ltb_negtrans a b c :
  String.ltb b a = false -> String.ltb c b = false -> String.ltb c a = false.
Proof. rewrite !string_ltb_false. apply string_compare_le_trans. Qed.

Lemma string_ltb_asym a b : String.ltb a b = true -> String.ltb b a = false.
Proof.
  unfold String.ltb. rewrite (String.compare_antisym b a).
  destruct (String.compare a b); simpl; congruence.
Qed.

Lemma string_ltb_irrefl a : String.ltb a a = false.
Proof.
  destruct (String.ltb a a) eqn:E; [|reflexivity].
  pose proof (string_ltb_asym _ _ E). congruence.
Qed.

Section SortedOutput.
Context {A : Type} (key : A -> string).
Local Abbreviation below := (key_below key).

Lemma insert_sorted_below x y l :
  below y x -> Forall (below y) l -> Forall (below y) (insert_sorted key String.ltb x l).
Proof.
  intros Hx Hl. apply Forall_forall. intros z Hz.
  rewrite (insert_sorted_Permutation key String.ltb x l) in Hz.
  apply elem_of_cons in Hz as [->|Hz]; [exact Hx|].
  rewrite Forall_forall in Hl. apply Hl, Hz.
Qed.

Lemma insert_sorted_StronglySorted x l :
  StronglySorted below l -> StronglySorted below (insert_sorted key String.ltb x l).
Proof.
  induction 1 as [|y l Hs IH Hall]; simpl.
  - repeat constructor.
  - destruct (String.ltb (key y) (key x)) eqn:E.
    + constructor; [exact IH|].
      apply insert_sorted_below; [|exact Hall].
      unfold key_below. apply string_ltb_asym, E.
    + constructor; [constructor; assumption|].
      constructor; [exact E|].
      apply Forall_forall. intros z Hz. rewrite Forall_forall in Hall.
      unfold key_below in *.
      apply (string_ltb_negtrans _ (key y)); [exact E | apply Hall, Hz].
Qed.

Lemma stable_sort_StronglySorted l : StronglySorted below (stable_sort key String.ltb l).
Proof.
  induction l as [|x l IH]; simpl; [constructor | apply insert_sorted_StronglySorted, IH].
Qed.
End SortedOutput.

Lemma insert_sorted_timestamps x l :
  is_Some (timestamp x) -> Forall (fun e => is_Some (timestamp e)) l ->
  insert_sorted timestamp key_ltb x l
  = insert_sorted (fun e => default "" (timestamp e)) String.ltb x l.
Proof.
  intros [tx Hx]. induction 1 as [|y l [ty Hy] _ IH]; [reflexivity|].
  simpl. rewrite IH, Hx, Hy. reflexivity.
Qed.

(** On a log whose events all carry a timestamp the sort sees the strings. *)
Lemma stable_sort_timestamps events :
  forallb (fun e => bool_decide (is_Some (timestamp e))) events = true ->
  stable_sort timestamp key_ltb events
  = stable_sort (fun e => default "" (timestamp e)) String.ltb events.
Proof.
  induction events as [|x l IH]; [reflexivity|].
  intros H. cbn [forallb] in H. apply andb_true_iff in H as [Hx Hl].
  simpl. rewrite (IH Hl). apply insert_sorted_timestamps.
  - apply bool_decide_eq_true in Hx. exact Hx.
  - rewrite stable_sort_Permutation. apply Forall_forall. intros e He.
    rewrite forallb_forall in Hl. apply list_elem_of_In, Hl in He.
    apply bool_decide_eq_true in He. exact He.
Qed.

(** The sort of the log: a stable sort on the timestamp strings. It fails
    only on a log of two or more events one of which has no timestamp. *)
Theorem sort_events_stable (events : list event) :
  (forall sorted, sort_events events = Ok sorted ->
     Permutation sorted events
     /\ (forall (i j : nat) e e' ts ts',
           sorted !! i = Some e -> sorted !! j = Some e' -> (i < j)%nat ->
           timestamp e = Some ts -> timestamp e' = Some ts' ->
           String.ltb ts' ts = false)
     /\ (forall ts,
           List.filter (fun e => bool_decide (timestamp e = Some ts)) sorted
           = List.filter (fun e => bool_decide (timestamp e = Some ts)) events))
  /\ (((length events < 2)%nat
       \/ forallb (fun e => bool_decide (is_Some (timestamp e))) events = true) ->
      exists sorted, sort_events events = Ok sorted).
Proof.
  split.
  - intros sorted Hs. split; [apply (sort_events_Ok _ _ Hs)|]. split.
    + intros i j e e' ts ts' Hi Hj Hlt He He'.
      unfold sort_events in Hs.
      destruct (2 <=? length events)%nat eqn:Hlen; simpl in Hs.
      * destruct (existsb _ events) eqn:Hex; [discriminate|]. injection Hs as <-.
        rewrite stable_sort_timestamps in Hi, Hj.
        2,3: apply forallb_forall; intros x Hx;
             apply not_true_iff_false in Hex;
             destruct (bool_decide (is_Some (timestamp x))) eqn:Ex; [reflexivity|];
             exfalso; apply Hex; apply existsb_exists; exists x; rewrite Ex; auto.
        pose proof (stable_sort_StronglySorted (fun e => default "" (timestamp e)) events) as H.
        clear Hex Hlen. revert i j Hi Hj Hlt.
        induction H as [|x l H IH Hall]; intros i j Hi Hj Hlt; [discriminate|].
        destruct j as [|j]; [lia|]. destruct i as [|i].
        -- injection Hi as ->. rewrite Forall_forall in Hall.
           simpl in Hj. specialize (Hall e' (list_elem_of_lookup_2 _ _ _ Hj)).
           unfold key_below in Hall. rewrite He, He' in Hall. exact Hall.
        -- apply (IH i j Hi Hj). lia.
      * injection Hs as <-. apply Nat.leb_gt in Hlen.
        destruct events as [|x [|y l]]; simpl in Hlen; try lia.
        -- discriminate.
        -- destruct i, j; try discriminate; lia.
    + intros ts. apply sort_events_Ok in Hs as [-> _].
      apply (stable_sort_filter timestamp key_ltb
               (fun e => bool_decide (timestamp e = Some ts))).
      intros x y Hx Hy. apply bool_decide_eq_true in Hx, Hy.
      rewrite Hx, Hy. simpl. apply string_ltb_irrefl.
  - intros H. unfold sort_events.
    destruct ((2 <=? length events)%nat && existsb _ events) eqn:E; [|eauto].
    apply andb_true_iff in E as [Hlen Hex]. apply Nat.leb_le in Hlen.
    destruct H as [H|H]; [lia|].
    apply existsb_exists in Hex as (x & Hx & Hno).
    rewrite forallb_forall in H. rewrite (H x Hx) in Hno. discriminate.
Qed.


(** ** Midnight splitting *)

Lemma split_loop_lt cur end_ p c acc :
  date cur < date end_ ->
  split_loop cur end_ p c acc
  = split_loop (combine_min (date cur + 1)) end_ p c
      (acc ++ [Session cur (combine_min (date cur + 1)) p c]).
Proof.
  intros H. rewrite split_loop_equation_1.
  destruct (decide (date cur < date end_)); [reflexivity | contradiction].
Qed.

Lemma split_loop_ge cur end_ p c acc :
  ~ date cur < date end_ ->
  split_loop cur end_ p c acc
  = if dt_ltb cur end_ then acc ++ [Session cur end_ p c] else acc.
Proof.
  intros H. rewrite split_loop_equation_1.
  destruct (decide (date cur < date end_)); [contradiction | reflexivity].
Qed.

Lemma split_loop_acc end_ p c (n : nat) : forall cur acc,
  Z.to_nat (date end_ - date cur) = n ->
  split_loop cur end_ p c acc = acc ++ split_loop cur end_ p c [].
Proof.
  induction n as [|n IH]; intros cur acc Hn.
  - rewrite (split_loop_ge cur _ _ _ acc), (split_loop_ge cur _ _ _ []) by lia.
    destruct (dt_ltb cur end_); simpl; auto using app_nil_r.
  - rewrite (split_loop_lt cur _ _ _ acc), (split_loop_lt cur _ _ _ []) by lia.
    rewrite (IH (combine_min (date cur + 1)) (acc ++ _)) by (simpl; lia).
    rewrite (IH (combine_min (date cur + 1)) ([] ++ _)) by (simpl; lia).
    simpl. rewrite <- app_assoc. reflexivity.
Qed.

(** One turn of the loop, as a recursion on the fragments. *)
Lemma split_session_by_day_lt start end_ p c :
  date start < date end_ ->
  split_session_by_day start end_ p c
  = Session start (combine_min (date start + 1)) p c
      :: split_session_by_day (combine_min (date start + 1)) end_ p c.
Proof.
  intros H. unfold split_session_by_day. rewrite split_loop_lt by assumption.
  rewrite (split_loop_acc _ _ _ _ _ _ eq_refl). reflexivity.
Qed.

Lemma split_session_by_day_ge start end_ p c :
  ~ date start < date end_ ->
  split_session_by_day start end_ p c
  = if dt_ltb start end_ then [Session start end_ p c] else [].
Proof. intros H. unfold split_session_by_day. rewrite split_loop_ge by assumption. reflexivity. Qed.

Lemma split_session_by_day_tiles start end_ p c :
  date start < date end_ -> 0 <= us_of_day end_ ->
  tiles p c start end_ (split_session_by_day start end_ p c).
Proof.
  intros Hlt Hus.
  remember (Z.to_nat (date end_ - date start - 1)) as n eqn:Hn.
  revert start Hlt Hn. induction n as [|n IH]; intros start Hlt Hn.
  - rewrite split_session_by_day_lt by assumption.
    rewrite split_session_by_day_ge by (simpl; lia).
    unfold dt_ltb. simpl.
    replace (date start + 1 <? ordinal end_) with false by (unfold date in *; lia).
    replace (date start + 1 =? ordinal end_) with true by (unfold date in *; lia).
    simpl. destruct (0 <? us_of_day end_) eqn:E.
    + apply tiles_cut, tiles_same_day; [simpl; unfold date in *; lia|].
      unfold dt_ltb. simpl. unfold date in *. lia.
    + replace end_ with (combine_min (date start + 1)); [apply tiles_to_midnight|].
      destruct end_ as [o u]. unfold combine_min, date in *. simpl in *. f_equal; lia.
  - rewrite split_session_by_day_lt by assumption.
    apply tiles_cut, IH; simpl; lia.
Qed.

Section TilesFacts.
Context (p c : string).

Lemma dt_ltb_next_midnight a : dt_ltb a (combine_min (date a + 1)) = true.
Proof. unfold dt_ltb, date. simpl. lia. Qed.

Lemma tiles_head a b l : tiles p c a b l -> s_start <$> head l = Some a.
Proof. destruct 1; reflexivity. Qed.

Lemma tiles_last a b l : tiles p c a b l -> s_end <$> last l = Some b.
Proof.
  induction 1 as [| |a b l Hl IH]; try reflexivity.
  destruct l as [|s l]; [inversion Hl|]. exact IH.
Qed.

Lemma tiles_adjacent a b l :
  tiles p c a b l ->
  forall (i : nat) x y, l !! i = Some x -> l !! S i = Some y ->
    s_end x = s_start y /\ us_of_day (s_end x) = 0.
Proof.
  induction 1 as [| |a b l Hl IH]; intros i x y Hx Hy.
  - destruct i; discriminate.
  - destruct i; discriminate.
  - destruct i as [|i].
    + injection Hx as <-. simpl in Hy.
      apply tiles_head in Hl. destruct l as [|s l]; [discriminate|].
      injection Hy as <-. injection Hl as ->. auto.
    + apply (IH i x y Hx Hy).
Qed.

Lemma tiles_Forall a b l :
  tiles p c a b l ->
  Forall (fun f => s_project f = p /\ s_color f = c
                   /\ dt_ltb (s_start f) (s_end f) = true) l.
Proof.
  induction 1; repeat constructor; auto using dt_ltb_next_midnight.
Qed.

(** Every fragment lies within the day it starts on. *)
Lemma tiles_within_day a b l :
  tiles p c a b l -> time_in_day a -> time_in_day b ->
  Forall (fun f => within_day (date (s_start f)) f) l.
Proof.
  induction 1 as [a b Hd Hlt| |a b l Hl IH]; intros Ha Hb.
  - constructor; [|constructor].
    unfold within_day, time_in_day, dt_leb, dt_ltb, date in *. simpl.
    repeat split; lia.
  - constructor; [|constructor].
    unfold within_day, time_in_day, dt_leb, dt_ltb, date in *. simpl.
    repeat split; try lia; right; reflexivity.
  - constructor.
    + unfold within_day, time_in_day, dt_leb, dt_ltb, date in *. simpl.
      repeat split; try lia; right; reflexivity.
    + apply IH; [|assumption]. unfold time_in_day. simpl.
      unfold US_PER_DAY, US_PER_HOUR, US_PER_MINUTE, US_PER_SECOND. lia.
Qed.
End TilesFacts.

(** C5: a session whose start and end lie on different calendar dates, start
    before end, is split into fragments that tile it exactly: the first
    begins at the start, the last ends at the end, each fragment but the last
    ends at a midnight, where the next one begins, every fragment carries the
    project and the colour of the session, and none is empty. *)
Theorem split_session_by_day_tiling (start end_ : datetime) (project color : string) :
  date start <> date end_ ->
  dt_ltb start end_ = true ->
  time_in_day end_ ->
  let fragments := split_session_by_day start end_ project color in
  s_start <$> head fragments = Some start
  /\ s_end <$> last fragments = Some end_
  /\ (forall (i : nat) f g, fragments !! i = Some f -> fragments !! S i = Some g ->
        s_end f = s_start g /\ us_of_day (s_end f) = 0)
  /\ Forall (fun f => s_project f = project /\ s_color f = color
                      /\ dt_ltb (s_start f) (s_end f) = true) fragments.
Proof.
  intros Hne Hlt [Hus _] fragments.
  assert (date start < date end_) as Hd.
  { unfold dt_ltb, date in *. lia. }
  pose proof (split_session_by_day_tiles start end_ project color Hd Hus) as Ht.
  split; [exact (tiles_head _ _ _ _ _ Ht)|].
  split; [exact (tiles_last _ _ _ _ _ Ht)|].
  split; [exact (tiles_adjacent _ _ _ _ _ Ht) | exact (tiles_Forall _ _ _ _ _ Ht)].
Qed.

Lemma split_session_by_day_tiling_witness :
  s_start <$> head (split_session_by_day sample_start sample_end "A" "#5bdee5")
  = Some sample_start
  /\ s_end <$> last (split_session_by_day sample_start sample_end "A" "#5bdee5")
     = Some sample_end
  /\ length (split_session_by_day sample_start sample_end "A" "#5bdee5") = 3%nat.
Proof.
  destruct (split_session_by_day_tiling sample_start sample_end "A" "#5bdee5")
    as (Hhead & Hlast & _).
  - discriminate.
  - reflexivity.
  - unfold time_in_day. vm_compute. split; [discriminate | reflexivity].
  - split; [exact Hhead|]. split; [exact Hlast | reflexivity].
Defined.

(** ** Grouping by day and the columns *)

Lemma foldl_setdefault_append_lookup l : forall (m : gmap Z (list session)) day,
  foldl setdefault_append m l !! day
  = match m !! day, filter (fun s => date (s_start s) = day) l with
    | Some ss, fs => Some (ss ++ fs)
    | None, [] => None
    | None, fs => Some fs
    end.
Proof.
  induction l as [|s l IH]; intros m day; simpl.
  - rewrite filter_nil. destruct (m !! day); [rewrite app_nil_r|]; reflexivity.
  - rewrite IH. unfold setdefault_append.
    destruct (decide (date (s_start s) = day)) as [Heq|Hne].
    + rewrite filter_cons_True by assumption. subst day. rewrite lookup_insert_eq.
      destruct (m !! date (s_start s)); simpl; [rewrite <- app_assoc|]; reflexivity.
    + rewrite filter_cons_False by assumption. rewrite lookup_insert_ne by assumption.
      reflexivity.
Qed.

(** A day's bucket holds the sessions that start on that day, in order. *)
Lemma group_by_day_lookup l day :
  group_by_day l !! day
  = match filter (fun s => date (s_start s) = day) l with
    | [] => None
    | fs => Some fs
    end.
Proof. unfold group_by_day. rewrite foldl_setdefault_append_lookup, lookup_empty. reflexivity. Qed.

Lemma group_by_day_elem_of l day ss s :
  group_by_day l !! day = Some ss -> s ∈ ss -> s ∈ l /\ date (s_start s) = day.
Proof.
  rewrite group_by_day_lookup.
  destruct (filter _ l) as [|f fs] eqn:E; [discriminate|]. intros [= <-] Hs.
  rewrite <- E in Hs. apply list_elem_of_filter in Hs. tauto.
Qed.

Lemma group_by_day_complete l s :
  s ∈ l -> exists ss, group_by_day l !! date (s_start s) = Some ss /\ s ∈ ss.
Proof.
  intros Hs. rewrite group_by_day_lookup.
  assert (s ∈ filter (fun s' => date (s_start s') = date (s_start s)) l) as Hf
    by (apply list_elem_of_filter; auto).
  destruct (filter _ l) as [|f fs]; [inversion Hf | eauto].
Qed.

Lemma sorted_days_elem_of (by_day : gmap Z (list session)) day :
  day ∈ sorted_days by_day <-> is_Some (by_day !! day).
Proof.
  unfold sorted_days. rewrite merge_sort_Permutation, elem_of_elements, elem_of_dom.
  reflexivity.
Qed.

Lemma sorted_days_NoDup (by_day : gmap Z (list session)) : NoDup (sorted_days by_day).
Proof. unfold sorted_days. rewrite merge_sort_Permutation. apply NoDup_elements. Qed.

Lemma sorted_days_Sorted (by_day : gmap Z (list session)) :
  Sorted Z.le (sorted_days by_day).
Proof. apply (Sorted_merge_sort Z.le). Qed.

Lemma StronglySorted_lookup_le (l : list Z) (i j : nat) d d' :
  StronglySorted Z.le l -> l !! i = Some d -> l !! j = Some d' -> (i < j)%nat -> d <= d'.
Proof.
  intros Hs. revert i j. induction Hs as [|x l Hs IH Hall]; intros i j Hi Hj Hlt.
  - discriminate.
  - destruct j as [|j]; [lia|]. destruct i as [|i].
    + injection Hi as <-. rewrite Forall_forall in Hall.
      apply Hall. apply (list_elem_of_lookup_2 _ j). exact Hj.
    + apply (IH i j Hi Hj). lia.
Qed.

(** The columns are strictly increasing dates. *)
Lemma sorted_days_increasing (by_day : gmap Z (list session)) (i j : nat) d d' :
  sorted_days by_day !! i = Some d -> sorted_days by_day !! j = Some d' ->
  (i < j)%nat -> d < d'.
Proof.
  intros Hi Hj Hlt.
  pose proof (sorted_days_NoDup by_day) as Hnd.
  pose proof (sorted_days_Sorted by_day) as Hs. apply Sorted_StronglySorted in Hs; [|apply _].
  pose proof (StronglySorted_lookup_le _ _ _ _ _ Hs Hi Hj Hlt).
  assert (d <> d'); [|lia].
  intros <-. pose proof (NoDup_lookup _ _ _ _ Hnd Hi Hj). lia.
Qed.

(** ** The chart *)

Lemma plot_elem_of days (by_day : gmap Z (list session)) a :
  a ∈ plot days by_day <->
  exists (i : nat) day ss s,
    days !! i = Some day /\ by_day !! day = Some ss /\ s ∈ ss /\ a ∈ draw_session i s.
Proof.
  unfold plot. rewrite list_elem_of_In, in_concat. split.
  - intros (l & Hl & Ha). apply list_elem_of_In, elem_of_lookup_imap in Hl as (i & day & -> & Hi).
    apply in_flat_map in Ha as (s & Hs & Ha).
    destruct (by_day !! day) as [ss|] eqn:E; [|destruct Hs].
    exists i, day, ss, s. rewrite !list_elem_of_In. auto.
  - intros (i & day & ss & s & Hi & Hday & Hs & Ha).
    exists (flat_map (draw_session i) (default [] (by_day !! day))). split.
    + apply list_elem_of_In.
      apply (elem_of_lookup_imap_2
               (fun i day => flat_map (draw_session i) (default [] (by_day !! day)))
               _ _ _ Hi).
    + rewrite Hday. apply in_flat_map. exists s. rewrite <- !list_elem_of_In. auto.
Qed.

(** The artists of one session, spelled out. *)
Lemma draw_session_unfold (i : nat) (s : session) :
  let frac (dt : datetime) :=
    (float_of_Z (hour dt) + float_of_Z (minute dt) / 60 + float_of_Z (second dt) / 3600)%float in
  let yStart := frac (s_start s) in
  let yEnd := if bool_decide (date (s_end s) = date (s_start s)) then frac (s_end s)
              else 24%float in
  let left := (float_of_Z (Z.of_nat i) - 0.4)%float in
  draw_session i s
  = [Rectangle left yStart 0.8 (yEnd - yStart) (s_color s) "black" (Some 0.7%float) None]
    ++ (if PrimFloat.leb 0.2 (yEnd - yStart)
        then [Text i (yStart + (yEnd - yStart) / 2)%float (s_project s)] else [])
    ++ (if PrimFloat.ltb 19 yEnd
        then [Rectangle left (py_max yStart 19) 0.8 (yEnd - py_max yStart 19)
                "none" "red" None (Some 2)]
        else []).
Proof.
  unfold draw_session, end_hour_of, hour_of_day.
  destruct (Z.eqb_spec (date (s_end s)) (date (s_start s))) as [Heq|Hne].
  - rewrite bool_decide_eq_true_2 by assumption. reflexivity.
  - rewrite bool_decide_eq_false_2 by assumption. reflexivity.
Qed.

(** C6: every session of the day-grouped map is drawn as a rectangle in the
    column of its start date (its index in the sorted list of days), from the
    fractional hour of its start to that of its end, or to 24.0 when the end
    lies on another date; an unfilled outline from [max(yStart, 19)] (19 when
    [yStart < 19], [yStart] otherwise) to [yEnd] is added exactly when
    [yEnd > 19], and the project label exactly when [yEnd - yStart >= 0.2];
    nothing else is drawn. *)
Theorem timeline_layout (sessions_split : list session) :
  let by_day := group_by_day sessions_split in
  let days := sorted_days by_day in
  let drawn := plot days by_day in
  let frac (dt : datetime) :=
    (float_of_Z (hour dt) + float_of_Z (minute dt) / 60 + float_of_Z (second dt) / 3600)%float in
  let yStart (s : session) := frac (s_start s) in
  let yEnd (s : session) :=
    if bool_decide (date (s_end s) = date (s_start s)) then frac (s_end s) else 24%float in
  let left (i : nat) := (float_of_Z (Z.of_nat i) - 0.4)%float in
  let filled (i : nat) (s : session) :=
    Rectangle (left i) (yStart s) 0.8 (yEnd s - yStart s) (s_color s) "black"
      (Some 0.7%float) None in
  let top (s : session) :=
    if PrimFloat.ltb (yStart s) 19 then 19%float else yStart s in
  let outline (i : nat) (s : session) :=
    Rectangle (left i) (top s) 0.8 (yEnd s - top s) "none" "red" None (Some 2) in
  let label (i : nat) (s : session) :=
    Text i (yStart s + (yEnd s - yStart s) / 2)%float (s_project s) in
  (forall day ss s, by_day !! day = Some ss -> s ∈ ss ->
     day = date (s_start s)
     /\ exists i : nat,
          days !! i = Some day
          /\ (forall j : nat, days !! j = Some day -> j = i)
          /\ filled i s ∈ drawn
          /\ (PrimFloat.ltb 19 (yEnd s) = true -> outline i s ∈ drawn)
          /\ (PrimFloat.leb 0.2 (yEnd s - yStart s) = true -> label i s ∈ drawn))
  /\ (forall a, a ∈ drawn ->
        exists (i : nat) ss s,
          days !! i = Some (date (s_start s))
          /\ by_day !! date (s_start s) = Some ss /\ s ∈ ss
          /\ (a = filled i s
              \/ (a = outline i s /\ PrimFloat.ltb 19 (yEnd s) = true)
              \/ (a = label i s /\ PrimFloat.leb 0.2 (yEnd s - yStart s) = true))).
Proof.
  intros by_day days drawn frac yStart yEnd left filled top outline label.
  subst filled outline label top left yEnd yStart frac. cbv beta. split.
  - intros day ss s Hday Hs.
    destruct (group_by_day_elem_of _ _ _ _ Hday Hs) as [_ Hd]. split; [congruence|].
    assert (day ∈ days) as Hin by (apply sorted_days_elem_of; eauto).
    apply list_elem_of_lookup in Hin as [i Hi]. exists i.
    split; [exact Hi|]. split.
    { intros j Hj. apply (NoDup_lookup _ _ _ _ (sorted_days_NoDup by_day) Hj Hi). }
    assert (forall a, a ∈ draw_session i s -> a ∈ drawn) as Hdrawn.
    { intros a Ha. apply plot_elem_of. exists i, day, ss, s. auto. }
    pose proof (draw_session_unfold i s) as Hu. cbv beta zeta in Hu.
    unfold py_max in Hu.
    split; [|split].
    + apply Hdrawn. rewrite Hu. set_solver.
    + intros H19. apply Hdrawn. rewrite Hu, H19. set_solver.
    + intros H02. apply Hdrawn. rewrite Hu, H02. set_solver.
  - intros a Ha. apply plot_elem_of in Ha as (i & day & ss & s & Hi & Hday & Hs & Ha).
    destruct (group_by_day_elem_of _ _ _ _ Hday Hs) as [_ Hd]. subst day.
    exists i, ss, s. split; [exact Hi|]. split; [exact Hday|]. split; [exact Hs|].
    pose proof (draw_session_unfold i s) as Hu. cbv beta zeta in Hu.
    unfold py_max in Hu. rewrite Hu in Ha. clear Hu.
    destruct (PrimFloat.leb 0.2 _), (PrimFloat.ltb 19 _); simpl in Ha;
      repeat (apply elem_of_cons in Ha as [->|Ha]);
      solve [inversion Ha | left; reflexivity | right; left; auto | right; right; auto].
Qed.

(** ** From the log to the day-grouped map *)

Lemma dt_ltb_leb a b : dt_ltb a b = true -> dt_leb a b = true.
Proof. unfold dt_leb, dt_ltb. lia. Qed.

Lemma dt_leb_refl a : dt_leb a a = true.
Proof. unfold dt_leb, dt_ltb. lia. Qed.

Lemma add_timedelta_to_us d delta d' :
  add_timedelta d delta = Ok d' -> to_us d' = to_us d + delta.
Proof.
  unfold add_timedelta. destruct (_ && _); [|discriminate]. intros [= <-].
  unfold to_us. simpl.
  pose proof (Z.div_mod (us_of_day d + delta) US_PER_DAY) as H.
  unfold US_PER_DAY, US_PER_HOUR, US_PER_MINUTE, US_PER_SECOND in *. lia.
Qed.

Lemma add_timedelta_hour d d' :
  time_in_day d -> add_timedelta d US_PER_HOUR = Ok d' ->
  time_in_day d' /\ date d <= date d' <= date d + 1 /\ dt_ltb d d' = true.
Proof.
  unfold time_in_day, add_timedelta, dt_ltb, date. intros Hd.
  destruct (_ && _); [|discriminate]. intros [= <-]. simpl.
  unfold US_PER_DAY, US_PER_HOUR, US_PER_MINUTE, US_PER_SECOND in *.
  pose proof (Z.div_mod (us_of_day d + 60 * (60 * 1000000)) (24 * (60 * (60 * 1000000)))) as H.
  pose proof (Z.mod_pos_bound (us_of_day d + 60 * (60 * 1000000))
                (24 * (60 * (60 * 1000000)))) as Hm.
  lia.
Qed.

Section PipelineFacts.
Variable fromisoformat : string -> option datetime.

Lemma parses_valid_spec e d :
  parses_valid fromisoformat e = true ->
  parse_event fromisoformat e = ([], Ok d) -> valid_datetime d.
Proof.
  unfold parses_valid. intros H Hd. rewrite Hd in H. apply valid_datetimeb_spec, H.
Qed.

Lemma chronological_lookup events (i : nat) e e' a b :
  chronological fromisoformat events = true ->
  events !! i = Some e -> events !! S i = Some e' ->
  parse_event fromisoformat e = ([], Ok a) -> parse_event fromisoformat e' = ([], Ok b) ->
  dt_leb a b = true.
Proof.
  revert i. induction events as [|e0 rest IH]; intros i Hc Hi Hj Ha Hb; [discriminate|].
  destruct rest as [|e1 rest']; [destruct i; discriminate|].
  change (chronological fromisoformat (e0 :: e1 :: rest'))
    with (match parse_event fromisoformat e0, parse_event fromisoformat e1 with
          | (_, Ok a), (_, Ok b) => dt_leb a b
          | _, _ => false
          end && chronological fromisoformat (e1 :: rest')) in Hc.
  apply andb_true_iff in Hc as [Hhd Htl].
  destruct i as [|i].
  - injection Hi as <-. injection Hj as <-. rewrite Ha, Hb in Hhd. exact Hhd.
  - apply (IH i Htl Hi Hj Ha Hb).
Qed.

(** The sessions the builder hands to the splitting pass. *)
Lemma build_sessions_shape events out sessions :
  build_sessions fromisoformat events = (out, Ok sessions) ->
  forallb (parses_valid fromisoformat) events = true ->
  Forall pre_split_ok sessions
  /\ (chronological fromisoformat events = true ->
      Forall (fun s => dt_leb (s_start s) (s_end s) = true) sessions).
Proof.
  intros H Hvalid.
  apply build_sessions_Ok in H as (_ & pairs & final & Hp & Hf & ->).
  assert (forall e d, e ∈ events -> parse_event fromisoformat e = ([], Ok d) ->
                      time_in_day d) as Htime.
  { intros e d He Hd. rewrite forallb_forall in Hvalid.
    apply list_elem_of_In, Hvalid in He. apply (parses_valid_spec _ _ He Hd). }
  destruct (build_pairs_Ok _ _ _ _ Hp) as (_ & Hlen & Hnth).
  assert (forall s, s ∈ pairs ->
            pre_split_ok s
            /\ (chronological fromisoformat events = true ->
                dt_leb (s_start s) (s_end s) = true)) as Hpairs.
  { intros s Hs. apply list_elem_of_lookup in Hs as [i Hi].
    pose proof (lookup_lt_Some _ _ _ Hi) as Hlt.
    destruct (lookup_lt_is_Some_2 events i) as [e He]; [lia|].
    destruct (lookup_lt_is_Some_2 events (S i)) as [e' He']; [lia|].
    destruct (Hnth i e e' He He') as (cur & nxt & Hcur & Hnxt & _ & Hsi).
    rewrite Hi in Hsi. injection Hsi as ->.
    pose proof (Htime e cur (list_elem_of_lookup_2 _ _ _ He) Hcur) as Tc.
    pose proof (Htime e' nxt (list_elem_of_lookup_2 _ _ _ He') Hnxt) as Tn.
    unfold pre_split_ok. simpl.
    destruct (Z.eqb_spec (date cur) (date nxt)) as [Heq|Hne].
    - split; [repeat split; try apply Tc; try apply Tn; lia|].
      intros Hc. apply (chronological_lookup _ _ _ _ _ _ Hc He He' Hcur Hnxt).
    - split.
      + unfold time_in_day in *. simpl.
        unfold US_PER_DAY, US_PER_HOUR, US_PER_MINUTE, US_PER_SECOND in *.
        repeat split; lia.
      + intros _. apply dt_ltb_leb, dt_ltb_next_midnight. }
  apply final_session_Ok in Hf as (_ & e & d & Hlast & Hd & Hstart & _ & _ & Hend).
  assert (e ∈ events) as He.
  { apply last_Some in Hlast as [l' ->]. apply elem_of_app. right.
    apply list_elem_of_singleton. reflexivity. }
  pose proof (Htime e d He Hd) as Td.
  assert (pre_split_ok final /\ dt_leb (s_start final) (s_end final) = true) as [Hfo Hfl].
  { unfold pre_split_ok. rewrite Hstart. revert Hend.
    destruct (contains _ _); intros Hend.
    - rewrite Hend. repeat split; try apply Td; try lia. apply dt_leb_refl.
    - destruct (add_timedelta_hour _ _ Td Hend) as (T' & Hdate & Hlt).
      repeat split; try apply Td; try apply T'; try lia. apply dt_ltb_leb, Hlt. }
  split.
  - apply Forall_app. split; [|constructor; [exact Hfo | constructor]].
    apply Forall_forall. intros s Hs. exact (proj1 (Hpairs s Hs)).
  - intros Hc. apply Forall_app. split; [|constructor; [exact Hfl | constructor]].
    apply Forall_forall. intros s Hs. exact (proj2 (Hpairs s Hs) Hc).
Qed.
End PipelineFacts.

Lemma split_sessions_elem_of sessions f :
  f ∈ split_sessions sessions <->
  exists s, s ∈ sessions
            /\ ((date (s_start s) = date (s_end s) /\ f = s)
                \/ (date (s_start s) <> date (s_end s)
                    /\ f ∈ split_session_by_day (s_start s) (s_end s)
                           (s_project s) (s_color s))).
Proof.
  unfold split_sessions. rewrite list_elem_of_In, in_flat_map. split.
  - intros (s & Hs & Hf). exists s. rewrite list_elem_of_In. split; [exact Hs|].
    destruct (Z.eqb_spec (date (s_start s)) (date (s_end s))) as [Heq|Hne].
    + left. destruct Hf as [<-|[]]. auto.
    + right. rewrite list_elem_of_In. auto.
  - intros (s & Hs & Hf). exists s. rewrite <- list_elem_of_In. split; [exact Hs|].
    destruct Hf as [[Heq ->]|[Hne Hf]].
    + rewrite (proj2 (Z.eqb_eq _ _) Heq). left. reflexivity.
    + rewrite (proj2 (Z.eqb_neq _ _) Hne). apply list_elem_of_In, Hf.
Qed.

(** After the splitting pass every session lies within the day it starts on. *)
Lemma split_sessions_within_day sessions f :
  Forall pre_split_ok sessions -> f ∈ split_sessions sessions ->
  within_day (date (s_start f)) f.
Proof.
  intros Hok Hf. apply split_sessions_elem_of in Hf as (s & Hs & Hf).
  rewrite Forall_forall in Hok. destruct (Hok s Hs) as (Ts & Te & Hle).
  destruct Hf as [[Heq ->]|[Hne Hf]].
  - unfold within_day, time_in_day, dt_leb, dt_ltb, date in *. simpl.
    repeat split; lia.
  - assert (date (s_start s) < date (s_end s)) as Hlt by lia.
    pose proof (split_session_by_day_tiles _ _ (s_project s) (s_color s) Hlt (proj1 Te)) as Ht.
    apply tiles_within_day in Ht; [|assumption..].
    rewrite Forall_forall in Ht. apply Ht, Hf.
Qed.

Lemma split_sessions_ordered sessions f :
  Forall pre_split_ok sessions ->
  Forall (fun s => dt_leb (s_start s) (s_end s) = true) sessions ->
  f ∈ split_sessions sessions -> dt_leb (s_start f) (s_end f) = true.
Proof.
  intros Hok Hord Hf. apply split_sessions_elem_of in Hf as (s & Hs & Hf).
  rewrite Forall_forall in Hok, Hord. destruct (Hok s Hs) as (Ts & Te & Hle).
  destruct Hf as [[Heq ->]|[Hne Hf]]; [apply Hord, Hs|].
  assert (date (s_start s) < date (s_end s)) as Hlt by lia.
  pose proof (split_session_by_day_tiles _ _ (s_project s) (s_color s) Hlt (proj1 Te)) as Ht.
  apply tiles_Forall in Ht. rewrite Forall_forall in Ht.
  apply dt_ltb_leb, (Ht f Hf).
Qed.

(** A session that goes past a midnight leaves a fragment on its first day
    and one on its last. *)
Lemma split_session_by_day_crossing start end_ p c :
  date start < date end_ -> 0 < us_of_day end_ ->
  Session start (combine_min (date start + 1)) p c ∈ split_session_by_day start end_ p c
  /\ Session (combine_min (date end_)) end_ p c ∈ split_session_by_day start end_ p c.
Proof.
  intros Hlt Hus. split.
  { rewrite split_session_by_day_lt by assumption. apply elem_of_cons. left. reflexivity. }
  remember (Z.to_nat (date end_ - date start - 1)) as n eqn:Hn.
  revert start Hlt Hn. induction n as [|n IH]; intros start Hlt Hn.
  - rewrite split_session_by_day_lt by assumption.
    rewrite split_session_by_day_ge by (simpl; lia).
    replace (date start + 1) with (date end_) by lia.
    replace (dt_ltb (combine_min (date end_)) end_) with true
      by (unfold dt_ltb, date; simpl; lia).
    apply elem_of_cons. right. apply list_elem_of_singleton. reflexivity.
  - rewrite split_session_by_day_lt by assumption.
    apply elem_of_cons. right. apply IH; simpl; lia.
Qed.

Section DayGroupedSessions.
Variable fromisoformat : string -> option datetime.

Lemma sessions_by_day_Ok events out by_day :
  sessions_by_day fromisoformat events = (out, Ok by_day) ->
  exists sessions,
    build_sessions fromisoformat events = ([], Ok sessions)
    /\ by_day = group_by_day (split_sessions sessions).
Proof.
  unfold sessions_by_day. intros H.
  apply bind_Ok in H as (o1 & sessions & o2 & Hb & H & ->).
  injection H as <- <-. exists sessions.
  destruct (build_sessions_Ok _ _ _ _ Hb) as [-> _]. auto.
Qed.

(** C3, as the program has it: after the splitting pass every session ends
    on the date it starts on or exactly at the midnight that closes that
    date; it is filed under its start date and lies within that day, midnight
    to midnight; a session that went past a midnight has left a fragment
    under its first day and another under its last, two distinct keys.  All
    of this holds of every log; only that a session ends at or after its
    start needs the sorted events to be in chronological order. *)
Theorem split_sessions_lie_within_days (events : list event) out by_day :
  sessions_by_day fromisoformat events = (out, Ok by_day) ->
  forallb (parses_valid fromisoformat) events = true ->
  exists sessions,
    build_sessions fromisoformat events = ([], Ok sessions)
    /\ (chronological fromisoformat events = true ->
        forall s, s ∈ split_sessions sessions ->
          dt_leb (s_start s) (s_end s) = true)
    /\ (forall s, s ∈ split_sessions sessions ->
          (date (s_end s) = date (s_start s)
           \/ s_end s = combine_min (date (s_start s) + 1))
          /\ exists ss, by_day !! date (s_start s) = Some ss /\ s ∈ ss)
    /\ (forall day ss s, by_day !! day = Some ss -> s ∈ ss ->
          s ∈ split_sessions sessions
          /\ date (s_start s) = day
          /\ dt_leb (combine_min day) (s_start s) = true
          /\ dt_leb (s_end s) (combine_min (day + 1)) = true)
    /\ (forall s, s ∈ sessions ->
          date (s_start s) < date (s_end s) ->
          dt_ltb (combine_min (date (s_end s))) (s_end s) = true ->
          exists ss1 ss2,
            by_day !! date (s_start s) = Some ss1
            /\ by_day !! date (s_end s) = Some ss2
            /\ date (s_start s) <> date (s_end s)
            /\ Session (s_start s) (combine_min (date (s_start s) + 1))
                 (s_project s) (s_color s) ∈ ss1
            /\ Session (combine_min (date (s_end s))) (s_end s)
                 (s_project s) (s_color s) ∈ ss2).
Proof.
  intros Hrun Hvalid.
  destruct (sessions_by_day_Ok _ _ _ Hrun) as (sessions & Hbuild & ->).
  exists sessions. split; [exact Hbuild|].
  destruct (build_sessions_shape _ _ _ _ Hbuild Hvalid) as [Hok Hord].
  split; [|split; [|split]].
  - intros Hchron s Hs.
    exact (split_sessions_ordered _ _ Hok (Hord Hchron) Hs).
  - intros s Hs.
    pose proof (split_sessions_within_day _ _ Hok Hs) as (_ & _ & _ & Hend).
    split; [exact Hend | exact (group_by_day_complete _ _ Hs)].
  - intros day ss s Hday Hs.
    destruct (group_by_day_elem_of _ _ _ _ Hday Hs) as [Hin Hd].
    split; [exact Hin|].
    pose proof (split_sessions_within_day _ _ Hok Hin) as (_ & Hlo & Hhi & _).
    rewrite Hd in Hlo, Hhi. auto.
  - intros s Hs Hlt Hpast.
    assert (0 < us_of_day (s_end s)) as Hus.
    { unfold dt_ltb, date in Hpast. simpl in Hpast. lia. }
    destruct (split_session_by_day_crossing _ _ (s_project s) (s_color s) Hlt Hus)
      as [Hfirst Hlast].
    assert (forall f, f ∈ split_session_by_day (s_start s) (s_end s) (s_project s) (s_color s)
                      -> f ∈ split_sessions sessions) as Hfrag.
    { intros f Hf. apply split_sessions_elem_of. exists s. split; [exact Hs|].
      right. split; [lia | exact Hf]. }
    destruct (group_by_day_complete _ _ (Hfrag _ Hfirst)) as (ss1 & H1 & Hin1).
    destruct (group_by_day_complete _ _ (Hfrag _ Hlast)) as (ss2 & H2 & Hin2).
    exists ss1, ss2. simpl in H1, H2. repeat split; try assumption. lia.
Qed.
End DayGroupedSessions.

Lemma split_sessions_lie_within_days_witness :
  exists ss1 ss2,
    group_by_day (split_sessions
                    [Session (mk_datetime 738886 79200000000) (mk_datetime 738886 84600000000)
                       "A" "#5bdee5";
                     Session (mk_datetime 738886 84600000000) (mk_datetime 738887 1800000000)
                       "B" "#5bdee5"]) !! 738886 = Some ss1
    /\ group_by_day (split_sessions
                    [Session (mk_datetime 738886 79200000000) (mk_datetime 738886 84600000000)
                       "A" "#5bdee5";
                     Session (mk_datetime 738886 84600000000) (mk_datetime 738887 1800000000)
                       "B" "#5bdee5"]) !! 738887 = Some ss2
    /\ Session (mk_datetime 738886 84600000000) (mk_datetime 738887 0) "B" "#5bdee5" ∈ ss1
    /\ Session (mk_datetime 738887 0) (mk_datetime 738887 1800000000) "B" "#5bdee5" ∈ ss2.
Proof.
  destruct (split_sessions_lie_within_days fromisoformat late_log []
              (group_by_day (split_sessions
                 [Session (mk_datetime 738886 79200000000) (mk_datetime 738886 84600000000)
                    "A" "#5bdee5";
                  Session (mk_datetime 738886 84600000000) (mk_datetime 738887 1800000000)
                    "B" "#5bdee5"])))
    as (sessions & Hbuild & _ & _ & _ & Hcross).
  - vm_compute. reflexivity.
  - vm_compute. reflexivity.
  - assert (sessions
            = [Session (mk_datetime 738886 79200000000) (mk_datetime 738886 84600000000)
                 "A" "#5bdee5";
               Session (mk_datetime 738886 84600000000) (mk_datetime 738887 1800000000)
                 "B" "#5bdee5"]) as ->.
    { vm_compute in Hbuild. injection Hbuild as <-. reflexivity. }
    destruct (Hcross (Session (mk_datetime 738886 84600000000)
                        (mk_datetime 738887 1800000000) "B" "#5bdee5"))
      as (ss1 & ss2 & H1 & H2 & _ & Hin1 & Hin2).
    + apply elem_of_cons. right. apply list_elem_of_singleton. reflexivity.
    + simpl. lia.
    + reflexivity.
    + exists ss1, ss2. auto.
Defined.

(** The claim fails on the code in two ways.  The session of the spec's own
    midnight example still ends on the next date after the splitting pass:
    [start.date() == end.date()] fails, and its end is the day's bound
    itself, not before it.  And on a log that is sorted as strings but not
    in time, a session that ends before it starts comes out of the pass as it
    went in. *)
Lemma split_session_may_end_on_next_date :
  (exists sessions,
     build_sessions fromisoformat midnight_log = ([], Ok sessions)
     /\ split_sessions sessions
        = [Session (mk_datetime 738886 84600000000) (mk_datetime 738887 0) "A" "#5bdee5";
           Session (mk_datetime 738887 900000000) (mk_datetime 738887 4500000000)
             "B" "#5bdee5"]
     /\ date (mk_datetime 738886 84600000000) <> date (mk_datetime 738887 0)
     /\ dt_ltb (mk_datetime 738887 0) (combine_min (738886 + 1)) = false)
  /\ (exists sessions,
        sort_events unpadded_log = Ok unpadded_log
        /\ build_sessions fromisoformat unpadded_log = ([], Ok sessions)
        /\ split_sessions sessions
           = [Session (mk_datetime 738886 36000000000) (mk_datetime 738886 34200000000)
                "A" "#5bdee5";
              Session (mk_datetime 738886 34200000000) (mk_datetime 738886 37800000000)
                "B" "#5bdee5"]
        /\ dt_leb (mk_datetime 738886 36000000000) (mk_datetime 738886 34200000000)
           = false).
Proof.
  split.
  - eexists. split; [vm_compute; reflexivity|]. split; [vm_compute; reflexivity|].
    split; [discriminate | reflexivity].
  - eexists. split; [vm_compute; reflexivity|]. split; [vm_compute; reflexivity|].
    split; vm_compute; reflexivity.
Qed.

(** ** The claims on the builder *)

Section BuilderClaims.
Variable fromisoformat : string -> option datetime.
Variable is_color_like : string -> bool.

Lemma final_session_total_last events e :
  last events = Some e -> parses_in_range fromisoformat e = true ->
  exists s, final_session fromisoformat events = ([], Ok s).
Proof.
  intros Hlast He. unfold final_session. rewrite Hlast.
  apply parses_in_range_spec in He as (d & Hd & Hv & Hr).
  rewrite (bind_silent _ _ _ Hd).
  destruct (contains _ _).
  - rewrite bind_ret_l. eexists; reflexivity.
  - destruct (add_hour_in_range _ Hv Hr) as [d' ->].
    unfold lift. fold (ret d'). rewrite bind_ret_l. eexists; reflexivity.
Qed.

(** C1: the session of every adjacent pair of the sorted log starts at the
    first event's time, carries its project and colour (Unknown and #cccccc
    when missing), and ends at the second event's time when both are on one
    date, at the midnight after the first event's date otherwise; there is one
    session per event, and on a log of in-range timestamps they are built. *)
Theorem pairwise_sessions (log events : list event) :
  sort_events log = Ok events ->
  (forall out sessions,
     build_sessions fromisoformat events = (out, Ok sessions) ->
     length sessions = length events
     /\ forall (i : nat) e e', events !! i = Some e -> events !! S i = Some e' ->
          exists cur nxt,
            parse_event fromisoformat e = ([], Ok cur)
            /\ parse_event fromisoformat e' = ([], Ok nxt)
            /\ sessions !! i
               = Some (Session cur
                         (if date cur =? date nxt then nxt
                          else combine_min (date cur + 1))
                         (default "Unknown" (project e))
                         (default "#cccccc" (color e))))
  /\ (events <> [] -> forallb (parses_in_range fromisoformat) events = true ->
      exists sessions, build_sessions fromisoformat events = ([], Ok sessions)).
Proof.
  intros _. split.
  - intros out sessions H.
    apply build_sessions_Ok in H as (_ & pairs & final & Hp & Hf & ->).
    destruct (build_pairs_Ok _ _ _ _ Hp) as (_ & Hlen & Hnth).
    apply final_session_Ok in Hf as (_ & e & _ & Hlast & _).
    assert (length events <> 0)%nat as Hne.
    { destruct events; [discriminate | simpl; lia]. }
    split; [rewrite length_app; simpl; lia|].
    intros i e0 e1 H0 H1.
    destruct (Hnth i e0 e1 H0 H1) as (cur & nxt & Hcur & Hnxt & _ & Hi).
    exists cur, nxt. split; [exact Hcur|]. split; [exact Hnxt|].
    rewrite lookup_app_l by (apply lookup_lt_Some in Hi; exact Hi). exact Hi.
  - intros Hne Hall. apply build_sessions_total; assumption.
Qed.

(** C2, as the program has it: the session of the last event is empty
    exactly when the name of its project contains END_OF_DAY, and lasts one
    hour otherwise; it is synthesised whenever that event's timestamp is in
    range. *)
Theorem final_session_duration (events : list event) :
  events <> [] ->
  (forall out s,
     final_session fromisoformat events = (out, Ok s) ->
     exists e,
       last events = Some e
       /\ parse_event fromisoformat e = ([], Ok (s_start s))
       /\ s_project s = default "Unknown" (project e)
       /\ s_color s = default "#cccccc" (color e)
       /\ (s_end s = s_start s <-> contains "END_OF_DAY" (s_project s) = true)
       /\ (contains "END_OF_DAY" (s_project s) = false ->
           to_us (s_end s) = to_us (s_start s) + 3600 * US_PER_SECOND))
  /\ (forall e, last events = Some e -> parses_in_range fromisoformat e = true ->
      exists s, final_session fromisoformat events = ([], Ok s)).
Proof.
  intros _. split; [|apply final_session_total_last].
  intros out s H.
  apply final_session_Ok in H as (_ & e & d & Hlast & Hd & Hstart & Hproj & Hcol & Hend).
  exists e. subst d. rewrite Hproj. fold (get (project e) "Unknown").
  split; [exact Hlast|]. split; [exact Hd|]. split; [reflexivity|]. split; [exact Hcol|].
  destruct (contains "END_OF_DAY" (get (project e) "Unknown")).
  - split; [tauto | discriminate].
  - apply add_timedelta_to_us in Hend.
    assert (3600 * US_PER_SECOND = US_PER_HOUR) as -> by reflexivity.
    split; [|intros _; exact Hend].
    split; [|discriminate]. intros Heq. rewrite Heq in Hend.
    unfold US_PER_HOUR, US_PER_MINUTE, US_PER_SECOND in Hend. lia.
Qed.

(** A log with a timestamp that cannot be parsed ends in an exception. *)
Lemma visualiser_raises events e :
  e ∈ events ->
  (exists o ex, parse_event fromisoformat e = (o, Raise ex)) ->
  exists out ex,
    visualiser fromisoformat is_color_like (FileJSON events) = (out, Raise ex).
Proof.
  intros He (o & ex & Hraise). unfold visualiser.
  destruct events as [|e0 l]; [inversion He|].
  destruct (sort_events (e0 :: l)) as [sorted|ex'] eqn:Es; [|eexists _, _; reflexivity].
  unfold lift. fold (ret sorted). rewrite bind_ret_l.
  apply sort_events_Ok in Es as [_ Hperm].
  rewrite <- Hperm in He.
  unfold sessions_by_day.
  destruct (build_sessions fromisoformat sorted) as [o1 [ss|ex1]] eqn:Eb.
  - destruct (build_sessions_parsed _ _ _ _ _ Eb He) as [d Hd]. congruence.
  - eexists _, _. reflexivity.
Qed.

(** C9: a timestamp that [fromisoformat] rejects, also with a zero put in
    front of its hour, ends the run with the exception, after the message
    naming it; a one-digit hour in an otherwise valid timestamp is padded and
    parsed. *)
Theorem malformed_timestamp_is_fatal :
  (forall e ts,
     timestamp e = Some ts ->
     fromisoformat ts = None ->
     (forall dp tp, ts = dp +:+ "T" +:+ tp ->
                    fromisoformat (dp +:+ "T" +:+ "0" +:+ tp) = None) ->
     (exists ex, parse_event fromisoformat e
                 = (["Error parsing timestamp: " +:+ ts], Raise ex))
     /\ forall events, e ∈ events ->
          exists out ex,
            visualiser fromisoformat is_color_like (FileJSON events) = (out, Raise ex))
  /\ (forall e dp h rest d,
        timestamp e = Some (dp +:+ "T" +:+ String h (String ":" rest)) ->
        has_char "T" dp = false ->
        has_char "T" (String h (String ":" rest)) = false ->
        fromisoformat (dp +:+ "T" +:+ "0" +:+ String h (String ":" rest)) = Some d ->
        parse_event fromisoformat e
        = ([], Ok (default d (fromisoformat (dp +:+ "T" +:+ String h (String ":" rest)))))).
Proof.
  split.
  - intros e ts Hts Hnone Hfix.
    destruct (parse_event_malformed _ _ _ Hts Hnone Hfix) as [ex Hex].
    split; [eauto|]. intros events He. apply (visualiser_raises events e He). eauto.
  - intros e dp h rest d. apply parse_event_padded.
Qed.

(** C10: a missing file, a file of text that is not JSON and an empty log
    each end the run with a message of their own and without a chart; a run
    that shows a chart had events to show and printed nothing, and a run that
    returns without one met one of those three or a falsy JSON value that is
    no list, which passes for an empty log.  But a file that is not JSON
    because its bytes are not even text gets no message: the
    [UnicodeDecodeError] of reading it is not a [json.JSONDecodeError], the
    only exception caught, and ends the run. *)
Theorem visualiser_reports_and_stops :
  visualiser fromisoformat is_color_like FileUndecodable = ([], Raise UnicodeDecodeError)
  /\ visualiser fromisoformat is_color_like FileMissing
     = (["File 'history.json' not found."], Ok None)
  /\ visualiser fromisoformat is_color_like FileNotJSON
     = (["Error: The file is not valid JSON."], Ok None)
  /\ visualiser fromisoformat is_color_like (FileJSON [])
     = (["No events found in history."], Ok None)
  /\ "File 'history.json' not found." <> "Error: The file is not valid JSON."
  /\ "File 'history.json' not found." <> "No events found in history."
  /\ "Error: The file is not valid JSON." <> "No events found in history."
  /\ (forall file out c,
        visualiser fromisoformat is_color_like file = (out, Ok (Some c)) ->
        out = [] /\ exists events, file = FileJSON events /\ events <> [])
  /\ (forall file out,
        visualiser fromisoformat is_color_like file = (out, Ok None) ->
        file = FileMissing \/ file = FileNotJSON \/ file = FileJSON []
        \/ exists is_object, file = FileJSONOther false is_object).
Proof.
  do 7 (split; [first [reflexivity | discriminate]|]). split.
  - intros [| | |[|e l]|[|] o] out c H; try discriminate.
    split; [|exists (e :: l); split; [reflexivity | discriminate]].
    unfold visualiser in H.
    apply bind_Ok in H as (o1 & sorted & o2 & Hs & H & ->).
    apply bind_Ok in H as (o3 & by_day & o4 & Hb & H & ->).
    destruct (colors_accepted _ _ _); [|discriminate].
    injection H as <- _. injection Hs as <- _.
    destruct (sessions_by_day_Ok _ _ _ _ Hb) as (sessions & Hbuild & _).
    unfold sessions_by_day in Hb. rewrite (bind_silent _ _ _ Hbuild) in Hb.
    injection Hb as <- _. reflexivity.
  - intros [| | |[|e l]|[|] o] out H; auto; try discriminate.
    + unfold visualiser in H.
      apply bind_Ok in H as (o1 & sorted & o2 & Hs & H & ->).
      apply bind_Ok in H as (o3 & by_day & o4 & Hb & H & ->).
      destruct (colors_accepted _ _ _); discriminate.
    + right. right. right. exists o. reflexivity.
Qed.
End BuilderClaims.

(** ** The claims on the sort and on single timestamps, on examples *)

Lemma no_sep_no_pieces sep s dp tp :
  has_char sep s = false -> s <> dp +:+ String sep tp.
Proof.
  revert s. induction dp as [|c dp IH]; intros s Hs ->; simpl in Hs.
  - rewrite Ascii.eqb_refl in Hs. discriminate.
  - apply orb_false_iff in Hs as [_ Hs]. exact (IH _ Hs eq_refl).
Qed.

Lemma pairwise_sessions_witness :
  exists sessions,
    build_sessions fromisoformat morning_log = ([], Ok sessions)
    /\ sessions !! 0%nat
       = Some (Session (mk_datetime 738886 32400000000) (mk_datetime 738886 43200000000)
                 "A" "#5bdee5").
Proof.
  destruct (pairwise_sessions fromisoformat morning_log morning_log eq_refl)
    as [Hshape Htotal].
  destruct Htotal as [sessions Hs]; [discriminate | reflexivity |].
  exists sessions. split; [exact Hs|].
  destruct (Hshape _ _ Hs) as [_ Hnth].
  destruct (Hnth 0%nat _ _ eq_refl eq_refl) as (cur & nxt & Hcur & Hnxt & Hi).
  vm_compute in Hcur, Hnxt. injection Hcur as <-. injection Hnxt as <-. exact Hi.
Defined.

Lemma final_session_duration_witness :
  exists s,
    final_session fromisoformat morning_log = ([], Ok s)
    /\ to_us (s_end s) = to_us (s_start s) + 3600 * US_PER_SECOND.
Proof.
  destruct (final_session_duration fromisoformat morning_log) as [Hshape Htotal];
    [discriminate|].
  destruct (Htotal _ eq_refl) as [s Hs]; [reflexivity|].
  exists s. split; [exact Hs|].
  destruct (Hshape _ _ Hs) as (e & Hlast & _ & Hproj & _ & _ & Hhour).
  apply Hhour. rewrite Hproj. injection Hlast as <-. reflexivity.
Defined.

(** A last project that merely contains the sentinel gets no duration either. *)
Lemma final_session_empty_without_sentinel :
  final_session fromisoformat overtime_log
  = ([], Ok (Session (mk_datetime 738886 61200000000) (mk_datetime 738886 61200000000)
               "PRE_END_OF_DAY" "#5bdee5"))
  /\ "PRE_END_OF_DAY" <> "END_OF_DAY".
Proof. split; [vm_compute; reflexivity | discriminate]. Qed.

Lemma malformed_timestamp_is_fatal_witness :
  parse_event fromisoformat (sample_event "2024-01-01T9:30:00" "B")
  = ([], Ok (mk_datetime 738886 34200000000))
  /\ exists out ex,
       visualiser fromisoformat hex_color (FileJSON garbled_log) = (out, Raise ex).
Proof.
  destruct (malformed_timestamp_is_fatal fromisoformat hex_color) as [Hfatal Hpad]. split.
  - exact (Hpad (sample_event "2024-01-01T9:30:00" "B") "2024-01-01" "9"%char "30:00"
             (mk_datetime 738886 34200000000) eq_refl eq_refl eq_refl eq_refl).
  - destruct (Hfatal (sample_event "yesterday 9am" "B") "yesterday 9am" eq_refl eq_refl)
      as [_ Hrun].
    + intros dp tp Heq. exfalso. revert Heq. apply no_sep_no_pieces. reflexivity.
    + apply Hrun. apply elem_of_cons. right. apply list_elem_of_singleton. reflexivity.
Defined.

(** The second half of the claim fails on the code: an hour of one digit
    that stands alone, or behind a blank instead of a T, is valid once a zero
    is put in front of it, yet the repair does not reach it.  The first runs
    into [time_part[1]] of a string of one character ([IndexError]), the
    second into the unpacking of a [split] that found no T ([ValueError]);
    both are printed and end the run. *)
Lemma padded_hour_is_not_always_parsed :
  fromisoformat "2024-01-01T09" = Some (mk_datetime 738886 32400000000)
  /\ parse_event fromisoformat (sample_event "2024-01-01T9" "B")
     = (["Error parsing timestamp: 2024-01-01T9"], Raise IndexError)
  /\ visualiser fromisoformat hex_color (FileJSON [sample_event "2024-01-01T9" "B"])
     = (["Error parsing timestamp: 2024-01-01T9"], Raise IndexError)
  /\ fromisoformat "2024-01-01 09:30:00" = Some (mk_datetime 738886 34200000000)
  /\ parse_event fromisoformat (sample_event "2024-01-01 9:30:00" "B")
     = (["Error parsing timestamp: 2024-01-01 9:30:00"], Raise ValueError).
Proof.
  split; [vm_compute; reflexivity|]. split; [vm_compute; reflexivity|].
  split; [vm_compute; reflexivity|]. split; vm_compute; reflexivity.
Qed.

(** C4, on an example: the sort compares the timestamps as strings, so an
    unpadded 9:30 stays behind 10:00 and the first session runs backwards. *)
Lemma sort_events_orders_strings_not_times :
  sort_events unpadded_log = Ok unpadded_log
  /\ sort_events (rev unpadded_log) = Ok unpadded_log
  /\ build_sessions fromisoformat unpadded_log
     = ([], Ok [Session (mk_datetime 738886 36000000000) (mk_datetime 738886 34200000000)
                  "A" "#5bdee5";
                Session (mk_datetime 738886 34200000000) (mk_datetime 738886 37800000000)
                  "B" "#5bdee5"])
  /\ dt_ltb (mk_datetime 738886 34200000000) (mk_datetime 738886 36000000000) = true.
Proof. repeat split; vm_compute; reflexivity. Qed.

(** ** Colours *)

Lemma le_bytes_range (n : nat) x : Forall (fun b => 0 <= b < 256) (le_bytes n x).
Proof.
  revert x. induction n as [|n IH]; intros x; simpl; constructor; [|apply IH].
  apply Z.mod_pos_bound. lia.
Qed.

Lemma length_le_bytes (n : nat) x : length (le_bytes n x) = n.
Proof. revert x. induction n as [|n IH]; intros x; simpl; [|rewrite IH]; reflexivity. Qed.

Lemma foldl_be_bound (l : list Z) : forall acc,
  Forall (fun b => 0 <= b < 256) l -> 0 <= acc ->
  0 <= foldl (fun acc b => 256 * acc + b) acc l < (acc + 1) * 256 ^ Z.of_nat (length l).
Proof.
  induction l as [|b l IH]; intros acc Hl Hacc.
  - simpl. lia.
  - apply Forall_cons in Hl as [Hb Hl].
    specialize (IH (256 * acc + b) Hl ltac:(lia)).
    cbn [foldl length]. rewrite Nat2Z.inj_succ, Z.pow_succ_r by lia.
    assert (0 < 256 ^ Z.of_nat (length l)) by (apply Z.pow_pos_nonneg; lia).
    nia.
Qed.

Lemma length_md5_digest msg : length (md5_digest msg) = 16%nat.
Proof.
  unfold md5_digest. destruct (md5_blocks _ _ _) as [[[a b] c] d].
  rewrite !length_app, !length_le_bytes. reflexivity.
Qed.

Lemma md5_digest_range msg : Forall (fun b => 0 <= b < 256) (md5_digest msg).
Proof.
  unfold md5_digest. destruct (md5_blocks _ _ _) as [[[a b] c] d].
  rewrite !Forall_app. auto using le_bytes_range.
Qed.

(** The hash is a number of 128 bits. *)
Lemma md5_int_range name : 0 <= md5_int name < 2 ^ 128.
Proof.
  unfold md5_int, be_int.
  pose proof (foldl_be_bound _ 0 (md5_digest_range (encode name)) ltac:(lia)) as H.
  rewrite length_md5_digest in H. exact H.
Qed.

Lemma get_color_consistent name cache :
  cache_consistent cache ->
  fst (get_color name cache) = hashed_color name
  /\ cache_consistent (snd (get_color name cache))
  /\ snd (get_color name cache) !! name = Some (hashed_color name).
Proof.
  intros Hc. unfold get_color. destruct (cache !! name) as [c|] eqn:E; simpl.
  - pose proof (Hc _ _ E) as ->. auto.
  - split; [reflexivity|]. split; [|apply lookup_insert_eq].
    intros n c Hn. destruct (decide (name = n)) as [->|Hne].
    + rewrite lookup_insert_eq in Hn. congruence.
    + rewrite lookup_insert_ne in Hn by assumption. apply (Hc _ _ Hn).
Qed.

Lemma after_calls_consistent names : cache_consistent (after_calls names).
Proof.
  unfold after_calls.
  assert (cache_consistent (∅ : gmap string rgb)) as H0.
  { intros n c Hn. rewrite lookup_empty in Hn. discriminate. }
  revert H0. generalize (∅ : gmap string rgb).
  induction names as [|n names IH]; intros cache Hc; [exact Hc|].
  simpl. apply IH. apply (get_color_consistent n cache Hc).
Qed.

(** C8: whatever was asked of [get_color] before, it returns for a name the
    colour of hue [(hash mod 360) / 360], saturation 0.6 and value 0.9, [hash]
    being the 128-bit MD5 number of the UTF-8 bytes of the name; asking again
    returns the same floats.  The hash is that of RFC 1321 on its test suite
    and on two names beyond ASCII, and the floats returned are those of
    [colorsys.hsv_to_rgb] for a name in each of the six sectors of the hue. *)
Theorem get_color_deterministic (calls : list string) (project_name : string) :
  let cache := after_calls calls in
  fst (get_color project_name cache)
  = hsv_to_rgb (float_of_Z (md5_int project_name mod 360) / 360) 0.6 0.9
  /\ fst (get_color project_name (snd (get_color project_name cache)))
     = fst (get_color project_name cache)
  /\ 0 <= md5_int project_name < 2 ^ 128
  /\ 0 <= md5_int project_name mod 360 < 360
  /\ map md5_int
       [""; "a"; "abc"; "message digest"; "abcdefghijklmnopqrstuvwxyz";
        "ABCDEFGHIJKLMNOPQRSTUVWXYZabcdefghijklmnopqrstuvwxyz0123456789";
        "12345678901234567890123456789012345678901234567890123456789012345678901234567890";
        "Job1"; "é"; "Bürozeit"]
     = [0xd41d8cd98f00b204e9800998ecf8427e; 0x0cc175b9c0f1b6a831c399e269772661;
        0x900150983cd24fb0d6963f7d28e17f72; 0xf96b697d7cb7938d525a2f31aaf161d0;
        0xc3fcd3d76192e4007dfb496cca67e13b; 0xd174ab98d277d9f5a5611c2c9f419d9f;
        0x57edf4a22be3c955ac49da2e2107b67a; 0xebf0019c0d5c7bd661e2d1351e3824f7;
        0x66ddcd97cfdeabb2f6fb8a999b4bc76f; 0x3ab332ca849f1b5eed0e2996a21046cb]
  /\ map (fun name => md5_int name mod 360)
       ["Toyota"; "abcdefghijklmnopqrstuvwxyz"; "Falcon"; "Job1"; "Job2"; "message digest"]
     = [41; 75; 128; 183; 279; 320]
  /\ map (fun name => fst (get_color name cache))
       ["Toyota"; "abcdefghijklmnopqrstuvwxyz"; "Falcon"; "Job1"; "Job2"; "message digest"]
     = [(0.9, 0.7290000000000001, 0.36000000000000004);
        (0.765, 0.9, 0.36000000000000004);
        (0.36000000000000004, 0.9, 0.432);
        (0.36000000000000004, 0.8730000000000001, 0.9);
        (0.7110000000000003, 0.36000000000000004, 0.9);
        (0.9, 0.36000000000000004, 0.7200000000000002)]%float
  /\ map (fun name => rgb_to_hex (fst (get_color name cache)))
       ["Toyota"; "abcdefghijklmnopqrstuvwxyz"; "Falcon"; "Job1"; "Job2"; "message digest"]
     = ["#e5b95b"; "#c3e55b"; "#5be56e"; "#5bdee5"; "#b55be5"; "#e55bb7"].
Proof.
  intros cache.
  assert (forall name, fst (get_color name cache) = hashed_color name) as Hg.
  { intros name.
    exact (proj1 (get_color_consistent name cache (after_calls_consistent calls))). }
  destruct (get_color_consistent project_name cache (after_calls_consistent calls))
    as (Hfst & Hcons & _).
  destruct (get_color_consistent project_name _ Hcons) as (Hfst' & _).
  split; [exact Hfst|]. split; [congruence|].
  split; [apply md5_int_range|]. split; [apply Z.mod_pos_bound; lia|].
  split; [vm_compute; reflexivity|]. split; [vm_compute; reflexivity|].
  cbn [map]. rewrite !Hg. split; vm_compute; reflexivity.
Qed.

(** ** Switching projects *)

(** C7, as the program has it: switching to the active project changes
    nothing; any other switch appends one event, stamped with the clock, whose
    colour is the alert red for END_OF_DAY, else the override when one is given
    and not empty, else the colour of the project name, and rewrites the log
    file with the whole history. *)
Theorem switch_project_appends_one_event (project : string)
    (color_override : option string) (now now' : datetime) (st : dashboard) :
  (Some project = current_project st ->
   switch_project project color_override now now' st = st)
  /\ (Some project <> current_project st ->
      let st' := switch_project project color_override now now' st in
      let color :=
        if String.eqb project "END_OF_DAY" then "#ff6666"
        else match color_override with
             | Some c => if String.eqb c "" then
                           rgb_to_hex (fst (get_color project (project_color_cache st)))
                         else c
             | None => rgb_to_hex (fst (get_color project (project_color_cache st)))
             end in
      history st'
      = history st ++ [mk_event (Some (isoformat now')) (Some project) (Some color)]
      /\ log_file st' = Some (history st')
      /\ current_project st' = Some project
      /\ project_start_time st' = Some now
      /\ (cache_consistent (project_color_cache st) ->
          cache_consistent (project_color_cache st')
          /\ fst (get_color project (project_color_cache st)) = hashed_color project)).
Proof.
  unfold switch_project, truthy. split; intros Hcur.
  - rewrite bool_decide_eq_true_2 by assumption. reflexivity.
  - rewrite bool_decide_eq_false_2 by assumption. cbv zeta.
    destruct (get_color project (project_color_cache st)) as [c cache] eqn:Eg.
    assert (cache_consistent (project_color_cache st) ->
            cache_consistent cache /\ c = hashed_color project) as Hcache.
    { intros Hc. destruct (get_color_consistent project _ Hc) as (H1 & H2 & _).
      rewrite Eg in H1, H2. auto. }
    destruct (String.eqb project "END_OF_DAY"); [|destruct color_override as [o|];
      [destruct (String.eqb o "")|]]; simpl;
      (split; [reflexivity|]); (split; [reflexivity|]); (split; [reflexivity|]);
      (split; [reflexivity|]); intros Hc; destruct (Hcache Hc); auto.
Qed.

Lemma switch_project_appends_one_event_witness :
  history (switch_project "Job1" (Some "#123456") sample_start sample_end fresh_dashboard)
  = [mk_event (Some "2024-01-03T00:30:00") (Some "Job1") (Some "#123456")]
  /\ log_file (switch_project "Job1" (Some "#123456") sample_start sample_end fresh_dashboard)
     = Some [mk_event (Some "2024-01-03T00:30:00") (Some "Job1") (Some "#123456")]
  /\ switch_project "Job1" None sample_end sample_end
       (switch_project "Job1" (Some "#123456") sample_start sample_end fresh_dashboard)
     = switch_project "Job1" (Some "#123456") sample_start sample_end fresh_dashboard.
Proof.
  destruct (switch_project_appends_one_event "Job1" (Some "#123456") sample_start
              sample_end fresh_dashboard) as [_ Hnew].
  destruct Hnew as (Hh & Hf & _); [discriminate|].
  split; [exact Hh|]. split; [rewrite Hf, Hh; reflexivity|].
  apply (switch_project_appends_one_event "Job1" None sample_end sample_end).
  reflexivity.
Defined.

(** The sentinel keeps its red even when a colour is passed with it. *)
Lemma switch_project_sentinel_ignores_override :
  history (switch_project "END_OF_DAY" (Some "#123456") sample_start sample_start
             fresh_dashboard)
  = [mk_event (Some "2024-01-01T23:30:00") (Some "END_OF_DAY") (Some "#ff6666")]
  /\ "#ff6666" <> "#123456".
Proof. split; [vm_compute; reflexivity | discriminate]. Qed.

(** ** The examples of the specification, run *)

(** 09:00 on A and 12:00 on B: A until 12:00, B for the added hour. *)
Example session_builder_morning :
  build_sessions fromisoformat morning_log
  = ([], Ok [Session (mk_datetime 738886 32400000000) (mk_datetime 738886 43200000000)
               "A" "#5bdee5";
             Session (mk_datetime 738886 43200000000) (mk_datetime 738886 46800000000)
               "B" "#5bdee5"]).
Proof. vm_compute. reflexivity. Qed.

(** 23:30 on A and 00:15 on B the next day: the chart has two columns; A is
    drawn from 23.5 to 24.0 with its outline, B from 0.25 for its hour.  In
    the examples [hex_color] stands for the colours matplotlib accepts, of
    which the forms [#rrggbb] are some. *)
Example visualiser_midnight_chart :
  visualiser fromisoformat hex_color (FileJSON midnight_log)
  = ([], Ok (Some (mk_chart
       [Rectangle (-0.4) 23.5 0.8 0.5 "#5bdee5" "black" (Some 0.7%float) None;
        Text 0 23.75 "A";
        Rectangle (-0.4) 23.5 0.8 0.5 "none" "red" None (Some 2);
        Rectangle (1 - 0.4) 0.25 0.8 1 "#5bdee5" "black" (Some 0.7%float) None;
        Text 1 0.75 "B"]
       [738886; 738887]))).
Proof. vm_compute. reflexivity. Qed.

(** A session of twelve minutes from 09:00 is [9.2 - 9.0] hours long, which
    in binary64 is below [0.2]: it gets no label. *)
Example twelve_minutes_unlabelled :
  draw_session 0 (Session (mk_datetime 738886 32400000000) (mk_datetime 738886 33120000000)
                    "A" "#5bdee5")
  = [Rectangle (-0.4) 9 0.8 (9.2 - 9) "#5bdee5" "black" (Some 0.7%float) None]
  /\ PrimFloat.leb 0.2 (9.2 - 9) = false.
Proof. split; vm_compute; reflexivity. Qed.

Lemma timeline_layout_witness :
  Rectangle (-0.4) 23.5 0.8 0.5 "none" "red" None (Some 2)
  ∈ plot [738886; 738887]
      (group_by_day
         [Session (mk_datetime 738886 84600000000) (mk_datetime 738887 0) "A" "#5bdee5";
          Session (mk_datetime 738887 900000000) (mk_datetime 738887 4500000000)
            "B" "#5bdee5"])
  /\ Rectangle (-0.4) 19 0.8 1 "none" "red" None (Some 2)
     ∈ plot [738886]
         (group_by_day
            [Session (mk_datetime 738886 64800000000) (mk_datetime 738886 72000000000)
               "A" "#5bdee5"]).
Proof.
  split.
  - destruct (timeline_layout
                [Session (mk_datetime 738886 84600000000) (mk_datetime 738887 0)
                   "A" "#5bdee5";
                 Session (mk_datetime 738887 900000000) (mk_datetime 738887 4500000000)
                   "B" "#5bdee5"]) as [Hdrawn _].
    destruct (Hdrawn 738886
                [Session (mk_datetime 738886 84600000000) (mk_datetime 738887 0)
                   "A" "#5bdee5"]
                (Session (mk_datetime 738886 84600000000) (mk_datetime 738887 0)
                   "A" "#5bdee5"))
      as (_ & i & _ & Huniq & _ & Houtline & _).
    + vm_compute. reflexivity.
    + apply list_elem_of_singleton. reflexivity.
    + assert (0%nat = i) as <- by (apply Huniq; vm_compute; reflexivity).
      apply Houtline. vm_compute. reflexivity.
  - destruct (timeline_layout
                [Session (mk_datetime 738886 64800000000) (mk_datetime 738886 72000000000)
                   "A" "#5bdee5"]) as [Hdrawn _].
    destruct (Hdrawn 738886
                [Session (mk_datetime 738886 64800000000) (mk_datetime 738886 72000000000)
                   "A" "#5bdee5"]
                (Session (mk_datetime 738886 64800000000) (mk_datetime 738886 72000000000)
                   "A" "#5bdee5"))
      as (_ & i & _ & Huniq & _ & Houtline & _).
    + vm_compute. reflexivity.
    + apply list_elem_of_singleton. reflexivity.
    + assert (0%nat = i) as <- by (apply Huniq; vm_compute; reflexivity).
      apply Houtline. vm_compute. reflexivity.
Defined.

(** * Further properties of vis.py *)

Lemma all_from_spec (n : nat) : forall lo p,
  all_from n lo p = true -> forall z, lo <= z < lo + Z.of_nat n -> p z = true.
Proof.
  induction n as [|n IH]; intros lo p H z Hz; [lia|].
  simpl in H. apply andb_true_iff in H as [H1 H2].
  destruct (Z.eq_dec z lo) as [->|Hne]; [exact H1|].
  apply (IH (lo + 1)); [exact H2 | lia].
Qed.

(** ** What the splitting pass keeps *)

(** The function returns no fragment exactly when the end is not after the
    start: an empty or backward interval vanishes. *)
Theorem split_session_by_day_empty_iff (start end_ : datetime) (project color : string) :
  split_session_by_day start end_ project color = [] <-> dt_ltb start end_ = false.
Proof.
  destruct (decide (date start < date end_)) as [Hlt|Hge].
  - rewrite split_session_by_day_lt by assumption.
    unfold dt_ltb, date in *. split; [discriminate | lia].
  - rewrite split_session_by_day_ge by assumption.
    destruct (dt_ltb start end_); split; congruence.
Qed.

Lemma total_us_app l1 l2 : total_us (l1 ++ l2) = total_us l1 + total_us l2.
Proof. induction l1 as [|s l1 IH]; simpl; [reflexivity | rewrite IH; lia]. Qed.

Lemma tiles_total_us p c a b l : tiles p c a b l -> total_us l = to_us b - to_us a.
Proof.
  induction 1 as [| |a b l Hl IH].
  - unfold total_us, duration_us. simpl. lia.
  - unfold total_us, duration_us. simpl. lia.
  - change (total_us (Session a (combine_min (date a + 1)) p c :: l))
      with (duration_us (Session a (combine_min (date a + 1)) p c) + total_us l).
    rewrite IH. unfold duration_us. simpl. lia.
Qed.

Lemma split_session_by_day_total_us (start end_ : datetime) (project color : string) :
  time_in_day end_ ->
  dt_ltb start end_ = true ->
  total_us (split_session_by_day start end_ project color) = to_us end_ - to_us start.
Proof.
  intros [Hus _] Hlt.
  destruct (decide (date start < date end_)) as [Hd|Hd].
  - apply (tiles_total_us project color). apply split_session_by_day_tiles; assumption.
  - rewrite split_session_by_day_ge by assumption. rewrite Hlt.
    unfold total_us, duration_us. simpl. lia.
Qed.

(** The fragments of a forward interval add up to the interval. *)
Theorem split_session_by_day_keeps_duration (start end_ : datetime) (project color : string) :
  time_in_day end_ ->
  dt_ltb start end_ = true ->
  total_us (split_session_by_day start end_ project color) = to_us end_ - to_us start.
Proof. apply split_session_by_day_total_us. Qed.

Lemma split_session_by_day_keeps_duration_witness :
  total_us (split_session_by_day sample_start sample_end "A" "#5bdee5")
  = 25 * US_PER_HOUR.
Proof.
  rewrite (split_session_by_day_keeps_duration sample_start sample_end "A" "#5bdee5").
  - reflexivity.
  - unfold time_in_day. vm_compute. split; [discriminate | reflexivity].
  - reflexivity.
Defined.

(** The whole pass: when no session runs backwards, the split sessions
    account for exactly the time of the sessions they come from. *)
Theorem split_sessions_keep_duration (sessions : list session) :
  Forall (fun s => time_in_day (s_end s) /\ dt_leb (s_start s) (s_end s) = true) sessions ->
  total_us (split_sessions sessions) = total_us sessions.
Proof.
  induction 1 as [|s l [Ht Hle] _ IH]; [reflexivity|].
  change (split_sessions (s :: l))
    with ((if date (s_start s) =? date (s_end s) then [s]
           else split_session_by_day (s_start s) (s_end s) (s_project s) (s_color s))
          ++ split_sessions l).
  rewrite total_us_app, IH. change (total_us (s :: l)) with (duration_us s + total_us l).
  f_equal. destruct (Z.eqb_spec (date (s_start s)) (date (s_end s))) as [Heq|Hne].
  - unfold total_us. simpl. lia.
  - rewrite split_session_by_day_total_us; [reflexivity | exact Ht |].
    unfold dt_leb, dt_ltb, date in *. lia.
Qed.

Lemma split_sessions_keep_duration_witness :
  total_us (split_sessions
              [Session (mk_datetime 738886 79200000000) (mk_datetime 738886 84600000000)
                 "A" "#5bdee5";
               Session sample_start sample_end "B" "#5bdee5"])
  = 26 * US_PER_HOUR + 30 * US_PER_MINUTE.
Proof.
  rewrite split_sessions_keep_duration.
  - reflexivity.
  - repeat constructor; vm_compute; congruence.
Defined.

(** ** Days and columns *)

(** The buckets and the columns of the chart: a date is a column exactly when
    a session starts on it, the columns are in strictly increasing order, and
    the bucket of a column holds the sessions that start on its date, in the
    order in which the splitting pass produced them. *)
Theorem day_columns (sessions_split : list session) :
  let by_day := group_by_day sessions_split in
  let days := sorted_days by_day in
  (forall day, day ∈ days <-> exists s, s ∈ sessions_split /\ date (s_start s) = day)
  /\ (forall (i j : nat) d d',
        days !! i = Some d -> days !! j = Some d' -> (i < j)%nat -> d < d')
  /\ (forall day, day ∈ days ->
        by_day !! day = Some (filter (fun s => date (s_start s) = day) sessions_split)).
Proof.
  intros by_day days. subst days by_day. split; [|split].
  - intros day. rewrite sorted_days_elem_of. split.
    + intros [ss Hss]. pose proof Hss as Hl. rewrite group_by_day_lookup in Hl.
      destruct (filter _ sessions_split) as [|f fs] eqn:E; [discriminate|].
      exists f. assert (f ∈ filter (fun s => date (s_start s) = day) sessions_split) as Hf
        by (rewrite E; apply elem_of_cons; left; reflexivity).
      apply list_elem_of_filter in Hf. tauto.
    + intros (s & Hs & <-). destruct (group_by_day_complete _ _ Hs) as (ss & Hss & _). eauto.
  - apply sorted_days_increasing.
  - intros day Hday. apply sorted_days_elem_of in Hday as [ss Hss].
    rewrite group_by_day_lookup in *.
    destruct (filter _ sessions_split); [discriminate | reflexivity].
Qed.

(** ** Runs that end in an exception, runs that end in a chart *)

Section VisualiserRuns.
Variable fromisoformat : string -> option datetime.
Variable is_color_like : string -> bool.

Lemma parses_in_range_timestamp e :
  parses_in_range fromisoformat e = true -> is_Some (timestamp e).
Proof.
  unfold parses_in_range, parse_event. destruct (timestamp e); [eauto|].
  unfold raise. discriminate.
Qed.

Lemma sort_events_total events :
  forallb (parses_in_range fromisoformat) events = true ->
  sort_events events = Ok (stable_sort timestamp key_ltb events).
Proof.
  intros H. unfold sort_events.
  replace (existsb _ events) with false; [rewrite andb_false_r; reflexivity|].
  symmetry. apply not_true_is_false. intros Hex.
  apply existsb_exists in Hex as (e & He & Hn).
  rewrite forallb_forall in H. apply H, parses_in_range_timestamp in He.
  rewrite bool_decide_eq_true_2 in Hn by assumption. discriminate.
Qed.

Lemma visualiser_nonempty events :
  events <> [] ->
  visualiser fromisoformat is_color_like (FileJSON events)
  = bind (lift (sort_events events)) (fun events =>
    bind (sessions_by_day fromisoformat events) (fun by_day =>
    if colors_accepted is_color_like (sorted_days by_day) by_day
    then ret (Some (mk_chart (plot (sorted_days by_day) by_day) (sorted_days by_day)))
    else raise ValueError)).
Proof. destruct events; [contradiction | reflexivity]. Qed.

(** An event without a timestamp ends the run before anything is printed:
    in a log of two or more events the sort cannot compare its key
    ([TypeError]), and as the only event of a log it cannot be parsed
    ([KeyError]). *)
Theorem visualiser_missing_timestamp (events : list event) (e : event) :
  e ∈ events -> timestamp e = None ->
  visualiser fromisoformat is_color_like (FileJSON events)
  = ([], Raise (if (2 <=? length events)%nat then TypeError else KeyError)).
Proof.
  intros He Hts.
  rewrite visualiser_nonempty by (intros ->; inversion He).
  destruct (2 <=? length events)%nat eqn:Hlen.
  - unfold sort_events. rewrite Hlen.
    replace (existsb _ events) with true; [reflexivity|].
    symmetry. apply existsb_exists. exists e. split; [apply list_elem_of_In, He|].
    rewrite Hts. rewrite bool_decide_eq_false_2; [reflexivity|].
    intros [x Hx]. discriminate.
  - apply Nat.leb_gt in Hlen.
    destruct events as [|e0 [|e1 rest]]; [inversion He| |simpl in Hlen; lia].
    apply list_elem_of_singleton in He as <-.
    unfold sort_events, sessions_by_day, build_sessions, final_session, parse_event.
    simpl. rewrite Hts. reflexivity.
Qed.

Lemma sessions_by_day_total (events : list event) :
  events <> [] ->
  forallb (parses_in_range fromisoformat) events = true ->
  exists sorted by_day,
    sort_events events = Ok sorted
    /\ sessions_by_day fromisoformat sorted = ([], Ok by_day)
    /\ sorted_days by_day <> [].
Proof.
  intros Hne Hall.
  pose proof (sort_events_total _ Hall) as Hsort.
  set (sorted := stable_sort timestamp key_ltb events) in *.
  assert (Permutation sorted events) as Hperm by apply stable_sort_Permutation.
  assert (forallb (parses_in_range fromisoformat) sorted = true) as Hall'.
  { apply forallb_forall. intros x Hx. rewrite forallb_forall in Hall.
    apply Hall. apply (Permutation_in _ Hperm Hx). }
  assert (sorted <> []) as Hne'.
  { intros E. rewrite E in Hperm. apply Permutation_nil in Hperm. contradiction. }
  destruct (build_sessions_total _ _ Hall' Hne') as [sessions Hb].
  exists sorted, (group_by_day (split_sessions sessions)).
  split; [exact Hsort|]. split.
  { unfold sessions_by_day. rewrite (bind_silent _ _ _ Hb). reflexivity. }
  destruct (build_sessions_Ok _ _ _ _ Hb) as (_ & pairs & final & _ & Hf & ->).
  apply final_session_Ok in Hf as (_ & e & d & Hlast & Hd & Hstart & _ & _ & Hend).
  assert (e ∈ sorted) as He.
  { apply last_Some in Hlast as [l' ->]. apply elem_of_app. right.
    apply list_elem_of_singleton. reflexivity. }
  assert (time_in_day d) as Td.
  { rewrite forallb_forall in Hall'. apply list_elem_of_In, Hall' in He.
    apply parses_in_range_spec in He as (d' & Hd' & Hv & _).
    rewrite Hd in Hd'. injection Hd' as <-. apply Hv. }
  assert (date (s_start final) <= date (s_end final)) as Hle.
  { rewrite Hstart. revert Hend. destruct (contains _ _); intros Hend.
    - rewrite Hend. lia.
    - destruct (add_timedelta_hour _ _ Td Hend) as (_ & Hdate & _). lia. }
  assert (exists f, f ∈ split_sessions (pairs ++ [final])) as [f Hfin].
  { destruct (decide (date (s_start final) = date (s_end final))) as [Heq|Hneq].
    - exists final. apply split_sessions_elem_of. exists final. split.
      + apply elem_of_app. right. apply list_elem_of_singleton. reflexivity.
      + left. auto.
    - eexists. apply split_sessions_elem_of. exists final. split.
      + apply elem_of_app. right. apply list_elem_of_singleton. reflexivity.
      + right. split; [exact Hneq|].
        rewrite split_session_by_day_lt by lia. apply elem_of_cons. left. reflexivity. }
  destruct (group_by_day_complete _ _ Hfin) as (ss & Hss & _).
  intros Hnil.
  assert (date (s_start f) ∈ sorted_days (group_by_day (split_sessions (pairs ++ [final]))))
    as Hin by (apply sorted_days_elem_of; eauto).
  rewrite Hnil in Hin. inversion Hin.
Qed.

(** A log that is not empty and whose timestamps all parse, as they are or
    after the repair of the hour, to times before the last representable day
    is read without a message and without an exception up to the plotting
    loop: the events are sorted, parsed, paired, split at the midnights and
    grouped, and there is at least one day to draw.  (Whether the rectangles
    are then drawn rests with matplotlib, which checks the colours of the
    events.) *)
Theorem well_formed_log_is_grouped (events : list event) :
  events <> [] ->
  forallb (parses_in_range fromisoformat) events = true ->
  exists sorted by_day,
    sort_events events = Ok sorted
    /\ sessions_by_day fromisoformat sorted = ([], Ok by_day)
    /\ sorted_days by_day <> [].
Proof. apply sessions_by_day_total. Qed.
End VisualiserRuns.

Lemma visualiser_missing_timestamp_witness :
  visualiser Datetime.fromisoformat hex_color
    (FileJSON [sample_event "2024-01-01T09:00:00" "A"; mk_event None (Some "B") None])
  = ([], Raise TypeError)
  /\ visualiser Datetime.fromisoformat hex_color (FileJSON [mk_event None (Some "B") None])
     = ([], Raise KeyError).
Proof.
  split.
  - apply (visualiser_missing_timestamp Datetime.fromisoformat hex_color
             [sample_event "2024-01-01T09:00:00" "A"; mk_event None (Some "B") None]
             (mk_event None (Some "B") None)).
    + apply elem_of_cons. right. apply list_elem_of_singleton. reflexivity.
    + reflexivity.
  - apply (visualiser_missing_timestamp Datetime.fromisoformat hex_color
             [mk_event None (Some "B") None] (mk_event None (Some "B") None)).
    + apply list_elem_of_singleton. reflexivity.
    + reflexivity.
Defined.

Lemma well_formed_log_is_grouped_witness :
  exists sorted by_day,
    sort_events midnight_log = Ok sorted
    /\ sessions_by_day Datetime.fromisoformat sorted = ([], Ok by_day)
    /\ sorted_days by_day <> [].
Proof.
  apply well_formed_log_is_grouped.
  - discriminate.
  - vm_compute. reflexivity.
Defined.

(** ** The evening outline *)

Lemma clock_second_eq dt : clock_second dt = us_of_day dt / US_PER_SECOND.
Proof.
  unfold clock_second, hour, minute, second, US_PER_HOUR, US_PER_MINUTE, US_PER_SECOND.
  set (us := us_of_day dt).
  replace (us / (60 * (60 * 1000000))) with (us / 1000000 / 3600)
    by (rewrite Z.div_div by lia; reflexivity).
  replace (us / (60 * 1000000)) with (us / 1000000 / 60)
    by (rewrite Z.div_div by lia; reflexivity).
  set (sec := us / 1000000).
  pose proof (Z.div_mod sec 3600). pose proof (Z.div_mod sec 60).
  pose proof (Z.div_mod (sec / 60) 60).
  assert (sec / 60 / 60 = sec / 3600) by (rewrite Z.div_div by lia; reflexivity).
  lia.
Qed.

Lemma hour_of_day_second dt : hour_of_day dt = hour_of_second (clock_second dt).
Proof.
  rewrite clock_second_eq.
  unfold hour_of_day, hour_of_second, hour, minute, second,
    US_PER_HOUR, US_PER_MINUTE, US_PER_SECOND.
  set (us := us_of_day dt).
  replace (us / (60 * (60 * 1000000))) with (us / 1000000 / 3600)
    by (rewrite Z.div_div by lia; reflexivity).
  replace (us / (60 * 1000000)) with (us / 1000000 / 60)
    by (rewrite Z.div_div by lia; reflexivity).
  reflexivity.
Qed.

Lemma clock_second_range dt : time_in_day dt -> 0 <= clock_second dt < 86400.
Proof.
  unfold time_in_day, US_PER_DAY, US_PER_HOUR, US_PER_MINUTE. rewrite clock_second_eq.
  unfold US_PER_SECOND. intros H. split.
  - apply Z.div_pos; lia.
  - apply Z.div_lt_upper_bound; lia.
Qed.

Lemma outline_threshold_checked :
  all_from (Z.to_nat 86400) 0
    (fun sec => Bool.eqb (PrimFloat.ltb 19 (hour_of_second sec)) (68400 <? sec)) = true.
Proof. vm_compute. reflexivity. Qed.

(** The red outline is drawn exactly for a session that ends on another date
    than it starts on (the chart then takes 24.0 for its end) or whose end is
    after 19:00:00 by the clock, whole seconds counted: the floating-point
    hour is above 19 for 19:00:01 and is not for 19:00:00. *)
Theorem outline_after_seven_pm (i : nat) (s : session) :
  time_in_day (s_end s) ->
  existsb is_outline (draw_session i s)
  = negb (date (s_end s) =? date (s_start s)) || (68400 <? clock_second (s_end s)).
Proof.
  intros Hend. unfold draw_session, end_hour_of.
  rewrite existsb_app, existsb_app.
  assert (forall x, existsb is_outline
            (if PrimFloat.leb 0.2 x
             then [Text i (hour_of_day (s_start s) + x / 2)%float (s_project s)] else [])
          = false) as Hlabel by (intros x; destruct (PrimFloat.leb 0.2 x); reflexivity).
  cbv zeta. rewrite Hlabel. cbn [existsb is_outline orb].
  rewrite andb_false_r. cbn [orb].
  destruct (date (s_end s) =? date (s_start s)); cbn [negb orb].
  - rewrite hour_of_day_second.
    pose proof (all_from_spec _ _ _ outline_threshold_checked (clock_second (s_end s))) as H.
    cbv beta in H. apply Bool.eqb_prop in H; [|pose proof (clock_second_range _ Hend); lia].
    rewrite H. destruct (68400 <? clock_second (s_end s)); reflexivity.
  - reflexivity.
Qed.

Lemma outline_after_seven_pm_witness :
  existsb is_outline (draw_session 0 (Session (mk_datetime 738886 68400000000)
                                        (mk_datetime 738886 68401000000) "A" "#5bdee5"))
  = true.
Proof.
  rewrite outline_after_seven_pm.
  - reflexivity.
  - unfold time_in_day. vm_compute. split; [discriminate | reflexivity].
Defined.

(** * Further properties of main.py *)

(** ** The colour of the text on a button *)

Lemma hex_pairs_checked :
  all_from (Z.to_nat 65536) 0
    (fun n =>
       let c1 := ascii_of_N (Z.to_N (n / 256)) in
       let c2 := ascii_of_N (Z.to_N (n mod 256)) in
       match hex_value c1, hex_value c2 with
       | Some d1, Some d2 =>
           match py_int16 (String c1 (String c2 "")) with
           | Ok v => v =? 16 * d1 + d2
           | Raise _ => false
           end && (0 <=? d1) && (d1 <? 16) && (0 <=? d2) && (d2 <? 16)
       | _, _ => true
       end) = true.
Proof. vm_compute. reflexivity. Qed.

(** Two hexadecimal digits, of either case, are read as one byte. *)
Lemma py_int16_two_digits c1 c2 d1 d2 :
  hex_value c1 = Some d1 -> hex_value c2 = Some d2 ->
  py_int16 (String c1 (String c2 "")) = Ok (16 * d1 + d2)
  /\ 0 <= 16 * d1 + d2 <= 255.
Proof.
  intros H1 H2.
  pose proof (N_ascii_bounded c1) as B1. pose proof (N_ascii_bounded c2) as B2.
  set (a := Z.of_N (N_of_ascii c1)). set (b := Z.of_N (N_of_ascii c2)).
  assert (0 <= a < 256) as Ha by (subst a; lia).
  assert (0 <= b < 256) as Hb by (subst b; lia).
  pose proof (all_from_spec _ _ _ hex_pairs_checked (a * 256 + b)) as H.
  cbv beta zeta in H.
  replace ((a * 256 + b) / 256) with a in H by (apply (Z.div_unique _ 256 a b); lia).
  replace ((a * 256 + b) mod 256) with b in H by (apply (Z.mod_unique _ 256 a b); lia).
  subst a b. rewrite !N2Z.id, !ascii_N_embedding, H1, H2 in H.
  destruct (py_int16 (String c1 (String c2 ""))) as [v|e].
  - assert (v = 16 * d1 + d2 /\ 0 <= d1 < 16 /\ 0 <= d2 < 16) as (-> & ? & ?).
    { assert ((v =? 16 * d1 + d2) && (0 <=? d1) && (d1 <? 16) && (0 <=? d2) && (d2 <? 16) = true)
        as Hv by (apply H; lia).
      repeat (apply andb_true_iff in Hv as [Hv ?]). lia. }
    split; [reflexivity | lia].
  - assert (false && (0 <=? d1) && (d1 <? 16) && (0 <=? d2) && (d2 <? 16) = true) as Hv
      by (apply H; lia).
    discriminate.
Qed.

Lemma brightness_checked :
  all_from (Z.to_nat 255001) 0
    (fun v => Bool.eqb (PrimFloat.ltb (float_of_Z v / 1000) 128) (v <? 128000)) = true.
Proof. vm_compute. reflexivity. Qed.

(** *** Slices count characters *)

Lemma hex_value_ascii c d : hex_value c = Some d -> is_continuation c = false.
Proof.
  unfold hex_value, is_continuation.
  set (n := Z.of_N (N_of_ascii c)). intros H.
  destruct (128 <=? n) eqn:E; [|reflexivity]. apply Z.leb_le in E.
  destruct ((48 <=? n) && (n <=? 57)) eqn:E1; [apply andb_true_iff in E1; lia|].
  destruct ((97 <=? n) && (n <=? 102)) eqn:E2; [apply andb_true_iff in E2; lia|].
  destruct ((65 <=? n) && (n <=? 70)) eqn:E3; [apply andb_true_iff in E3; lia|].
  discriminate.
Qed.

(** Nothing is left of a slice once more than [j] characters have begun. *)
Lemma chars_between_past i j s : forall n, (j < n)%nat -> chars_between i j n s = "".
Proof.
  induction s as [|c s IH]; intros n H; [reflexivity|].
  cbn [chars_between].
  destruct (is_continuation c).
  - replace (n <=? j)%nat with false by (symmetry; apply Nat.leb_gt; lia).
    rewrite andb_false_r. apply IH, H.
  - replace (S n <=? j)%nat with false by (symmetry; apply Nat.leb_gt; lia).
    rewrite andb_false_r. apply IH. lia.
Qed.

(** Nor of one that begins behind the last character. *)
Lemma chars_between_before i j s : forall n,
  (n + py_len s <= i)%nat -> chars_between i j n s = "".
Proof.
  induction s as [|c s IH]; intros n H; [reflexivity|].
  cbn [chars_between py_len] in *.
  destruct (is_continuation c).
  - replace (i <? n)%nat with false by (symmetry; apply Nat.ltb_ge; lia).
    apply IH, H.
  - replace (i <? S n)%nat with false by (symmetry; apply Nat.ltb_ge; lia).
    apply IH. lia.
Qed.

Lemma slice_beyond i j s : (py_len s <= i)%nat -> slice i j s = "".
Proof. intros H. apply chars_between_before. exact H. Qed.

(** The bytes that continue the first character are not in a slice from 1. *)
Lemma chars_between_continued i j t s :
  py_len t = 0%nat -> (1 <= i)%nat ->
  chars_between i j 1 (t +:+ s) = chars_between i j 1 s.
Proof.
  intros Ht Hi. induction t as [|c t IH]; [reflexivity|].
  cbn [py_len] in Ht. destruct (is_continuation c) eqn:Ec; [|discriminate].
  change (String c t +:+ s) with (String c (t +:+ s)).
  cbn [chars_between]. rewrite Ec.
  replace (i <? 1)%nat with false by (symmetry; apply Nat.ltb_ge; lia).
  apply IH, Ht.
Qed.

Lemma chars_between_first i j first s :
  one_char first = true -> (1 <= i)%nat ->
  chars_between i j 0 (first +:+ s) = chars_between i j 1 s.
Proof.
  intros H1 Hi. unfold one_char in H1. apply andb_true_iff in H1 as [Hw Hl].
  destruct first as [|c t]; [discriminate|].
  cbn [whole_chars] in Hw. apply negb_true_iff in Hw.
  cbn [py_len] in Hl. rewrite Hw in Hl. apply Nat.eqb_eq in Hl.
  change (String c t +:+ s) with (String c (t +:+ s)).
  cbn [chars_between]. rewrite Hw.
  replace (i <? 1)%nat with false by (symmetry; apply Nat.ltb_ge; lia).
  apply chars_between_continued; [lia | exact Hi].
Qed.

(** The three channels of [?RRGGBB], whatever the first character is and
    whatever text follows. *)
Lemma slice_channels first (c1 c2 c3 c4 c5 c6 : ascii) rest :
  one_char first = true -> whole_chars rest = true ->
  is_continuation c1 = false -> is_continuation c2 = false ->
  is_continuation c3 = false -> is_continuation c4 = false ->
  is_continuation c5 = false -> is_continuation c6 = false ->
  let s := first +:+ String c1 (String c2 (String c3 (String c4 (String c5
             (String c6 rest))))) in
  slice 1 3 s = String c1 (String c2 "")
  /\ slice 3 5 s = String c3 (String c4 "")
  /\ slice 5 7 s = String c5 (String c6 "").
Proof.
  intros H1 Hrest E1 E2 E3 E4 E5 E6 s. subst s. unfold slice.
  rewrite !(chars_between_first _ _ first) by (assumption || lia).
  cbn [chars_between]. rewrite E1, E2, E3, E4, E5, E6.
  cbn [Nat.ltb Nat.leb andb].
  rewrite !chars_between_past by lia.
  split; [reflexivity|]. split; [reflexivity|].
  destruct rest as [|c rest]; [reflexivity|].
  cbn [whole_chars] in Hrest. apply negb_true_iff in Hrest.
  cbn [chars_between]. rewrite Hrest. cbn [Nat.ltb Nat.leb andb].
  rewrite chars_between_past by lia. reflexivity.
Qed.

Lemma contrast_of_hex_digits (first : string) (c1 c2 c3 c4 c5 c6 : ascii) (rest : string)
    (r1 r2 g1 g2 b1 b2 : Z) :
  one_char first = true -> whole_chars rest = true ->
  hex_value c1 = Some r1 -> hex_value c2 = Some r2 ->
  hex_value c3 = Some g1 -> hex_value c4 = Some g2 ->
  hex_value c5 = Some b1 -> hex_value c6 = Some b2 ->
  get_contrasting_text_color
    (first +:+ String c1 (String c2 (String c3 (String c4 (String c5 (String c6 rest))))))
  = Ok (if (16 * r1 + r2) * 299 + (16 * g1 + g2) * 587 + (16 * b1 + b2) * 114 <? 128000
        then "white" else "black").
Proof.
  intros H1 Hrest Hr1 Hr2 Hg1 Hg2 Hb1 Hb2.
  destruct (py_int16_two_digits _ _ _ _ Hr1 Hr2) as [Er Rr].
  destruct (py_int16_two_digits _ _ _ _ Hg1 Hg2) as [Eg Rg].
  destruct (py_int16_two_digits _ _ _ _ Hb1 Hb2) as [Eb Rb].
  destruct (slice_channels first c1 c2 c3 c4 c5 c6 rest H1 Hrest
              (hex_value_ascii _ _ Hr1) (hex_value_ascii _ _ Hr2)
              (hex_value_ascii _ _ Hg1) (hex_value_ascii _ _ Hg2)
              (hex_value_ascii _ _ Hb1) (hex_value_ascii _ _ Hb2)) as (S1 & S2 & S3).
  cbv zeta in S1, S2, S3.
  unfold get_contrasting_text_color.
  rewrite S1, S2, S3, Er, Eg, Eb. cbn [rbind].
  set (v := (16 * r1 + r2) * 299 + (16 * g1 + g2) * 587 + (16 * b1 + b2) * 114).
  pose proof (all_from_spec _ _ _ brightness_checked v) as H. cbv beta in H.
  apply Bool.eqb_prop in H; [|subst v; lia].
  rewrite H. reflexivity.
Qed.

(** The text on a background [?RRGGBB] (any one character, then two
    hexadecimal digits of either case for each channel, then any text) is
    white exactly when [299 r + 587 g + 114 b < 128000]: the floating-point
    division by 1000 does not move the threshold.  Positions count
    characters, not bytes. *)
Theorem text_color_by_brightness (first : string) (c1 c2 c3 c4 c5 c6 : ascii)
    (rest : string) (r1 r2 g1 g2 b1 b2 : Z) :
  one_char first = true -> whole_chars rest = true ->
  hex_value c1 = Some r1 -> hex_value c2 = Some r2 ->
  hex_value c3 = Some g1 -> hex_value c4 = Some g2 ->
  hex_value c5 = Some b1 -> hex_value c6 = Some b2 ->
  let r := 16 * r1 + r2 in
  let g := 16 * g1 + g2 in
  let b := 16 * b1 + b2 in
  get_contrasting_text_color
    (first +:+ String c1 (String c2 (String c3 (String c4 (String c5 (String c6 rest))))))
  = Ok (if r * 299 + g * 587 + b * 114 <? 128000 then "white" else "black").
Proof. intros. apply contrast_of_hex_digits; assumption. Qed.

Lemma text_color_by_brightness_witness :
  get_contrasting_text_color "é7F7f80" = Ok "white"
  /\ get_contrasting_text_color "#808080ff" = Ok "black".
Proof.
  split.
  - apply (text_color_by_brightness "é" "7" "F" "7" "f" "8" "0" "" 7 15 7 15 8 0);
      reflexivity.
  - apply (text_color_by_brightness "#" "8" "0" "8" "0" "8" "0" "ff" 8 0 8 0 8 0);
      reflexivity.
Defined.

Lemma py_int16_raises s e : py_int16 s = Raise e -> e = ValueError.
Proof. unfold py_int16. repeat case_match; congruence. Qed.

Lemma contrast_raises s e : get_contrasting_text_color s = Raise e -> e = ValueError.
Proof.
  unfold get_contrasting_text_color, rbind.
  destruct (py_int16 (slice 1 3 s)) eqn:E1; [|intros [= <-]; apply (py_int16_raises _ _ E1)].
  destruct (py_int16 (slice 3 5 s)) eqn:E2; [|intros [= <-]; apply (py_int16_raises _ _ E2)].
  destruct (py_int16 (slice 5 7 s)) eqn:E3; [|intros [= <-]; apply (py_int16_raises _ _ E3)].
  discriminate.
Qed.

Lemma contrast_short s :
  (py_len s <= 5)%nat -> get_contrasting_text_color s = Raise ValueError.
Proof.
  intros H.
  destruct (get_contrasting_text_color s) as [fg|e] eqn:E.
  - exfalso. unfold get_contrasting_text_color, rbind in E.
    rewrite (slice_beyond 5 7 s H) in E.
    destruct (py_int16 (slice 1 3 s)); [|discriminate].
    destruct (py_int16 (slice 3 5 s)); discriminate.
  - f_equal. apply (contrast_raises _ _ E).
Qed.

(** A colour of fewer than six characters (a name such as red, or the short
    form #fff) has no third channel to read: the function raises
    [ValueError].  The length is that of the text in characters, [len]. *)
Theorem text_color_rejects_short (bg_hex : string) :
  (py_len bg_hex <= 5)%nat ->
  get_contrasting_text_color bg_hex = Raise ValueError.
Proof. apply contrast_short. Qed.

Lemma text_color_rejects_short_witness :
  get_contrasting_text_color "green" = Raise ValueError
  /\ get_contrasting_text_color "ééé" = Raise ValueError.
Proof.
  split; apply text_color_rejects_short; vm_compute; lia.
Defined.

(** ** The generated colours *)

Lemma hue_colors_checked :
  all_from (Z.to_nat 360) 0
    (fun h =>
       let c := rgb_to_hex (color_of_hue h) in
       hex_color c
       && match get_contrasting_text_color c with
          | Ok fg => String.eqb fg (if (225 <=? h) && (h <=? 271) then "white" else "black")
          | Raise _ => false
          end) = true.
Proof. vm_compute. reflexivity. Qed.

Lemma hashed_color_text name :
  hex_color (rgb_to_hex (hashed_color name)) = true
  /\ get_contrasting_text_color (rgb_to_hex (hashed_color name))
     = Ok (if (225 <=? md5_int name mod 360) && (md5_int name mod 360 <=? 271)
           then "white" else "black").
Proof.
  change (hashed_color name) with (color_of_hue (md5_int name mod 360)).
  pose proof (Z.mod_pos_bound (md5_int name) 360 eq_refl) as Hh.
  generalize dependent (md5_int name mod 360). intros h Hh.
  pose proof (all_from_spec _ _ _ hue_colors_checked h) as H. cbv beta zeta in H.
  assert (0 <= h < 0 + Z.of_nat (Z.to_nat 360)) as Hr by lia.
  apply H, andb_true_iff in Hr as [H1 H2]. split; [exact H1|].
  destruct (get_contrasting_text_color _) as [fg|]; [|discriminate].
  apply String.eqb_eq in H2. rewrite H2. reflexivity.
Qed.

(** Every colour the program generates for a name is of the form [#RRGGBB]
    and is accepted as a background: the text on it is white for the hues
    225 to 271 degrees (blue to violet) and black for all others. *)
Theorem generated_color_text (project_name : string) :
  let bg := rgb_to_hex (hashed_color project_name) in
  let hue := md5_int project_name mod 360 in
  hex_color bg = true
  /\ get_contrasting_text_color bg
     = Ok (if (225 <=? hue) && (hue <=? 271) then "white" else "black").
Proof. apply hashed_color_text. Qed.

(** ** The jobs file *)

Lemma default_job_spec name cache :
  cache_consistent cache ->
  fst (default_job name cache) = mk_job name (rgb_to_hex (hashed_color name))
  /\ cache_consistent (snd (default_job name cache)).
Proof.
  intros Hc. destruct (get_color_consistent name cache Hc) as (H1 & H2 & _).
  unfold default_job. destruct (get_color name cache) as [c cache']. simpl in *.
  subst c. auto.
Qed.

Lemma default_job_name name cache : job_name (fst (default_job name cache)) = name.
Proof. unfold default_job. destruct (get_color name cache). reflexivity. Qed.

Lemma normalise_jobs_saved jobs cache :
  normalise_jobs (map (fun j => EntryDict (Some (job_name j)) (Some (job_color j))) jobs) cache
  = (jobs, cache).
Proof.
  induction jobs as [|[n c] jobs IH]; [reflexivity|].
  simpl. rewrite IH. reflexivity.
Qed.

Lemma load_jobs_nonempty file cache : fst (load_jobs file cache) <> [].
Proof.
  unfold load_jobs.
  destruct (default_job "Job1" cache) as [j1 c1].
  destruct (default_job "Job2" c1) as [j2 c2].
  destruct file as [| |entries]; simpl; try discriminate.
  destruct (normalise_jobs entries c2) as [[|j l] c3]; simpl; discriminate.
Qed.

Lemma load_jobs_saved (jobs : list job) (cache : gmap string rgb) :
  jobs <> [] -> fst (load_jobs (save_jobs jobs) cache) = jobs.
Proof.
  intros Hne. unfold load_jobs, save_jobs.
  destruct (default_job "Job1" cache) as [j1 c1].
  destruct (default_job "Job2" c1) as [j2 c2].
  rewrite normalise_jobs_saved. destruct jobs; [contradiction | reflexivity].
Qed.

(** What [save_jobs] writes, [load_jobs] reads back: the same jobs in the
    same order, whatever the colour cache holds. *)
Theorem load_jobs_save_jobs (jobs : list job) (cache : gmap string rgb) :
  jobs <> [] -> fst (load_jobs (save_jobs jobs) cache) = jobs.
Proof. apply load_jobs_saved. Qed.

Lemma load_jobs_save_jobs_witness :
  fst (load_jobs (save_jobs [mk_job "Falcon" "#5bdee5"; mk_job "Toyota" "red"]) ∅)
  = [mk_job "Falcon" "#5bdee5"; mk_job "Toyota" "red"].
Proof. apply load_jobs_save_jobs. discriminate. Defined.

(** ** The grid of job buttons *)

Lemma hex_color_contrast s : hex_color s = true -> exists fg, get_contrasting_text_color s = Ok fg.
Proof.
  unfold hex_color.
  destruct s as [|c0 [|c1 [|c2 [|c3 [|c4 [|c5 [|c6 [|c7 s]]]]]]]]; try discriminate.
  intros H. apply andb_true_iff in H as [H0 H]. cbn [forallb] in H.
  apply Ascii.eqb_eq in H0 as ->.
  repeat (apply andb_true_iff in H as [?%bool_decide_eq_true H]).
  repeat match goal with Hx : is_Some (hex_value _) |- _ => destruct Hx end.
  eexists.
  change (String "#" (String c1 (String c2 (String c3 (String c4 (String c5
            (String c6 "")))))))
    with ("#" +:+ String c1 (String c2 (String c3 (String c4 (String c5 (String c6 "")))))).
  apply contrast_of_hex_digits; first [eassumption | reflexivity].
Qed.

Lemma normalise_jobs_ok entries : forall cache,
  cache_consistent cache -> forallb entry_ok entries = true ->
  Forall (fun j => hex_color (job_color j) = true) (fst (normalise_jobs entries cache))
  /\ cache_consistent (snd (normalise_jobs entries cache)).
Proof.
  induction entries as [|e entries IH]; intros cache Hc Hok; [split; [constructor | exact Hc]|].
  cbn [forallb] in Hok. apply andb_true_iff in Hok as [He Hok].
  destruct e as [[name|] [color|]|s|]; cbn [normalise_jobs]; try (apply IH; assumption).
  - destruct (IH cache Hc Hok) as [H1 H2].
    destruct (normalise_jobs entries cache) as [l c']. cbn [fst snd] in *.
    split; [constructor; assumption | assumption].
  - destruct (default_job_spec s cache Hc) as [E1 E2].
    destruct (default_job s cache) as [j c1]. cbn [fst snd] in E1, E2.
    destruct (IH c1 E2 Hok) as [H1 H2].
    destruct (normalise_jobs entries c1) as [l c']. cbn [fst snd] in *.
    split; [|assumption]. constructor; [|assumption].
    subst j. apply hashed_color_text.
Qed.

Lemma load_jobs_ok file cache :
  cache_consistent cache -> jobs_file_ok file = true ->
  Forall (fun j => hex_color (job_color j) = true) (fst (load_jobs file cache))
  /\ cache_consistent (snd (load_jobs file cache)).
Proof.
  intros Hc Hok. unfold load_jobs.
  destruct (default_job_spec "Job1" cache Hc) as [E1 C1].
  destruct (default_job "Job1" cache) as [j1 c1]. cbn [fst snd] in E1, C1.
  destruct (default_job_spec "Job2" c1 C1) as [E2 C2].
  destruct (default_job "Job2" c1) as [j2 c2]. cbn [fst snd] in E2, C2.
  assert (Forall (fun j => hex_color (job_color j) = true) [j1; j2]) as Hdef.
  { subst j1 j2. repeat constructor; apply hashed_color_text. }
  destruct file as [| |entries]; cbn [fst snd]; try (split; assumption).
  cbn [jobs_file_ok] in Hok.
  destruct (normalise_jobs_ok entries c2 C2 Hok) as [H1 H2].
  destruct (normalise_jobs entries c2) as [[|j l] c3]; cbn [fst snd] in *; split; assumption.
Qed.

Lemma make_buttons_total cols jobs : forall i,
  Forall (fun j => hex_color (job_color j) = true) jobs ->
  exists btns, make_buttons cols i jobs = Ok btns.
Proof.
  induction jobs as [|j jobs IH]; intros i H; [eexists; reflexivity|].
  inversion H as [|? ? Hj Hrest]; subst.
  destruct (hex_color_contrast _ Hj) as [fg Hfg].
  destruct (IH (i + 1) Hrest) as [btns Hb].
  cbn [make_buttons]. rewrite Hfg. cbn [rbind]. rewrite Hb. cbn [rbind].
  eexists; reflexivity.
Qed.

Lemma make_buttons_raises cols jobs j : forall i,
  j ∈ jobs -> get_contrasting_text_color (job_color j) = Raise ValueError ->
  make_buttons cols i jobs = Raise ValueError.
Proof.
  induction jobs as [|j0 jobs IH]; intros i Hj Hraise; [inversion Hj|].
  cbn [make_buttons].
  destruct (get_contrasting_text_color (job_color j0)) as [fg|e] eqn:E; cbn [rbind].
  - apply elem_of_cons in Hj as [->|Hj]; [congruence|].
    rewrite (IH (i + 1) Hj Hraise). reflexivity.
  - f_equal. apply (contrast_raises _ _ E).
Qed.

Lemma make_buttons_Ok cols jobs : forall i btns,
  make_buttons cols i jobs = Ok btns ->
  length btns = length jobs
  /\ forall (k : nat) b, btns !! k = Some b ->
       exists j, jobs !! k = Some j
         /\ b_text b = job_name j /\ b_bg b = job_color j
         /\ b_command b = (job_name j, job_color j)
         /\ get_contrasting_text_color (job_color j) = Ok (b_fg b)
         /\ b_row b = (i + Z.of_nat k) / cols
         /\ b_column b = (i + Z.of_nat k) mod cols.
Proof.
  induction jobs as [|j jobs IH]; intros i btns H.
  - injection H as <-. split; [reflexivity|]. intros k b Hk. discriminate.
  - cbn [make_buttons] in H.
    destruct (get_contrasting_text_color (job_color j)) as [fg|] eqn:Efg; [|discriminate].
    cbn [rbind] in H.
    destruct (make_buttons cols (i + 1) jobs) as [rest|] eqn:Er; [|discriminate].
    cbn [rbind] in H. injection H as <-.
    destruct (IH _ _ Er) as [Hlen Hnth]. split; [cbn [length]; lia|].
    intros [|k] b Hk.
    + injection Hk as <-. exists j. cbn [b_text b_bg b_fg b_command b_row b_column].
      rewrite Z.add_0_r. split; [reflexivity|]. auto 10.
    + destruct (Hnth k b Hk) as (j' & Hj' & H1 & H2 & H3 & H4 & H5 & H6).
      exists j'. replace (i + Z.of_nat (S k)) with (i + 1 + Z.of_nat k) by lia.
      split; [exact Hj'|]. auto 10.
Qed.

Lemma grid_shape_checked :
  all_from (Z.to_nat 100000) 1
    (fun n =>
       let c := grid_cols n in
       let r := grid_rows n c in
       (1 <=? c) && ((c - 1) * (c - 1) <? n) && (n <=? c * c)
       && (r =? (n + c - 1) / c) && (c - 1 <=? r) && (r <=? c)) = true.
Proof. vm_compute. reflexivity. Qed.

Lemma grid_shape n :
  1 <= n <= 100000 ->
  let c := grid_cols n in
  let r := grid_rows n c in
  1 <= c /\ (c - 1) * (c - 1) < n <= c * c /\ r = (n + c - 1) / c /\ c - 1 <= r <= c.
Proof.
  intros Hn. pose proof (all_from_spec _ _ _ grid_shape_checked n) as H.
  cbv beta zeta in H. cbv zeta.
  assert (1 <= n < 1 + Z.of_nat (Z.to_nat 100000)) as Hr by lia.
  apply H in Hr. repeat (apply andb_true_iff in Hr as [Hr ?]). lia.
Qed.

(** The buttons are laid out row by row on a grid that is square or one row
    short of square: for up to 100000 jobs the number of columns is the
    ceiling of the square root of the number of jobs and the number of rows
    the ceiling of their quotient, button [i] shows job [i] with that job's
    colour and command and sits in the cell [i] of the row-major order,
    inside the grid. The list of jobs is never empty. *)
Theorem job_grid_layout (file : jobs_file) (cache : gmap string rgb) (g : grid) :
  let jobs := fst (load_jobs file cache) in
  let n := Z.of_nat (length jobs) in
  n <= 100000 ->
  fst (update_job_buttons file cache) = Ok g ->
  1 <= n
  /\ (cols g - 1) * (cols g - 1) < n <= cols g * cols g
  /\ rows_count g = (n + cols g - 1) / cols g
  /\ cols g - 1 <= rows_count g <= cols g
  /\ length (buttons g) = length jobs
  /\ (forall (i : nat) b, buttons g !! i = Some b ->
        exists j, jobs !! i = Some j
          /\ b_text b = job_name j /\ b_bg b = job_color j
          /\ b_command b = (job_name j, job_color j)
          /\ get_contrasting_text_color (job_color j) = Ok (b_fg b)
          /\ Z.of_nat i = b_row b * cols g + b_column b
          /\ 0 <= b_row b < rows_count g /\ 0 <= b_column b < cols g).
Proof.
  intros jobs n Hbound Hg.
  pose proof (load_jobs_nonempty file cache) as Hne. fold jobs in Hne.
  assert (1 <= n) as Hn1 by (subst n; destruct jobs; [contradiction | simpl; lia]).
  unfold update_job_buttons in Hg. subst n jobs.
  destruct (load_jobs file cache) as [jobs cache']. cbn [fst] in *.
  set (n := Z.of_nat (length jobs)) in *.
  destruct (grid_shape n (conj Hn1 Hbound)) as (Hc1 & Hsq & Hrows & Hnear).
  cbn [fst] in Hg.
  destruct (make_buttons (grid_cols n) 0 jobs) as [btns|] eqn:Eb; [|discriminate].
  injection Hg as <-. cbn [cols rows_count buttons].
  set (c := grid_cols n) in *. set (r := grid_rows n c) in *.
  destruct (make_buttons_Ok _ _ _ _ Eb) as [Hlen Hnth].
  split; [exact Hn1|]. split; [exact Hsq|]. split; [exact Hrows|]. split; [exact Hnear|].
  split; [exact Hlen|].
  intros i b Hi. destruct (Hnth i b Hi) as (j & Hj & H1 & H2 & H3 & H4 & H5 & H6).
  exists j. rewrite Z.add_0_l in H5, H6.
  pose proof (lookup_lt_Some _ _ _ Hj) as Hlt.
  pose proof (Z.div_mod (Z.of_nat i) c ltac:(lia)) as Hdm.
  pose proof (Z.mod_pos_bound (Z.of_nat i) c ltac:(lia)) as Hm.
  assert (0 <= Z.of_nat i / c) as Hr0 by (apply Z.div_pos; lia).
  assert (Z.of_nat i / c < r) as Hr1.
  { rewrite Hrows. replace (n + c - 1) with (n - 1 + 1 * c) by lia.
    rewrite Z.div_add by lia.
    assert (Z.of_nat i / c <= (n - 1) / c) by (apply Z.div_le_mono; lia). lia. }
  split; [exact Hj|]. split; [exact H1|]. split; [exact H2|]. split; [exact H3|].
  split; [exact H4|]. rewrite H5, H6. lia.
Qed.

Lemma job_grid_layout_witness :
  exists g, fst (update_job_buttons (JobsJSON [EntryStr "A"; EntryStr "B"; EntryStr "C";
                                                EntryStr "D"; EntryStr "E"]) ∅) = Ok g
            /\ cols g = 3 /\ rows_count g = 2 /\ length (buttons g) = 5%nat.
Proof.
  assert (exists g, fst (update_job_buttons (JobsJSON [EntryStr "A"; EntryStr "B";
                           EntryStr "C"; EntryStr "D"; EntryStr "E"]) ∅) = Ok g) as [g E]
    by (vm_compute; eexists; reflexivity).
  exists g. split; [exact E|].
  pose proof (job_grid_layout (JobsJSON [EntryStr "A"; EntryStr "B"; EntryStr "C";
                                          EntryStr "D"; EntryStr "E"]) ∅ g) as H.
  cbv zeta in H.
  assert (Z.of_nat (length (fst (load_jobs (JobsJSON [EntryStr "A"; EntryStr "B";
                           EntryStr "C"; EntryStr "D"; EntryStr "E"]) ∅))) = 5) as Hn
    by (vm_compute; reflexivity).
  assert (length (fst (load_jobs (JobsJSON [EntryStr "A"; EntryStr "B";
                           EntryStr "C"; EntryStr "D"; EntryStr "E"]) ∅)) = 5%nat) as Hl
    by (vm_compute; reflexivity).
  rewrite Hn, Hl in H.
  destruct (H ltac:(lia) E) as (_ & Hsq & Hrows & _ & Hlen & _).
  assert (cols g = 3) as Hc by nia.
  rewrite Hc in Hrows. split; [exact Hc|]. split; [exact Hrows|]. exact Hlen.
Defined.

Lemma contrast_white_or_black s fg :
  get_contrasting_text_color s = Ok fg -> fg = "white" \/ fg = "black".
Proof.
  unfold get_contrasting_text_color, rbind.
  destruct (py_int16 (slice 1 3 s)); [|discriminate].
  destruct (py_int16 (slice 3 5 s)); [|discriminate].
  destruct (py_int16 (slice 5 7 s)); [|discriminate].
  destruct (PrimFloat.ltb _ _); intros [= <-]; auto.
Qed.

(** With a jobs file that holds a list whose kept dict entries all have a
    colour [#RRGGBB] and whose bare strings are texts that can be encoded,
    every job that [load_jobs] returns has a colour of that form, for which
    the text colour is computed, white or black: no call of
    [get_contrasting_text_color] in [update_job_buttons] raises. *)
Theorem jobs_get_text_colors (entries : list jobs_entry) (cache : gmap string rgb) :
  cache_consistent cache ->
  forallb entry_ok entries = true ->
  forallb entry_encodable entries = true ->
  fst (load_jobs (JobsJSON entries) cache) <> []
  /\ (forall j, j ∈ fst (load_jobs (JobsJSON entries) cache) ->
        hex_color (job_color j) = true
        /\ exists fg, get_contrasting_text_color (job_color j) = Ok fg
                      /\ (fg = "white" \/ fg = "black"))
  /\ cache_consistent (snd (load_jobs (JobsJSON entries) cache)).
Proof.
  intros Hc Hok _.
  destruct (load_jobs_ok (JobsJSON entries) cache Hc Hok) as [Hjobs Hc'].
  split; [apply load_jobs_nonempty|]. split; [|exact Hc'].
  intros j Hj. rewrite Forall_forall in Hjobs. specialize (Hjobs j Hj).
  split; [exact Hjobs|].
  destruct (hex_color_contrast _ Hjobs) as [fg Hfg].
  exists fg. split; [exact Hfg | exact (contrast_white_or_black _ _ Hfg)].
Qed.

Lemma jobs_get_text_colors_witness :
  exists fg,
    get_contrasting_text_color "#12AbcF" = Ok fg /\ (fg = "white" \/ fg = "black").
Proof.
  destruct (jobs_get_text_colors
              [EntryStr "Bürozeit"; EntryDict (Some "Beta") (Some "#12AbcF");
               EntryOther; EntryDict (Some "Gamma") None] ∅) as (_ & H & _).
  - apply (after_calls_consistent []).
  - reflexivity.
  - vm_compute. reflexivity.
  - destruct (H (mk_job "Beta" "#12AbcF")) as (_ & fg & Hfg & Hwb).
    + assert (fst (load_jobs
                     (JobsJSON [EntryStr "Bürozeit"; EntryDict (Some "Beta") (Some "#12AbcF");
                                EntryOther; EntryDict (Some "Gamma") None]) ∅)
              = [mk_job "Bürozeit" "#5b8be5"; mk_job "Beta" "#12AbcF"]) as ->
        by (vm_compute; reflexivity).
      apply elem_of_cons. right. apply list_elem_of_singleton. reflexivity.
    + exists fg. auto.
Defined.

Lemma normalise_jobs_keeps entries name color : forall cache,
  EntryDict (Some name) (Some color) ∈ entries ->
  mk_job name color ∈ fst (normalise_jobs entries cache).
Proof.
  induction entries as [|e entries IH]; intros cache H; [inversion H|].
  apply elem_of_cons in H as [<-|H].
  - cbn [normalise_jobs]. destruct (normalise_jobs entries cache). cbn [fst].
    apply elem_of_cons. left. reflexivity.
  - destruct e as [[n|] [c|]|s|]; cbn [normalise_jobs]; try (apply IH; assumption).
    + specialize (IH cache H). destruct (normalise_jobs entries cache). cbn [fst] in *.
      apply elem_of_cons. right. exact IH.
    + destruct (default_job s cache) as [j c1]. specialize (IH c1 H).
      destruct (normalise_jobs entries c1). cbn [fst] in *. apply elem_of_cons. right. exact IH.
Qed.

Lemma short_color_raises entries name color cache :
  EntryDict (Some name) (Some color) ∈ entries -> (py_len color <= 5)%nat ->
  fst (update_job_buttons (JobsJSON entries) cache) = Raise ValueError.
Proof.
  intros Hin Hlen. unfold update_job_buttons, load_jobs.
  destruct (default_job "Job1" cache) as [j1 c1].
  destruct (default_job "Job2" c1) as [j2 c2].
  pose proof (normalise_jobs_keeps entries name color c2 Hin) as Hj.
  destruct (normalise_jobs entries c2) as [jobs c3]. cbn [fst] in *.
  destruct jobs as [|j0 jobs]; [inversion Hj|].
  rewrite (make_buttons_raises _ _ (mk_job name color) _ Hj); [reflexivity|].
  apply contrast_short, Hlen.
Qed.

(** One job in jobs.json whose colour has fewer than six characters (a
    colour name, or the short form #abc) stops the program: redrawing the
    grid ends in an exception, and so does the start of the dashboard, which
    draws the grid before the controls are made. *)
Theorem short_color_stops_the_dashboard (fromisoformat : string -> option datetime)
    (entries : list jobs_entry) (name color : string) (cache : gmap string rgb)
    (log : history_file) (now : datetime) :
  EntryDict (Some name) (Some color) ∈ entries -> (py_len color <= 5)%nat ->
  (exists e, fst (update_job_buttons (JobsJSON entries) cache) = Raise e)
  /\ (exists e, startup fromisoformat log (JobsJSON entries) now = Raise e).
Proof.
  intros Hin Hlen. split; [eexists; apply (short_color_raises _ _ _ _ Hin Hlen)|].
  unfold startup. pose proof (short_color_raises _ _ _ ∅ Hin Hlen) as H.
  destruct (update_job_buttons (JobsJSON entries) ∅) as [drawn cache']. cbn [fst] in H.
  rewrite H. destruct (load_history log); cbn [rbind]; eexists; reflexivity.
Qed.

Lemma short_color_stops_the_dashboard_witness :
  (exists e, fst (update_job_buttons
                    (JobsJSON [EntryStr "Job1"; EntryDict (Some "Lunch") (Some "röd")]) ∅)
             = Raise e)
  /\ (exists e, startup Datetime.fromisoformat FileMissing
                  (JobsJSON [EntryStr "Job1"; EntryDict (Some "Lunch") (Some "röd")])
                  sample_start
                = Raise e).
Proof.
  apply (short_color_stops_the_dashboard _ _ "Lunch" "röd").
  - apply elem_of_cons. right. apply list_elem_of_singleton. reflexivity.
  - vm_compute. lia.
Defined.

(** ** The log over a series of presses *)

Lemma no_repeats_snoc events e :
  no_repeats events = true -> (last events ≫= project) <> project e ->
  no_repeats (events ++ [e]) = true.
Proof.
  induction events as [|x [|y l] IH]; intros Hn Hlast; [reflexivity| |].
  - cbn in *. rewrite bool_decide_eq_false_2 by assumption. reflexivity.
  - change (no_repeats (x :: y :: l))
      with (negb (bool_decide (project x = project y)) && no_repeats (y :: l)) in Hn.
    apply andb_true_iff in Hn as [Hxy Hrest].
    change (no_repeats ((x :: y :: l) ++ [e]))
      with (negb (bool_decide (project x = project y)) && no_repeats ((y :: l) ++ [e])).
    rewrite Hxy. apply IH; assumption.
Qed.

Lemma no_repeats_snoc_same events x e :
  last events = Some x -> project x = project e -> no_repeats (events ++ [e]) = false.
Proof.
  induction events as [|y [|z l] IH]; intros Hlast Hp; [discriminate| |].
  - injection Hlast as ->. cbn. rewrite bool_decide_eq_true_2 by assumption. reflexivity.
  - change (no_repeats ((y :: z :: l) ++ [e]))
      with (negb (bool_decide (project y = project z)) && no_repeats ((z :: l) ++ [e])).
    rewrite IH by assumption. apply andb_false_r.
Qed.

Lemma last_snoc_project (events : list event) e :
  (last (events ++ [e]) ≫= project) = project e.
Proof. rewrite last_snoc. reflexivity. Qed.

(** One press on a state as the presses leave it. *)
Lemma switch_project_step project override now now' st :
  logged_state st ->
  let st' := switch_project project override now now' st in
  logged_state st'
  /\ (Some project = current_project st -> st' = st)
  /\ (Some project <> current_project st ->
      (exists color,
         history st' = history st ++ [mk_event (Some (isoformat now')) (Some project)
                                         (Some color)])
      /\ log_file st' = Some (history st')
      /\ current_project st' = Some project).
Proof.
  intros (Hlog & Hlast & Hrep & Hall & Hcache). cbv zeta. unfold switch_project.
  destruct (decide (Some project = current_project st)) as [Heq|Hne].
  - rewrite bool_decide_eq_true_2 by assumption.
    split; [repeat split; assumption|]. split; [reflexivity | contradiction].
  - rewrite bool_decide_eq_false_2 by assumption.
    destruct (get_color_consistent project _ Hcache) as (_ & Hc' & _).
    destruct (get_color project (project_color_cache st)) as [c cache] eqn:Eg.
    cbn [snd] in Hc'.
    assert (forall color cache',
              cache_consistent cache' ->
              let st' := save_history
                           (mk_dashboard (Some project) (Some now)
                              (history st ++ [mk_event (Some (isoformat now')) (Some project)
                                                (Some color)])
                              (log_file st) cache' ("Current project: " +:+ project)) in
              logged_state st'
              /\ (Some project = current_project st -> st' = st)
              /\ (Some project <> current_project st ->
                  (exists color0,
                     history st' = history st ++ [mk_event (Some (isoformat now'))
                                                     (Some project) (Some color0)])
                  /\ log_file st' = Some (history st')
                  /\ current_project st' = Some project)) as Hstep.
    { intros color cache' Hcc. cbv zeta. unfold save_history.
      cbn [history log_file current_project project_color_cache project_start_time
           status_label].
      split; [|split; [contradiction|]].
      - unfold logged_state.
        cbn [history log_file current_project project_color_cache].
        split; [left; reflexivity|]. split; [apply last_snoc_project|].
        split; [apply no_repeats_snoc; [exact Hrep | rewrite Hlast; cbn; congruence]|].
        split; [|exact Hcc].
        apply Forall_app. split; [exact Hall|].
        constructor; [cbn; eauto | constructor].
      - intros _. split; [eexists; reflexivity|]. split; reflexivity. }
    destruct (String.eqb project "END_OF_DAY").
    + apply Hstep, Hcache.
    + destruct (truthy override); [apply Hstep, Hcache | apply Hstep, Hc'].
Qed.

Lemma fresh_dashboard_logged : logged_state fresh_dashboard.
Proof.
  unfold logged_state, fresh_dashboard. cbn.
  split; [right; auto|]. split; [reflexivity|]. split; [reflexivity|].
  split; [constructor|]. apply (after_calls_consistent []).
Qed.

Lemma run_presses_logged presses : forall st,
  logged_state st ->
  logged_state (run_presses presses st)
  /\ (length (history (run_presses presses st)) <= length (history st) + length presses)%nat
  /\ (log_file st = Some (history st) ->
      log_file (run_presses presses st) = Some (history (run_presses presses st))).
Proof.
  induction presses as [|p presses IH]; intros st Hst.
  - cbn. split; [exact Hst|]. split; [lia | auto].
  - change (run_presses (p :: presses) st)
      with (run_presses presses (switch_project (p_project p) (p_color p) (p_now p)
                                   (p_now' p) st)).
    destruct (switch_project_step (p_project p) (p_color p) (p_now p) (p_now' p) st Hst)
      as (Hst' & Hsame & Hnew). cbv zeta in *.
    destruct (IH _ Hst') as (H1 & H2 & H3).
    split; [exact H1|].
    destruct (decide (Some (p_project p) = current_project st)) as [Heq|Hne].
    + rewrite (Hsame Heq) in *. split; [cbn [length]; lia | exact H3].
    + destruct (Hnew Hne) as ([color Hh] & Hf & _).
      split; [|intros _; apply H3, Hf].
      rewrite Hh, length_app in H2. cbn [length] in *. lia.
Qed.

(** Whatever buttons are pressed after a start without a history file: no
    two neighbours of the log name the same project, the current project is
    that of the last event, every event has a timestamp, a project and a
    colour, there are at most as many events as presses, the file holds
    the whole log as soon as one button was pressed, and the colour cache
    only holds the colours the hash selects. *)
Theorem log_after_presses (presses : list press) :
  let st := run_presses presses fresh_dashboard in
  no_repeats (history st) = true
  /\ (last (history st) ≫= project) = current_project st
  /\ log_file st = match presses with [] => None | _ => Some (history st) end
  /\ Forall (fun e => is_Some (timestamp e) /\ is_Some (project e) /\ is_Some (color e))
            (history st)
  /\ (length (history st) <= length presses)%nat
  /\ cache_consistent (project_color_cache st).
Proof.
  cbv zeta.
  destruct (run_presses_logged presses _ fresh_dashboard_logged)
    as ((Hlog & Hlast & Hrep & Hall & Hcache) & Hlen & _).
  split; [exact Hrep|]. split; [exact Hlast|]. split; [|split; [exact Hall|split;
    [exact Hlen | exact Hcache]]].
  destruct presses as [|p presses]; [reflexivity|].
  change (run_presses (p :: presses) fresh_dashboard)
    with (run_presses presses (switch_project (p_project p) (p_color p) (p_now p)
                                 (p_now' p) fresh_dashboard)).
  destruct (switch_project_step (p_project p) (p_color p) (p_now p) (p_now' p)
              fresh_dashboard fresh_dashboard_logged) as (Hst' & _ & Hnew).
  cbv zeta in *. destruct Hnew as (_ & Hf & _); [discriminate|].
  apply (run_presses_logged presses _ Hst'), Hf.
Qed.

(** ** Closing the dashboard and starting it again *)

(** The log the dashboard wrote is a list, when there is one. *)
Lemma load_history_file_of st : load_history (file_of st) = Ok tt.
Proof. unfold file_of. destruct (log_file st); reflexivity. Qed.

Lemma last_of_other_file_of st : last_of_other (file_of st) = Ok tt.
Proof. unfold file_of. destruct (log_file st); reflexivity. Qed.

Lemma startup_restores (fromisoformat : string -> option datetime) st jobs now g :
  logged_state st ->
  fst (update_job_buttons jobs ∅) = Ok g ->
  exists st', startup fromisoformat (file_of st) jobs now = Ok (st', g)
    /\ history st' = history st
    /\ log_file st' = log_file st
    /\ current_project st'
       = (if bool_decide (current_project st = Some "END_OF_DAY") then None
          else current_project st).
Proof.
  intros (Hlog & Hlast & _ & Hall & _) Hg. unfold startup.
  rewrite load_history_file_of, last_of_other_file_of. cbn [rbind].
  destruct (update_job_buttons jobs ∅) as [drawn cache]. cbn [fst] in Hg. subst drawn.
  cbn [rbind].
  assert (match file_of st with FileJSON events => events | _ => [] end = history st
          /\ match file_of st with FileJSON events => Some events | _ => None end
             = log_file st) as [-> ->].
  { unfold file_of. destruct Hlog as [E|[E1 E2]]; rewrite ?E, ?E1, ?E2; auto. }
  destruct (last (history st)) as [e|] eqn:El.
  - assert (e ∈ history st) as He.
    { apply last_Some in El as [l' ->]. apply elem_of_app. right.
      apply list_elem_of_singleton. reflexivity. }
    rewrite Forall_forall in Hall. destruct (Hall e He) as ([ts Hts] & [p Hp] & _).
    cbn in Hlast. rewrite Hp in Hlast. rewrite Hp, Hts. cbn [rbind].
    rewrite <- Hlast.
    destruct (String.eqb_spec p "END_OF_DAY") as [->|Hne].
    + eexists. split; [reflexivity|]. cbn.
      rewrite bool_decide_eq_true_2 by reflexivity. auto.
    + eexists. split; [reflexivity|]. cbn.
      rewrite bool_decide_eq_false_2 by congruence. auto.
  - cbn in Hlast. rewrite <- Hlast.
    eexists. split; [reflexivity|]. cbn.
    rewrite bool_decide_eq_false_2 by discriminate. auto.
Qed.

(** Starting the dashboard again on the file that a series of presses left
    restores the log and the project that was running (none after an end of
    day): pressing the button of that project then logs nothing. *)
Theorem restart_restores_project (fromisoformat : string -> option datetime)
    (presses : list press) (jobs : jobs_file) (now : datetime) (g : grid) :
  let st := run_presses presses fresh_dashboard in
  fst (update_job_buttons jobs ∅) = Ok g ->
  exists st', startup fromisoformat (file_of st) jobs now = Ok (st', g)
    /\ history st' = history st
    /\ log_file st' = log_file st
    /\ current_project st'
       = (if bool_decide (current_project st = Some "END_OF_DAY") then None
          else current_project st)
    /\ (forall p override n n',
          current_project st = Some p -> p <> "END_OF_DAY" ->
          switch_project p override n n' st' = st').
Proof.
  cbv zeta. intros Hg.
  destruct (run_presses_logged presses _ fresh_dashboard_logged) as (Hst & _).
  destruct (startup_restores fromisoformat _ jobs now g Hst Hg) as (st' & H1 & H2 & H3 & H4).
  exists st'. split; [exact H1|]. split; [exact H2|]. split; [exact H3|].
  split; [exact H4|].
  intros p override n n' Hp Hne. unfold switch_project.
  rewrite bool_decide_eq_true_2; [reflexivity|].
  rewrite H4, Hp. rewrite bool_decide_eq_false_2 by congruence. reflexivity.
Qed.

Lemma restart_restores_project_witness :
  exists st' g,
    startup Datetime.fromisoformat
      (file_of (run_presses [mk_press "Job1" (Some "#123456") sample_start sample_start]
                  fresh_dashboard))
      JobsMissing sample_end
    = Ok (st', g)
    /\ current_project st' = Some "Job1"
    /\ switch_project "Job1" None sample_end sample_end st' = st'.
Proof.
  assert (exists g, fst (update_job_buttons JobsMissing ∅) = Ok g) as [g Hg]
    by (vm_compute; eexists; reflexivity).
  destruct (restart_restores_project Datetime.fromisoformat
              [mk_press "Job1" (Some "#123456") sample_start sample_start] JobsMissing
              sample_end g Hg)
    as (st' & H1 & _ & _ & H4 & H5).
  exists st', g. split; [exact H1|]. split; [exact H4|].
  apply H5; [reflexivity | discriminate].
Defined.

(** The guard against logging a project twice in a row does not outlast the
    process: started on a log that ends with the end of day, the dashboard
    has no current project, and ending the day once more appends a second
    END_OF_DAY event to the log and the file. *)
Theorem end_day_after_restart_logs_again (fromisoformat : string -> option datetime)
    (events : list event) (e : event) (jobs : jobs_file) (now n n' : datetime)
    (st : dashboard) (g : grid) :
  last events = Some e -> project e = Some "END_OF_DAY" ->
  startup fromisoformat (FileJSON events) jobs now = Ok (st, g) ->
  let st' := end_day n n' st in
  history st'
  = events ++ [mk_event (Some (isoformat n')) (Some "END_OF_DAY") (Some "#ff6666")]
  /\ log_file st' = Some (history st')
  /\ no_repeats (history st') = false.
Proof.
  intros Hlast Hp Hstart. cbv zeta.
  assert (history st = events /\ current_project st = None) as [Hh Hc].
  { unfold startup in Hstart. cbn [rbind load_history last_of_other] in Hstart.
    destruct (update_job_buttons jobs ∅) as [[g0|ex] cache]; [|discriminate].
    cbn [rbind] in Hstart. rewrite Hlast, Hp in Hstart. cbn in Hstart.
    injection Hstart as <- _. auto. }
  assert (history (end_day n n' st)
          = events ++ [mk_event (Some (isoformat n')) (Some "END_OF_DAY") (Some "#ff6666")]
          /\ log_file (end_day n n' st) = Some (history (end_day n n' st))) as [H1 H2].
  { unfold end_day, switch_project. rewrite Hc.
    rewrite bool_decide_eq_false_2 by discriminate. cbn. rewrite Hh. auto. }
  split; [exact H1|]. split; [exact H2|].
  rewrite H1. apply (no_repeats_snoc_same _ e); [exact Hlast | rewrite Hp; reflexivity].
Qed.

Lemma end_day_after_restart_logs_again_witness :
  exists st g,
    startup Datetime.fromisoformat
      (FileJSON [mk_event (Some "2024-01-01T17:00:00") (Some "END_OF_DAY") (Some "#ff6666")])
      JobsMissing sample_start = Ok (st, g)
    /\ history (end_day sample_end sample_end st)
       = [mk_event (Some "2024-01-01T17:00:00") (Some "END_OF_DAY") (Some "#ff6666");
          mk_event (Some "2024-01-03T00:30:00") (Some "END_OF_DAY") (Some "#ff6666")].
Proof.
  assert (exists st g,
            startup Datetime.fromisoformat
              (FileJSON [mk_event (Some "2024-01-01T17:00:00") (Some "END_OF_DAY")
                           (Some "#ff6666")])
              JobsMissing sample_start = Ok (st, g)) as (st & g & E)
    by (vm_compute; eexists _, _; reflexivity).
  exists st, g. split; [exact E|].
  destruct (end_day_after_restart_logs_again Datetime.fromisoformat
              [mk_event (Some "2024-01-01T17:00:00") (Some "END_OF_DAY") (Some "#ff6666")]
              (mk_event (Some "2024-01-01T17:00:00") (Some "END_OF_DAY") (Some "#ff6666"))
              JobsMissing sample_start sample_end sample_end st g eq_refl eq_refl E)
    as (H & _).
  exact H.
Defined.

(** ** The details label *)

Lemma elapsed_wraps (start now later : datetime) (days : Z) :
  to_us later = to_us now + days * US_PER_DAY ->
  elapsed_hours_minutes start later = elapsed_hours_minutes start now.
Proof.
  intros Hlater. unfold elapsed_hours_minutes.
  replace (((to_us later - to_us start) / US_PER_SECOND) mod 86400)
    with (((to_us now - to_us start) / US_PER_SECOND) mod 86400); [reflexivity|].
  rewrite Hlater.
  replace (to_us now + days * US_PER_DAY - to_us start)
    with (to_us now - to_us start + (days * 86400) * US_PER_SECOND)
    by (unfold US_PER_DAY, US_PER_HOUR, US_PER_MINUTE; lia).
  rewrite Z.div_add by (unfold US_PER_SECOND; lia).
  rewrite Z.mod_add by lia. reflexivity.
Qed.

(** The duration on the label is the time since the start in whole minutes,
    counted within the running day: hours stay below 24 and minutes below
    60, and the text is the same again whenever a whole number of days has
    passed (a project left running for 25 hours shows 1hrs 0mins). *)
Theorem details_show_time_within_a_day (start now : datetime) :
  let hours := fst (elapsed_hours_minutes start now) in
  let minutes := snd (elapsed_hours_minutes start now) in
  let elapsed := (to_us now - to_us start) / US_PER_SECOND in
  0 <= hours < 24 /\ 0 <= minutes < 60
  /\ hours * 3600 + minutes * 60 <= elapsed mod 86400 < hours * 3600 + minutes * 60 + 60
  /\ (forall (st : dashboard) (later : datetime) (days : Z),
        to_us later = to_us now + days * US_PER_DAY ->
        update_details st later = update_details st now).
Proof.
  cbv zeta. split; [|split; [|split]].
  4: { intros st later days Hlater. unfold update_details.
       destruct (current_project st) as [p|]; [|reflexivity].
       destruct (project_start_time st) as [start0|]; [|reflexivity].
       rewrite (elapsed_wraps start0 now later days Hlater). reflexivity. }
  all: unfold elapsed_hours_minutes; cbn [fst snd];
    set (elapsed := (to_us now - to_us start) / US_PER_SECOND);
    pose proof (Z.mod_pos_bound elapsed 86400 eq_refl) as Hm;
    set (s := elapsed mod 86400) in *;
    pose proof (Z.div_mod s 3600 ltac:(lia)) as H1;
    pose proof (Z.mod_pos_bound s 3600 eq_refl) as H2;
    pose proof (Z.div_mod (s mod 3600) 60 ltac:(lia)) as H3;
    pose proof (Z.mod_pos_bound (s mod 3600) 60 eq_refl) as H4; lia.
Qed.

(** ** The edit window *)

Lemma collect_jobs_names (strip : string -> string) rows :
  Forall (fun j => job_name j <> "") (collect_jobs strip rows).
Proof.
  induction rows as [|row rows IH]; [constructor|].
  cbn [collect_jobs]. destruct (String.eqb_spec (strip (r_name_entry row)) ""); [exact IH|].
  constructor; [assumption | exact IH].
Qed.

(** Saving the edit window writes a list of jobs that is never empty and has
    no empty name: the rows whose name is not blank, in order, with the name
    stripped and the colour of the button, or Falcon and Toyota when no such
    row is left; [load_jobs] reads that list back unchanged. *)
Theorem save_edits_writes_jobs (strip : string -> string) (rows : list job_row)
    (cache : gmap string rgb) :
  let file := fst (fst (save_edits strip rows cache)) in
  let kept := collect_jobs strip rows in
  exists jobs,
    file = save_jobs jobs
    /\ jobs <> []
    /\ Forall (fun j => job_name j <> "") jobs
    /\ (kept <> [] -> jobs = kept)
    /\ (kept = [] -> map job_name jobs = ["Falcon"; "Toyota"])
    /\ (forall cache', fst (load_jobs file cache') = jobs).
Proof.
  cbv zeta. unfold save_edits.
  destruct (collect_jobs strip rows) as [|j kept] eqn:E.
  - pose proof (default_job_name "Falcon" cache) as N1.
    destruct (default_job "Falcon" cache) as [falcon c1]. cbn [fst] in N1.
    pose proof (default_job_name "Toyota" c1) as N2.
    destruct (default_job "Toyota" c1) as [toyota c2]. cbn [fst] in N2.
    destruct (update_job_buttons (save_jobs [falcon; toyota]) c2) as [redrawn c3].
    cbn [fst]. exists [falcon; toyota].
    split; [reflexivity|]. split; [discriminate|].
    split; [repeat constructor; rewrite ?N1, ?N2; discriminate|].
    split; [contradiction|]. split; [intros _; cbn; rewrite N1, N2; reflexivity|].
    intros cache'. apply load_jobs_saved. discriminate.
  - destruct (update_job_buttons (save_jobs (j :: kept)) cache) as [redrawn c3].
    cbn [fst]. exists (j :: kept).
    split; [reflexivity|]. split; [discriminate|].
    split; [rewrite <- E; apply collect_jobs_names|].
    split; [reflexivity|]. split; [discriminate|].
    intros cache'. apply load_jobs_saved. discriminate.
Qed.

Lemma filter_all_rows (P : job_row -> Prop) `{forall r, Decision (P r)} rows :
  Forall P rows -> filter P rows = rows.
Proof.
  induction 1 as [|r rows Hr _ IH]; [reflexivity|].
  rewrite filter_cons_True by assumption. rewrite IH. reflexivity.
Qed.

Lemma remove_job_row_filter frame rows :
  NoDup (map r_frame rows) ->
  remove_job_row frame rows = filter (fun r => r_frame r <> frame) rows.
Proof.
  induction rows as [|row rows IH]; intros Hnd; [reflexivity|].
  cbn [map] in Hnd. apply NoDup_cons in Hnd as [Hfresh Hnd].
  cbn [remove_job_row]. destruct (Nat.eqb_spec (r_frame row) frame) as [Heq|Hne].
  - rewrite filter_cons_False by (intros H; apply H, Heq).
    symmetry. apply filter_all_rows. apply Forall_forall. intros r Hr Hframe.
    apply Hfresh. rewrite Heq, <- Hframe. apply list_elem_of_In, in_map, list_elem_of_In, Hr.
  - rewrite filter_cons_True by assumption. rewrite (IH Hnd). reflexivity.
Qed.

Lemma remove_job_row_fresh frame name color rows :
  frame ∉ map r_frame rows ->
  remove_job_row frame (rows ++ [mk_job_row frame name color]) = rows.
Proof.
  induction rows as [|row rows IH]; intros Hfresh.
  - cbn. rewrite Nat.eqb_refl. reflexivity.
  - cbn [map] in Hfresh. apply not_elem_of_cons in Hfresh as [Hne Hfresh].
    cbn [app remove_job_row]. destruct (Nat.eqb_spec (r_frame row) frame) as [Heq|_].
    + congruence.
    + rewrite (IH Hfresh). reflexivity.
Qed.

Lemma add_job_row_Ok frame name color rows cache rows' :
  fst (add_job_row frame name color rows cache) = Ok rows' ->
  exists color', rows' = rows ++ [mk_job_row frame name color'].
Proof.
  unfold add_job_row.
  destruct (if String.eqb color "" then
              if String.eqb name "" then ("#777777", cache)
              else let '(c, cache0) := get_color name cache in (rgb_to_hex c, cache0)
            else (color, cache)) as [color' cache'].
  cbn [fst]. destruct (get_contrasting_text_color color'); [|discriminate].
  cbn [rbind]. intros [= <-]. eauto.
Qed.

(** With one frame per row, as the window creates them, Remove deletes the
    row of the frame it is given and leaves the other rows as they are, in
    their order; removing a row that was just added gives the rows back. *)
Theorem remove_job_row_removes_that_row (frame : nat) (rows : list job_row) :
  NoDup (map r_frame rows) ->
  remove_job_row frame rows = filter (fun r => r_frame r <> frame) rows
  /\ (forall name color cache rows',
        frame ∉ map r_frame rows ->
        fst (add_job_row frame name color rows cache) = Ok rows' ->
        remove_job_row frame rows' = rows).
Proof.
  intros Hnd. split; [apply remove_job_row_filter, Hnd|].
  intros name color cache rows' Hfresh Hadd.
  apply add_job_row_Ok in Hadd as [color' ->]. apply remove_job_row_fresh, Hfresh.
Qed.

Lemma remove_job_row_removes_that_row_witness :
  remove_job_row 1 [mk_job_row 0 "Falcon" "#5bdee5"; mk_job_row 1 "Toyota" "#5b5be5";
                    mk_job_row 2 "New Job" "#777777"]
  = [mk_job_row 0 "Falcon" "#5bdee5"; mk_job_row 2 "New Job" "#777777"].
Proof.
  assert (NoDup (map r_frame [mk_job_row 0 "Falcon" "#5bdee5"; mk_job_row 1 "Toyota" "#5b5be5";
                                mk_job_row 2 "New Job" "#777777"])) as Hnd
    by (apply (bool_decide_unpack _); vm_compute; exact I).
  rewrite (proj1 (remove_job_row_removes_that_row 1 _ Hnd)).
  reflexivity.
Defined.

(** * From the dashboard to the chart *)

(** ** [fromisoformat] reads what [isoformat] writes *)

Lemma digit_of_digit_char x : digit_of (digit_char x) = Some (x mod 10).
Proof.
  unfold digit_char. pose proof (Z.mod_pos_bound x 10 eq_refl) as H.
  set (r := x mod 10) in *.
  assert (r = 0 \/ r = 1 \/ r = 2 \/ r = 3 \/ r = 4 \/ r = 5 \/ r = 6 \/ r = 7 \/ r = 8 \/ r = 9)
    as Hr by lia.
  destruct Hr as [->|[->|[->|[->|[->|[->|[->|[->|[->| ->]]]]]]]]]; reflexivity.
Qed.

Lemma pad_decimal_2 n :
  pad_decimal 2 n = String (digit_char (n / 10)) (String (digit_char n) "").
Proof. reflexivity. Qed.

Lemma pad_decimal_4 n :
  pad_decimal 4 n
  = String (digit_char (n / 10 / 10 / 10)) (String (digit_char (n / 10 / 10))
      (String (digit_char (n / 10)) (String (digit_char n) ""))).
Proof. reflexivity. Qed.

Lemma pad_decimal_6 n :
  pad_decimal 6 n
  = String (digit_char (n / 10 / 10 / 10 / 10 / 10)) (String (digit_char (n / 10 / 10 / 10 / 10))
      (String (digit_char (n / 10 / 10 / 10)) (String (digit_char (n / 10 / 10))
         (String (digit_char (n / 10)) (String (digit_char n) ""))))).
Proof. reflexivity. Qed.

Lemma two_digits n : 0 <= n < 100 -> 10 * (10 * 0 + (n / 10) mod 10) + n mod 10 = n.
Proof. intros H. Z.div_mod_to_equations. lia. Qed.

Lemma four_digits n : 0 <= n < 10000 ->
  10 * (10 * (10 * (10 * 0 + (n / 10 / 10 / 10) mod 10) + (n / 10 / 10) mod 10)
        + (n / 10) mod 10) + n mod 10 = n.
Proof. intros H. Z.div_mod_to_equations. lia. Qed.

Lemma six_digits n : 0 <= n < 1000000 ->
  10 * (10 * (10 * (10 * (10 * (10 * 0 + (n / 10 / 10 / 10 / 10 / 10) mod 10)
                          + (n / 10 / 10 / 10 / 10) mod 10)
                    + (n / 10 / 10 / 10) mod 10) + (n / 10 / 10) mod 10)
        + (n / 10) mod 10) + n mod 10 = n.
Proof. intros H. Z.div_mod_to_equations. lia. Qed.

Lemma days_in_month_le_31 y m : 1 <= m <= 12 -> days_in_month y m <= 31.
Proof.
  intros Hm. unfold days_in_month. destruct (_ && _); [lia|].
  assert (m = 1 \/ m = 2 \/ m = 3 \/ m = 4 \/ m = 5 \/ m = 6 \/ m = 7 \/ m = 8 \/ m = 9
          \/ m = 10 \/ m = 11 \/ m = 12) as Hc by lia.
  destruct Hc as [->|[->|[->|[->|[->|[->|[->|[->|[->|[->|[->| ->]]]]]]]]]]];
    vm_compute; discriminate.
Qed.

Lemma leb_true a b : a <= b -> (a <=? b) = true.
Proof. apply Z.leb_le. Qed.

Lemma parse_date_of_fields y m d :
  1 <= y <= 9999 -> 1 <= m <= 12 -> 1 <= d <= days_in_month y m ->
  parse_isoformat_date
    (String (digit_char (y / 10 / 10 / 10)) (String (digit_char (y / 10 / 10))
       (String (digit_char (y / 10)) (String (digit_char y)
          (String "-" (String (digit_char (m / 10)) (String (digit_char m)
             (String "-" (String (digit_char (d / 10)) (String (digit_char d) ""))))))))))
  = Some (ymd2ord y m d).
Proof.
  intros Hy Hm Hd. pose proof (days_in_month_le_31 y m Hm) as Hd31.
  unfold parse_isoformat_date, substr, char_at, int_field.
  cbn [String.length Nat.eqb negb substring String.get digits_from].
  rewrite !digit_of_digit_char.
  rewrite (four_digits y) by lia. rewrite (two_digits m), (two_digits d) by lia.
  rewrite !leb_true by lia. reflexivity.
Qed.

Lemma parse_time_of_fields hh mm ss :
  0 <= hh <= 23 -> 0 <= mm <= 59 -> 0 <= ss <= 59 ->
  parse_isoformat_time
    (String (digit_char (hh / 10)) (String (digit_char hh)
       (String ":" (String (digit_char (mm / 10)) (String (digit_char mm)
          (String ":" (String (digit_char (ss / 10)) (String (digit_char ss) ""))))))))
  = Some (hh * US_PER_HOUR + mm * US_PER_MINUTE + ss * US_PER_SECOND + 0).
Proof.
  intros Hh Hm Hs.
  unfold parse_isoformat_time, substr, char_at, int_field.
  cbn [String.length Nat.eqb negb substring String.get digits_from].
  rewrite !digit_of_digit_char.
  rewrite (two_digits hh), (two_digits mm), (two_digits ss) by lia.
  rewrite !leb_true by lia. reflexivity.
Qed.

Lemma parse_time_of_fields_us hh mm ss us :
  0 <= hh <= 23 -> 0 <= mm <= 59 -> 0 <= ss <= 59 -> 0 <= us < 1000000 ->
  parse_isoformat_time
    (String (digit_char (hh / 10)) (String (digit_char hh)
       (String ":" (String (digit_char (mm / 10)) (String (digit_char mm)
          (String ":" (String (digit_char (ss / 10)) (String (digit_char ss)
             (String "."
                (String (digit_char (us / 10 / 10 / 10 / 10 / 10))
                   (String (digit_char (us / 10 / 10 / 10 / 10))
                      (String (digit_char (us / 10 / 10 / 10))
                         (String (digit_char (us / 10 / 10))
                            (String (digit_char (us / 10))
                               (String (digit_char us) "")))))))))))))))
  = Some (hh * US_PER_HOUR + mm * US_PER_MINUTE + ss * US_PER_SECOND + us).
Proof.
  intros Hh Hm Hs Hus.
  unfold parse_isoformat_time, parse_fraction, substr, char_at, int_field.
  cbn [String.length Nat.eqb negb substring String.get digits_from Nat.sub].
  rewrite !digit_of_digit_char.
  rewrite (two_digits hh), (two_digits mm), (two_digits ss) by lia.
  rewrite (six_digits us) by lia.
  rewrite !leb_true by lia. reflexivity.
Qed.

Lemma time_fields dt :
  0 <= us_of_day dt < US_PER_DAY ->
  0 <= hour dt <= 23 /\ 0 <= minute dt <= 59 /\ 0 <= second dt <= 59
  /\ 0 <= microsecond dt < 1000000
  /\ hour dt * US_PER_HOUR + minute dt * US_PER_MINUTE + second dt * US_PER_SECOND
     + microsecond dt = us_of_day dt.
Proof.
  unfold hour, minute, second, microsecond, US_PER_DAY, US_PER_HOUR, US_PER_MINUTE,
    US_PER_SECOND.
  intros H. set (us := us_of_day dt) in *.
  change (60 * (60 * 1000000)) with 3600000000. change (60 * 1000000) with 60000000.
  change (24 * 3600000000) with 86400000000 in H.
  Z.div_mod_to_equations. lia.
Qed.

(** One cycle of 400 years, day by day: the date of each ordinal is a date
    of the calendar, [ymd2ord] leads back to the ordinal, and the next day
    has the greater date. *)
Lemma calendar_cycle_checked :
  all_from (Z.to_nat 146097) 1
    (fun n =>
       let '(y, m, d) := ord2ymd n in
       let '(y', m', d') := ord2ymd (n + 1) in
       (1 <=? y) && (y <=? 400) && ((145731 <? n) || (y <=? 399))
       && (1 <=? m) && (m <=? 12) && (1 <=? d) && (d <=? days_in_month y m)
       && (ymd2ord y m d =? n)
       && ((n =? 146097) || (y * 10000 + m * 100 + d <? y' * 10000 + m' * 100 + d'))) = true.
Proof. vm_compute. reflexivity. Qed.

Lemma ord2ymd_shift r q :
  0 <= r < 146097 ->
  ord2ymd (r + 1 + 146097 * q)
  = let '(y, m, d) := ord2ymd (r + 1) in (y + 400 * q, m, d).
Proof.
  intros Hr. unfold ord2ymd.
  change DI400Y with 146097. 
  replace (r + 1 + 146097 * q - 1) with (r + q * 146097) by lia.
  replace (r + 1 - 1) with r by lia.
  rewrite Z.div_add, Z.mod_add by lia.
  rewrite (Z.div_small r 146097), (Z.mod_small r 146097) by lia.
  cbv zeta.
  repeat match goal with |- context [if ?c then _ else _] => destruct c end;
    repeat match goal with |- (_, _) = (_, _) => f_equal end; lia.
Qed.

Lemma is_leap_shift y q : is_leap (y + 400 * q) = is_leap y.
Proof.
  unfold is_leap.
  replace ((y + 400 * q) mod 4) with (y mod 4)
    by (replace (y + 400 * q) with (y + (100 * q) * 4) by lia; rewrite Z.mod_add by lia;
        reflexivity).
  replace ((y + 400 * q) mod 100) with (y mod 100)
    by (replace (y + 400 * q) with (y + (4 * q) * 100) by lia; rewrite Z.mod_add by lia;
        reflexivity).
  replace ((y + 400 * q) mod 400) with (y mod 400)
    by (replace (y + 400 * q) with (y + q * 400) by lia; rewrite Z.mod_add by lia;
        reflexivity).
  reflexivity.
Qed.

Lemma days_before_year_shift y q :
  days_before_year (y + 400 * q) = days_before_year y + 146097 * q.
Proof.
  unfold days_before_year. cbv zeta.
  replace ((y + 400 * q - 1) / 4) with ((y - 1) / 4 + 100 * q)
    by (replace (y + 400 * q - 1) with (y - 1 + (100 * q) * 4) by lia;
        rewrite Z.div_add by lia; reflexivity).
  replace ((y + 400 * q - 1) / 100) with ((y - 1) / 100 + 4 * q)
    by (replace (y + 400 * q - 1) with (y - 1 + (4 * q) * 100) by lia;
        rewrite Z.div_add by lia; reflexivity).
  replace ((y + 400 * q - 1) / 400) with ((y - 1) / 400 + q)
    by (replace (y + 400 * q - 1) with (y - 1 + q * 400) by lia;
        rewrite Z.div_add by lia; reflexivity).
  lia.
Qed.

Lemma calendar_round_trip n :
  1 <= n <= MAXORDINAL ->
  exists y m d, ord2ymd n = (y, m, d)
    /\ 1 <= y <= 9999 /\ 1 <= m <= 12 /\ 1 <= d <= days_in_month y m
    /\ ymd2ord y m d = n.
Proof.
  unfold MAXORDINAL. intros Hn.
  pose proof (Z.div_mod (n - 1) 146097 ltac:(lia)) as Hdm.
  pose proof (Z.mod_pos_bound (n - 1) 146097 eq_refl) as Hr.
  set (q := (n - 1) / 146097) in *. set (r := (n - 1) mod 146097) in *.
  clearbody q r. assert (0 <= q <= 24) as Hq by lia.
  replace n with (r + 1 + 146097 * q) by lia.
  rewrite ord2ymd_shift by lia.
  pose proof (all_from_spec _ _ _ calendar_cycle_checked (r + 1)) as H. cbv beta in H.
  destruct (ord2ymd (r + 1)) as [[y m] d].
  destruct (ord2ymd (r + 1 + 1)) as [[y1 m1] d1].
  assert (1 <= r + 1 < 1 + Z.of_nat (Z.to_nat 146097)) as Hrange by lia.
  apply H in Hrange. apply andb_true_iff in Hrange as [Hrange _].
  repeat (apply andb_true_iff in Hrange as [Hrange ?]).
  exists (y + 400 * q), m, d. split; [reflexivity|].
  unfold days_in_month, ymd2ord, days_before_month.
  rewrite is_leap_shift, days_before_year_shift.
  fold (days_in_month y m). fold (days_before_month y m).
  assert (ymd2ord y m d = r + 1) as Hback by lia. unfold ymd2ord in Hback.
  assert (145731 < r + 1 \/ y <= 399) as Hlast by lia.
  lia.
Qed.

Lemma datetime_eta dt : mk_datetime (ordinal dt) (us_of_day dt) = dt.
Proof. destruct dt. reflexivity. Qed.

(** [fromisoformat] reads back what [isoformat] writes. *)
Lemma fromisoformat_isoformat dt :
  valid_datetime dt -> fromisoformat (isoformat dt) = Some dt.
Proof.
  intros [Hord Hus].
  destruct (calendar_round_trip (date dt) Hord) as (y & m & d & Hymd & Hy & Hm & Hd & Hback).
  destruct (time_fields dt Hus) as (Hh & Hmi & Hs & Hmicro & Hsum).
  unfold isoformat, date_isoformat. rewrite Hymd.
  rewrite pad_decimal_4, !pad_decimal_2.
  destruct (microsecond dt =? 0) eqn:Eus.
  - cbv [String.append]. unfold fromisoformat, substr.
    cbn [String.length Nat.eqb Nat.leb substring Nat.sub].
    rewrite parse_date_of_fields by assumption.
    rewrite parse_time_of_fields by assumption.
    cbn [option_map]. apply Z.eqb_eq in Eus. rewrite Hback.
    replace (hour dt * US_PER_HOUR + minute dt * US_PER_MINUTE + second dt * US_PER_SECOND + 0)
      with (us_of_day dt) by lia.
    f_equal. apply datetime_eta.
  - rewrite pad_decimal_6. cbv [String.append]. unfold fromisoformat, substr.
    cbn [String.length Nat.eqb Nat.leb substring Nat.sub].
    rewrite parse_date_of_fields by assumption.
    rewrite parse_time_of_fields_us by assumption.
    cbn [option_map]. rewrite Hback, Hsum. f_equal. apply datetime_eta.
Qed.

(** ** The log of the dashboard, drawn *)

Lemma run_presses_stamps presses : forall st,
  logged_state st ->
  forall e, e ∈ history (run_presses presses st) ->
    e ∈ history st
    \/ exists p, p ∈ presses /\ timestamp e = Some (isoformat (p_now' p))
                 /\ project e = Some (p_project p).
Proof.
  induction presses as [|p presses IH]; intros st Hst e He; [left; exact He|].
  change (run_presses (p :: presses) st)
    with (run_presses presses (switch_project (p_project p) (p_color p) (p_now p)
                                 (p_now' p) st)) in He.
  destruct (switch_project_step (p_project p) (p_color p) (p_now p) (p_now' p) st Hst)
    as (Hst' & Hsame & Hnew). cbv zeta in *.
  destruct (IH _ Hst' e He) as [Hold|(p' & Hp' & Hts)].
  - destruct (decide (Some (p_project p) = current_project st)) as [Heq|Hne].
    + rewrite (Hsame Heq) in Hold. left. exact Hold.
    + destruct (Hnew Hne) as ([color Hh] & _). rewrite Hh in Hold.
      apply elem_of_app in Hold as [Hold|Hold]; [left; exact Hold|].
      apply list_elem_of_singleton in Hold as ->. right. exists p.
      split; [apply elem_of_cons; left; reflexivity | split; reflexivity].
  - right. exists p'. split; [apply elem_of_cons; right; exact Hp' | exact Hts].
Qed.

Lemma run_presses_grows presses : forall st,
  logged_state st ->
  (length (history st) <= length (history (run_presses presses st)))%nat.
Proof.
  induction presses as [|p presses IH]; intros st Hst; [reflexivity|].
  change (run_presses (p :: presses) st)
    with (run_presses presses (switch_project (p_project p) (p_color p) (p_now p)
                                 (p_now' p) st)).
  destruct (switch_project_step (p_project p) (p_color p) (p_now p) (p_now' p) st Hst)
    as (Hst' & Hsame & Hnew). cbv zeta in *.
  specialize (IH _ Hst').
  destruct (decide (Some (p_project p) = current_project st)) as [Heq|Hne].
  - rewrite (Hsame Heq) in *. exact IH.
  - destruct (Hnew Hne) as ([color Hh] & _). rewrite Hh, length_app in IH. lia.
Qed.

Lemma parse_written_stamp e d :
  timestamp e = Some (isoformat d) -> valid_datetime d ->
  parse_event fromisoformat e = ([], Ok d).
Proof.
  intros Hts Hv. unfold parse_event. rewrite Hts, (fromisoformat_isoformat d Hv).
  reflexivity.
Qed.

Lemma parses_written_stamp e d :
  timestamp e = Some (isoformat d) -> valid_datetime d -> date d < MAXORDINAL ->
  parses_in_range fromisoformat e = true.
Proof.
  intros Hts Hv Hd. unfold parses_in_range, parse_event.
  rewrite Hts, (fromisoformat_isoformat d Hv). cbn.
  apply andb_true_iff. split; [apply valid_datetimeb_spec, Hv | apply Z.ltb_lt, Hd].
Qed.

(** The two programs fit together: whatever buttons were pressed, at times
    before the last representable day, the visualiser reads the history.json
    that the dashboard wrote without a message and without an exception up
    to the plotting loop.  Every timestamp written is read back at the first
    attempt as the time of its press, and the events are sorted, paired,
    split and grouped into at least one day.  (Whether the rectangles are
    then drawn rests with matplotlib, which checks the colours logged.) *)
Theorem dashboard_log_is_read (presses : list press) :
  presses <> [] ->
  Forall (fun p => valid_datetime (p_now' p) /\ date (p_now' p) < MAXORDINAL) presses ->
  exists events sorted by_day,
    file_of (run_presses presses fresh_dashboard) = FileJSON events
    /\ events <> []
    /\ (forall e, e ∈ events ->
          exists p, p ∈ presses
                    /\ fromisoformat (default "" (timestamp e)) = Some (p_now' p)
                    /\ parse_event fromisoformat e = ([], Ok (p_now' p)))
    /\ sort_events events = Ok sorted
    /\ sessions_by_day fromisoformat sorted = ([], Ok by_day)
    /\ sorted_days by_day <> [].
Proof.
  intros Hne Hvalid.
  set (st := run_presses presses fresh_dashboard).
  assert (log_file st = Some (history st) /\ history st <> []) as [Hfile Hlogged].
  { destruct presses as [|p presses]; [contradiction|]. subst st.
    change (run_presses (p :: presses) fresh_dashboard)
      with (run_presses presses (switch_project (p_project p) (p_color p) (p_now p)
                                   (p_now' p) fresh_dashboard)).
    destruct (switch_project_step (p_project p) (p_color p) (p_now p) (p_now' p)
                fresh_dashboard fresh_dashboard_logged) as (Hst' & _ & Hnew).
    cbv zeta in *. destruct Hnew as ([color Hh] & Hf & _); [discriminate|].
    destruct (run_presses_logged presses _ Hst') as (_ & _ & Hkeep).
    split; [apply Hkeep, Hf|].
    pose proof (run_presses_grows presses _ Hst') as Hlen. rewrite Hh in Hlen.
    intros Hnil. rewrite Hnil in Hlen. cbn in Hlen. lia. }
  rewrite Forall_forall in Hvalid.
  assert (forall e, e ∈ history st ->
            exists p, p ∈ presses /\ timestamp e = Some (isoformat (p_now' p))) as Hstamps.
  { intros e He.
    destruct (run_presses_stamps presses _ fresh_dashboard_logged e He)
      as [Hold|(p & Hp & Hts & _)]; [inversion Hold|].
    exists p. auto. }
  destruct (sessions_by_day_total fromisoformat (history st) Hlogged)
    as (sorted & by_day & Hsort & Hrun & Hdays).
  { apply forallb_forall. intros e He. apply list_elem_of_In in He.
    destruct (Hstamps e He) as (p & Hp & Hts). destruct (Hvalid p Hp) as [Hv Hd].
    apply (parses_written_stamp e _ Hts Hv Hd). }
  exists (history st), sorted, by_day.
  split; [unfold file_of; rewrite Hfile; reflexivity|]. split; [exact Hlogged|].
  split; [|auto].
  intros e He. destruct (Hstamps e He) as (p & Hp & Hts).
  destruct (Hvalid p Hp) as [Hv _]. exists p. split; [exact Hp|]. split.
  - rewrite Hts. cbn [default]. apply (fromisoformat_isoformat _ Hv).
  - apply (parse_written_stamp e _ Hts Hv).
Qed.

Lemma dashboard_log_is_read_witness :
  exists events sorted by_day,
    file_of (run_presses [mk_press "Job1" None sample_start sample_start;
                          mk_press "END_OF_DAY" None sample_end sample_end]
               fresh_dashboard) = FileJSON events
    /\ events <> []
    /\ (forall e, e ∈ events ->
          exists p, p ∈ [mk_press "Job1" None sample_start sample_start;
                         mk_press "END_OF_DAY" None sample_end sample_end]
                    /\ fromisoformat (default "" (timestamp e)) = Some (p_now' p)
                    /\ parse_event fromisoformat e = ([], Ok (p_now' p)))
    /\ sort_events events = Ok sorted
    /\ sessions_by_day fromisoformat sorted = ([], Ok by_day)
    /\ sorted_days by_day <> [].
Proof.
  apply dashboard_log_is_read; [discriminate|].
  repeat constructor; vm_compute; congruence.
Defined.

(** On a log the dashboard wrote itself, the start time restored at startup
    is the time of the last event of the log, the very one [switch_project]
    stamped it with when the running project was started: the event carries
    [isoformat] of that time, no other time has that text, and the fallback
    to the time of the restart is never taken. *)
Theorem restart_restores_start_time (presses : list press) (jobs : jobs_file)
    (now start : datetime) (st' : dashboard) (g : grid) :
  Forall (fun p => valid_datetime (p_now' p)) presses ->
  startup fromisoformat (file_of (run_presses presses fresh_dashboard)) jobs now
  = Ok (st', g) ->
  project_start_time st' = Some start ->
  exists e p,
    last (history (run_presses presses fresh_dashboard)) = Some e
    /\ timestamp e = Some (isoformat start)
    /\ project e = current_project st'
    /\ fromisoformat (isoformat start) = Some start
    /\ (forall d, valid_datetime d -> timestamp e = Some (isoformat d) -> d = start)
    /\ p ∈ presses /\ start = p_now' p /\ current_project st' = Some (p_project p).
Proof.
  intros Hvalid Hstart Hsome.
  set (st := run_presses presses fresh_dashboard) in *.
  destruct (run_presses_logged presses _ fresh_dashboard_logged)
    as ((Hlog & _ & _ & _ & _) & _). fold st in Hlog.
  unfold startup in Hstart.
  rewrite load_history_file_of, last_of_other_file_of in Hstart. cbn [rbind] in Hstart.
  destruct (update_job_buttons jobs ∅) as [[g0|ex] cache]; [|discriminate].
  cbn [rbind] in Hstart.
  assert (match file_of st with FileJSON events => events | _ => [] end = history st)
    as Hh by (unfold file_of; destruct Hlog as [E|[E1 E2]]; rewrite ?E, ?E1, ?E2; auto).
  rewrite Hh in Hstart.
  destruct (last (history st)) as [e|] eqn:El;
    [|injection Hstart as <- _; discriminate].
  assert (e ∈ history st) as He.
  { apply last_Some in El as [l' ->]. apply elem_of_app. right.
    apply list_elem_of_singleton. reflexivity. }
  destruct (run_presses_stamps presses _ fresh_dashboard_logged e He)
    as [Hold|(p & Hp & Hts & Hpr)]; [inversion Hold|].
  rewrite Hpr, Hts in Hstart. cbn [rbind] in Hstart.
  rewrite Forall_forall in Hvalid.
  pose proof (fromisoformat_isoformat _ (Hvalid p Hp)) as Hback.
  rewrite Hback in Hstart.
  destruct (String.eqb (p_project p) "END_OF_DAY");
    injection Hstart as <- _; [discriminate|].
  cbn in Hsome. injection Hsome as <-. exists e, p. cbn.
  split; [reflexivity|]. split; [exact Hts|]. split; [exact Hpr|].
  split; [exact Hback|]. split; [|auto].
  intros d Hd Hd'. rewrite Hts in Hd'. injection Hd' as Heq.
  pose proof (fromisoformat_isoformat _ Hd) as Hback'.
  rewrite <- Heq, Hback in Hback'. congruence.
Qed.

Lemma restart_restores_start_time_witness :
  exists st' g,
    startup fromisoformat
      (file_of (run_presses [mk_press "Job1" None sample_start sample_start;
                             mk_press "Job2" None sample_start sample_start;
                             mk_press "Job1" None sample_end sample_end] fresh_dashboard))
      JobsMissing sample_start
    = Ok (st', g)
    /\ project_start_time st' = Some sample_end.
Proof.
  assert (exists st' g,
            startup fromisoformat
              (file_of (run_presses [mk_press "Job1" None sample_start sample_start;
                                     mk_press "Job2" None sample_start sample_start;
                                     mk_press "Job1" None sample_end sample_end]
                          fresh_dashboard))
              JobsMissing sample_start = Ok (st', g)) as (st' & g & E)
    by (vm_compute; eexists _, _; reflexivity).
  exists st', g. split; [exact E|].
  destruct (project_start_time st') as [start|] eqn:Es.
  - destruct (restart_restores_start_time
                [mk_press "Job1" None sample_start sample_start;
                 mk_press "Job2" None sample_start sample_start;
                 mk_press "Job1" None sample_end sample_end] JobsMissing sample_start
                start st' g) as (e & p & Hlast & _ & _ & _ & Huniq & _).
    + repeat constructor; vm_compute; congruence.
    + exact E.
    + exact Es.
    + vm_compute in Hlast. injection Hlast as <-.
      f_equal. symmetry. apply Huniq; [vm_compute; repeat split; congruence|].
      vm_compute. reflexivity.
  - exfalso. vm_compute in E. injection E as <- _. discriminate.
Defined.

(** * Sessions in a row, and the edit window opened and saved *)

Section SessionsInARow.
Variable fromisoformat : string -> option datetime.

(** Session [k] starts at the time of event [k]. *)
Lemma build_sessions_starts events out sessions (k : nat) e :
  build_sessions fromisoformat events = (out, Ok sessions) ->
  events !! k = Some e ->
  exists d s, parse_event fromisoformat e = ([], Ok d)
              /\ sessions !! k = Some s /\ s_start s = d.
Proof.
  intros H Hk.
  apply build_sessions_Ok in H as (_ & pairs & final & Hp & Hf & ->).
  destruct (build_pairs_Ok _ _ _ _ Hp) as (_ & Hlen & Hnth).
  pose proof (lookup_lt_Some _ _ _ Hk) as Hlt.
  destruct (events !! S k) as [e'|] eqn:Hk'.
  - destruct (Hnth k e e' Hk Hk') as (cur & nxt & Hcur & _ & _ & Hs).
    exists cur. eexists. split; [exact Hcur|].
    split; [rewrite lookup_app_l by (eapply lookup_lt_Some; exact Hs); exact Hs|].
    reflexivity.
  - apply lookup_ge_None in Hk'.
    assert (k = length pairs) as -> by lia.
    apply final_session_Ok in Hf as (_ & e0 & d & Hlast & Hd & Hstart & _).
    rewrite last_lookup in Hlast.
    replace (pred (length events)) with (length pairs) in Hlast by lia.
    rewrite Hk in Hlast. injection Hlast as <-.
    exists d, final. split; [exact Hd|]. split; [|exact Hstart].
    rewrite lookup_app_r by lia. rewrite Nat.sub_diag. reflexivity.
Qed.

Lemma sessions_in_a_row events out sessions (i : nat) s s' :
  build_sessions fromisoformat events = (out, Ok sessions) ->
  forallb (parses_valid fromisoformat) events = true ->
  chronological fromisoformat events = true ->
  sessions !! i = Some s -> sessions !! S i = Some s' ->
  dt_leb (s_start s) (s_end s) = true /\ dt_leb (s_end s) (s_start s') = true.
Proof.
  intros H Hvalid Hchron Hi Hi'.
  destruct (build_sessions_shape _ _ _ _ H Hvalid) as [_ Hord].
  specialize (Hord Hchron). rewrite Forall_forall in Hord.
  split; [apply Hord, (list_elem_of_lookup_2 _ _ _ Hi)|].
  pose proof H as H0.
  apply build_sessions_Ok in H0 as (_ & pairs & final & Hp & Hf & ->).
  destruct (build_pairs_Ok _ _ _ _ Hp) as (_ & Hlen & Hnth).
  pose proof (lookup_lt_Some _ _ _ Hi') as Hlt. rewrite length_app in Hlt. cbn in Hlt.
  destruct (lookup_lt_is_Some_2 events i) as [e He]; [lia|].
  destruct (lookup_lt_is_Some_2 events (S i)) as [e' He']; [lia|].
  destruct (Hnth i e e' He He') as (cur & nxt & Hcur & Hnxt & _ & Hs).
  rewrite lookup_app_l in Hi by lia. rewrite Hs in Hi. injection Hi as <-.
  destruct (build_sessions_starts _ _ _ _ _ H He') as (d & s0 & Hd & Hs0 & Hstart).
  rewrite Hi' in Hs0. injection Hs0 as <-.
  rewrite Hstart. rewrite Hnxt in Hd. injection Hd as <-. cbn [s_end].
  pose proof (chronological_lookup _ _ _ _ _ _ _ Hchron He He' Hcur Hnxt) as Hle.
  assert (time_in_day nxt) as Tn.
  { rewrite forallb_forall in Hvalid.
    apply (parses_valid_spec fromisoformat e' nxt); [|exact Hnxt].
    apply Hvalid, list_elem_of_In, (list_elem_of_lookup_2 _ _ _ He'). }
  destruct (Z.eqb_spec (date cur) (date nxt)) as [Heq|Hne]; [apply dt_leb_refl|].
  unfold dt_leb, dt_ltb, time_in_day, date, combine_min in *. cbn. lia.
Qed.

(** The sessions of a log whose events are in the order of their times do
    not overlap: each one ends at or after its start and at or before the
    start of the next, so no time is counted twice. *)
Theorem sessions_do_not_overlap (events : list event) out sessions (i : nat) s s' :
  build_sessions fromisoformat events = (out, Ok sessions) ->
  forallb (parses_valid fromisoformat) events = true ->
  chronological fromisoformat events = true ->
  sessions !! i = Some s -> sessions !! S i = Some s' ->
  dt_leb (s_start s) (s_end s) = true /\ dt_leb (s_end s) (s_start s') = true.
Proof. apply sessions_in_a_row. Qed.
End SessionsInARow.

Lemma sessions_do_not_overlap_witness :
  build_sessions Datetime.fromisoformat midnight_log
  = ([], Ok [Session (mk_datetime 738886 84600000000) (mk_datetime 738887 0) "A" "#5bdee5";
             Session (mk_datetime 738887 900000000) (mk_datetime 738887 4500000000)
               "B" "#5bdee5"])
  /\ dt_leb (mk_datetime 738886 84600000000) (mk_datetime 738887 0) = true
  /\ dt_leb (mk_datetime 738887 0) (mk_datetime 738887 900000000) = true.
Proof.
  assert (build_sessions Datetime.fromisoformat midnight_log
          = ([], Ok [Session (mk_datetime 738886 84600000000) (mk_datetime 738887 0)
                       "A" "#5bdee5";
                     Session (mk_datetime 738887 900000000) (mk_datetime 738887 4500000000)
                       "B" "#5bdee5"])) as Hb by (vm_compute; reflexivity).
  split; [exact Hb|].
  apply (sessions_do_not_overlap Datetime.fromisoformat midnight_log [] _ 0
           (Session (mk_datetime 738886 84600000000) (mk_datetime 738887 0) "A" "#5bdee5")
           (Session (mk_datetime 738887 900000000) (mk_datetime 738887 4500000000)
              "B" "#5bdee5") Hb).
  - vm_compute. reflexivity.
  - vm_compute. reflexivity.
  - reflexivity.
  - reflexivity.
Defined.

(** ** Opening the edit window and saving it *)

Lemma add_job_row_given frame name color rows cache rows' :
  color <> "" ->
  fst (add_job_row frame name color rows cache) = Ok rows' ->
  rows' = rows ++ [mk_job_row frame name color].
Proof.
  intros Hc. unfold add_job_row.
  destruct (String.eqb_spec color "") as [|_]; [contradiction|].
  cbn [fst]. destruct (get_contrasting_text_color color); [|discriminate].
  cbn [rbind]. congruence.
Qed.

Lemma collect_jobs_app (strip : string -> string) rows1 rows2 :
  collect_jobs strip (rows1 ++ rows2) = collect_jobs strip rows1 ++ collect_jobs strip rows2.
Proof.
  induction rows1 as [|r rows1 IH]; [reflexivity|].
  cbn [app collect_jobs]. destruct (String.eqb _ ""); rewrite IH; reflexivity.
Qed.

Lemma add_job_rows_Ok (strip : string -> string) jobs : forall frame rows cache rows',
  Forall (fun j => strip (job_name j) = job_name j /\ job_name j <> "" /\ job_color j <> "")
         jobs ->
  fst (add_job_rows frame jobs rows cache) = Ok rows' ->
  collect_jobs strip rows' = collect_jobs strip rows ++ jobs
  /\ map r_frame rows' = map r_frame rows ++ seq frame (length jobs).
Proof.
  induction jobs as [|[name color] jobs IH]; intros frame rows cache rows' Hjobs H.
  - cbn in H. injection H as <-. cbn. rewrite !app_nil_r. auto.
  - inversion Hjobs as [|? ? (Hstrip & Hname & Hcolor) Hrest]; subst. cbn in Hstrip, Hname, Hcolor.
    cbn [add_job_rows job_name job_color] in H.
    pose proof (add_job_row_given frame name color rows cache) as Hadd.
    destruct (add_job_row frame name color rows cache) as [[rows1|e] cache1];
      [|discriminate].
    cbn [fst] in Hadd. specialize (Hadd rows1 Hcolor eq_refl). subst rows1.
    destruct (IH _ _ _ _ Hrest H) as [H1 H2].
    rewrite H1, H2, collect_jobs_app, map_app. cbn [collect_jobs map r_frame r_name_entry
      r_color_button length seq].
    rewrite Hstrip. destruct (String.eqb_spec name "") as [|_]; [contradiction|].
    rewrite <- !app_assoc. auto.
Qed.

(** Opening the edit window and pressing Save without a change writes the
    jobs back as they were loaded, provided no name is blank or has white
    space around it and no colour is empty; the rows of the window have
    pairwise distinct frames. *)
Theorem edit_then_save_keeps_jobs (strip : string -> string) (file : jobs_file)
    (cache cache' : gmap string rgb) (rows : list job_row) :
  let jobs := fst (load_jobs file cache) in
  Forall (fun j => strip (job_name j) = job_name j /\ job_name j <> "" /\ job_color j <> "")
         jobs ->
  fst (edit_jobs file cache) = Ok rows ->
  fst (fst (save_edits strip rows cache')) = save_jobs jobs
  /\ NoDup (map r_frame rows).
Proof.
  cbv zeta. intros Hjobs Hrows.
  pose proof (load_jobs_nonempty file cache) as Hne.
  unfold edit_jobs in Hrows. destruct (load_jobs file cache) as [jobs cache1].
  cbn [fst] in *.
  destruct (add_job_rows_Ok strip jobs 0 [] cache1 rows Hjobs Hrows) as [Hcollect Hframes].
  cbn [collect_jobs map app] in Hcollect, Hframes.
  split; [|rewrite Hframes; apply NoDup_ListNoDup, List.seq_NoDup].
  unfold save_edits. rewrite Hcollect.
  destruct jobs as [|j jobs]; [contradiction|].
  destruct (update_job_buttons (save_jobs (j :: jobs)) cache') as [redrawn c3].
  reflexivity.
Qed.

Lemma edit_then_save_keeps_jobs_witness :
  exists rows,
    fst (edit_jobs (JobsJSON [EntryDict (Some "Falcon") (Some "#5bdee5");
                              EntryDict (Some "Toyota") (Some "#E55B5B")]) ∅) = Ok rows
    /\ fst (fst (save_edits (fun s => s) rows ∅))
       = save_jobs [mk_job "Falcon" "#5bdee5"; mk_job "Toyota" "#E55B5B"].
Proof.
  assert (exists rows,
            fst (edit_jobs (JobsJSON [EntryDict (Some "Falcon") (Some "#5bdee5");
                                      EntryDict (Some "Toyota") (Some "#E55B5B")]) ∅)
            = Ok rows) as [rows E] by (vm_compute; eexists; reflexivity).
  exists rows. split; [exact E|].
  pose proof (edit_then_save_keeps_jobs (fun s => s)
                (JobsJSON [EntryDict (Some "Falcon") (Some "#5bdee5");
                           EntryDict (Some "Toyota") (Some "#E55B5B")]) ∅ ∅ rows) as H.
  cbv zeta in H.
  assert (fst (load_jobs (JobsJSON [EntryDict (Some "Falcon") (Some "#5bdee5");
                                    EntryDict (Some "Toyota") (Some "#E55B5B")]) ∅)
          = [mk_job "Falcon" "#5bdee5"; mk_job "Toyota" "#E55B5B"]) as Hl
    by (vm_compute; reflexivity).
  rewrite Hl in H. apply H; [|exact E].
  repeat constructor; discriminate.
Defined.

(** ** The order of the timestamps *)

Lemma digit_char_compare a b :
  Ascii.compare (digit_char a) (digit_char b) = (a mod 10 ?= b mod 10).
Proof.
  unfold digit_char.
  pose proof (Z.mod_pos_bound a 10 eq_refl) as Ha.
  pose proof (Z.mod_pos_bound b 10 eq_refl) as Hb.
  set (x := a mod 10) in *. set (y := b mod 10) in *.
  assert (x = 0 \/ x = 1 \/ x = 2 \/ x = 3 \/ x = 4 \/ x = 5 \/ x = 6 \/ x = 7 \/ x = 8 \/ x = 9)
    as Hx by lia.
  assert (y = 0 \/ y = 1 \/ y = 2 \/ y = 3 \/ y = 4 \/ y = 5 \/ y = 6 \/ y = 7 \/ y = 8 \/ y = 9)
    as Hy by lia.
  destruct Hx as [->|[->|[->|[->|[->|[->|[->|[->|[->| ->]]]]]]]]];
    destruct Hy as [->|[->|[->|[->|[->|[->|[->|[->|[->| ->]]]]]]]]]; reflexivity.
Qed.

Lemma compare_digit a b s t :
  String.compare (String (digit_char a) s) (String (digit_char b) t)
  = match a mod 10 ?= b mod 10 with Eq => String.compare s t | ne => ne end.
Proof. cbn [String.compare]. rewrite digit_char_compare. reflexivity. Qed.

Lemma compare_same c s t :
  String.compare (String c s) (String c t) = String.compare s t.
Proof.
  cbn [String.compare]. unfold Ascii.compare. rewrite N.compare_refl. reflexivity.
Qed.

(** Comparing the tens and then the units is comparing the numbers. *)
Lemma lex_step a b (r : comparison) :
  match a / 10 ?= b / 10 with
  | Eq => match a mod 10 ?= b mod 10 with Eq => r | ne => ne end
  | ne => ne
  end
  = match a ?= b with Eq => r | ne => ne end.
Proof.
  destruct (Z.compare_spec (a / 10) (b / 10)), (Z.compare_spec (a mod 10) (b mod 10)),
    (Z.compare_spec a b); try reflexivity; exfalso; Z.div_mod_to_equations; lia.
Qed.

Lemma compare_field_2 a b s t :
  0 <= a < 100 -> 0 <= b < 100 ->
  String.compare (String (digit_char (a / 10)) (String (digit_char a) s))
                 (String (digit_char (b / 10)) (String (digit_char b) t))
  = match a ?= b with Eq => String.compare s t | ne => ne end.
Proof.
  intros Ha Hb. rewrite !compare_digit.
  rewrite (Z.mod_small (a / 10) 10), (Z.mod_small (b / 10) 10)
    by (Z.div_mod_to_equations; lia).
  apply lex_step.
Qed.

Lemma compare_field_4 a b s t :
  0 <= a < 10000 -> 0 <= b < 10000 ->
  String.compare
    (String (digit_char (a / 10 / 10 / 10)) (String (digit_char (a / 10 / 10))
       (String (digit_char (a / 10)) (String (digit_char a) s))))
    (String (digit_char (b / 10 / 10 / 10)) (String (digit_char (b / 10 / 10))
       (String (digit_char (b / 10)) (String (digit_char b) t))))
  = match a ?= b with Eq => String.compare s t | ne => ne end.
Proof.
  intros Ha Hb. rewrite !compare_digit.
  rewrite (Z.mod_small (a / 10 / 10 / 10) 10), (Z.mod_small (b / 10 / 10 / 10) 10)
    by (Z.div_mod_to_equations; lia).
  rewrite !lex_step. reflexivity.
Qed.

Lemma compare_field_6 a b s t :
  0 <= a < 1000000 -> 0 <= b < 1000000 ->
  String.compare
    (String (digit_char (a / 10 / 10 / 10 / 10 / 10)) (String (digit_char (a / 10 / 10 / 10 / 10))
       (String (digit_char (a / 10 / 10 / 10)) (String (digit_char (a / 10 / 10))
          (String (digit_char (a / 10)) (String (digit_char a) s))))))
    (String (digit_char (b / 10 / 10 / 10 / 10 / 10)) (String (digit_char (b / 10 / 10 / 10 / 10))
       (String (digit_char (b / 10 / 10 / 10)) (String (digit_char (b / 10 / 10))
          (String (digit_char (b / 10)) (String (digit_char b) t))))))
  = match a ?= b with Eq => String.compare s t | ne => ne end.
Proof.
  intros Ha Hb. rewrite !compare_digit.
  rewrite (Z.mod_small (a / 10 / 10 / 10 / 10 / 10) 10),
    (Z.mod_small (b / 10 / 10 / 10 / 10 / 10) 10) by (Z.div_mod_to_equations; lia).
  rewrite !lex_step. reflexivity.
Qed.

Lemma ymd_key_shift r q :
  0 <= r < 146097 -> ymd_key (r + 1 + 146097 * q) = ymd_key (r + 1) + 4000000 * q.
Proof.
  intros Hr. unfold ymd_key. rewrite ord2ymd_shift by assumption.
  destruct (ord2ymd (r + 1)) as [[y m] d]. lia.
Qed.

Lemma ymd_key_succ n : 1 <= n < MAXORDINAL -> ymd_key n < ymd_key (n + 1).
Proof.
  unfold MAXORDINAL. intros Hn.
  pose proof (Z.div_mod (n - 1) 146097 ltac:(lia)) as Hdm.
  pose proof (Z.mod_pos_bound (n - 1) 146097 eq_refl) as Hr.
  set (q := (n - 1) / 146097) in *. set (r := (n - 1) mod 146097) in *.
  clearbody q r.
  replace n with (r + 1 + 146097 * q) by lia.
  rewrite ymd_key_shift by lia.
  pose proof (all_from_spec _ _ _ calendar_cycle_checked (r + 1)) as H. cbv beta in H.
  assert (1 <= r + 1 < 1 + Z.of_nat (Z.to_nat 146097)) as Hrange by lia.
  apply H in Hrange. clear H.
  destruct (Z.eq_dec (r + 1) 146097) as [Hlast|Hmid].
  - replace (r + 1 + 146097 * q + 1) with (0 + 1 + 146097 * (q + 1)) by lia.
    rewrite ymd_key_shift by lia.
    pose proof (all_from_spec _ _ _ calendar_cycle_checked 1) as H1. cbv beta in H1.
    assert (1 <= 1 < 1 + Z.of_nat (Z.to_nat 146097)) as Hone by lia.
    apply H1 in Hone. clear H1.
    unfold ymd_key. change (0 + 1) with 1.
    destruct (ord2ymd (r + 1)) as [[y m] d]. destruct (ord2ymd (r + 1 + 1)) as [[y1 m1] d1].
    destruct (ord2ymd 1) as [[y0 m0] d0]. destruct (ord2ymd (1 + 1)) as [[y2 m2] d2].
    apply andb_true_iff in Hrange as [Hrange _].
    repeat (apply andb_true_iff in Hrange as [Hrange ?]).
    apply andb_true_iff in Hone as [Hone _].
    repeat (apply andb_true_iff in Hone as [Hone ?]).
    pose proof (days_in_month_le_31 y m ltac:(lia)). lia.
  - replace (r + 1 + 146097 * q + 1) with (r + 1 + 1 + 146097 * q) by lia.
    rewrite (ymd_key_shift (r + 1)) by lia.
    unfold ymd_key.
    destruct (ord2ymd (r + 1)) as [[y m] d]. destruct (ord2ymd (r + 1 + 1)) as [[y1 m1] d1].
    apply andb_true_iff in Hrange as [_ Hrange].
    apply orb_true_iff in Hrange as [Hrange|Hrange]; lia.
Qed.

Lemma ymd_key_mono a b : 1 <= a -> a < b -> b <= MAXORDINAL -> ymd_key a < ymd_key b.
Proof.
  intros Ha Hab Hb.
  assert (exists k : nat, b = a + 1 + Z.of_nat k) as [k ->]
    by (exists (Z.to_nat (b - a - 1)); lia).
  clear Hab. revert Hb. induction k as [|k IH]; intros Hb.
  - rewrite Z.add_0_r. apply ymd_key_succ. lia.
  - etransitivity; [apply IH; lia|].
    replace (a + 1 + Z.of_nat (S k)) with (a + 1 + Z.of_nat k + 1) by lia.
    apply ymd_key_succ. lia.
Qed.

Lemma date_compare a b y m d y' m' d' (r : comparison) :
  1 <= a <= MAXORDINAL -> 1 <= b <= MAXORDINAL ->
  ord2ymd a = (y, m, d) -> ord2ymd b = (y', m', d') ->
  match y ?= y' with
  | Eq => match m ?= m' with
          | Eq => match d ?= d' with Eq => r | ne => ne end
          | ne => ne
          end
  | ne => ne
  end
  = match a ?= b with Eq => r | ne => ne end.
Proof.
  intros Ha Hb Ea Eb.
  destruct (calendar_round_trip a Ha) as (y0 & m0 & d0 & E0 & Hy & Hm & Hd & _).
  rewrite Ea in E0. injection E0 as <- <- <-.
  destruct (calendar_round_trip b Hb) as (y1 & m1 & d1 & E1 & Hy' & Hm' & Hd' & _).
  rewrite Eb in E1. injection E1 as <- <- <-.
  pose proof (days_in_month_le_31 y m Hm). pose proof (days_in_month_le_31 y' m' Hm').
  assert (ymd_key a = y * 10000 + m * 100 + d) as Ka by (unfold ymd_key; rewrite Ea; reflexivity).
  assert (ymd_key b = y' * 10000 + m' * 100 + d') as Kb
    by (unfold ymd_key; rewrite Eb; reflexivity).
  destruct (Z.compare_spec a b) as [Heq|Hlt|Hgt].
  - subst b. rewrite Ea in Eb. injection Eb as <- <- <-. rewrite !Z.compare_refl. reflexivity.
  - pose proof (ymd_key_mono a b ltac:(lia) Hlt ltac:(lia)) as Hk.
    destruct (Z.compare_spec y y'), (Z.compare_spec m m'), (Z.compare_spec d d');
      try reflexivity; exfalso; lia.
  - pose proof (ymd_key_mono b a ltac:(lia) Hgt ltac:(lia)) as Hk.
    destruct (Z.compare_spec y y'), (Z.compare_spec m m'), (Z.compare_spec d d');
      try reflexivity; exfalso; lia.
Qed.

Lemma time_compare a b :
  0 <= us_of_day a < US_PER_DAY -> 0 <= us_of_day b < US_PER_DAY ->
  match hour a ?= hour b with
  | Eq => match minute a ?= minute b with
          | Eq => match second a ?= second b with
                  | Eq => microsecond a ?= microsecond b
                  | ne => ne
                  end
          | ne => ne
          end
  | ne => ne
  end
  = (us_of_day a ?= us_of_day b).
Proof.
  intros Ha Hb.
  destruct (time_fields a Ha) as (? & ? & ? & ? & Sa).
  destruct (time_fields b Hb) as (? & ? & ? & ? & Sb).
  rewrite <- Sa, <- Sb. unfold US_PER_HOUR, US_PER_MINUTE, US_PER_SECOND.
  generalize dependent (hour a). generalize dependent (minute a).
  generalize dependent (second a). generalize dependent (microsecond a).
  generalize dependent (hour b). generalize dependent (minute b).
  generalize dependent (second b). generalize dependent (microsecond b).
  intros fb ? sb ? mb ? hb ? _ fa ? sa ? ma ? ha ? _.
  destruct (Z.compare_spec ha hb), (Z.compare_spec ma mb), (Z.compare_spec sa sb),
    (Z.compare_spec fa fb); symmetry;
    first [apply Z.compare_eq_iff | apply Z.compare_lt_iff | apply Z.compare_gt_iff]; lia.
Qed.

Lemma fraction_compare fa fb :
  0 <= fa < 1000000 -> 0 <= fb < 1000000 ->
  String.compare
    (if fa =? 0 then ""
     else String "."
            (String (digit_char (fa / 10 / 10 / 10 / 10 / 10))
               (String (digit_char (fa / 10 / 10 / 10 / 10))
                  (String (digit_char (fa / 10 / 10 / 10)) (String (digit_char (fa / 10 / 10))
                     (String (digit_char (fa / 10)) (String (digit_char fa) "")))))))
    (if fb =? 0 then ""
     else String "."
            (String (digit_char (fb / 10 / 10 / 10 / 10 / 10))
               (String (digit_char (fb / 10 / 10 / 10 / 10))
                  (String (digit_char (fb / 10 / 10 / 10)) (String (digit_char (fb / 10 / 10))
                     (String (digit_char (fb / 10)) (String (digit_char fb) "")))))))
  = (fa ?= fb).
Proof.
  intros Ha Hb.
  destruct (Z.eqb_spec fa 0) as [->|Hna], (Z.eqb_spec fb 0) as [->|Hnb].
  - reflexivity.
  - cbn [String.compare]. symmetry. apply Z.compare_lt_iff. lia.
  - cbn [String.compare]. symmetry. apply Z.compare_gt_iff. lia.
  - rewrite compare_same, compare_field_6 by assumption.
    destruct (fa ?= fb); reflexivity.
Qed.

(** The order of the timestamps [isoformat] writes is the order of the
    times. *)
Lemma isoformat_compare a b :
  valid_datetime a -> valid_datetime b ->
  String.compare (isoformat a) (isoformat b)
  = match ordinal a ?= ordinal b with Eq => us_of_day a ?= us_of_day b | ne => ne end.
Proof.
  intros [Oa Ua] [Ob Ub].
  destruct (calendar_round_trip (date a) Oa) as (y & m & d & Ea & Hy & Hm & Hd & _).
  destruct (calendar_round_trip (date b) Ob) as (y' & m' & d' & Eb & Hy' & Hm' & Hd' & _).
  pose proof (days_in_month_le_31 y m Hm). pose proof (days_in_month_le_31 y' m' Hm').
  destruct (time_fields a Ua) as (? & ? & ? & ? & _).
  destruct (time_fields b Ub) as (? & ? & ? & ? & _).
  rewrite <- (time_compare a b Ua Ub).
  rewrite <- (fraction_compare (microsecond a) (microsecond b)) by assumption.
  rewrite <- (date_compare (date a) (date b) y m d y' m' d' _ Oa Ob Ea Eb).
  unfold isoformat, date_isoformat. rewrite Ea, Eb.
  rewrite !pad_decimal_4, !pad_decimal_2, !pad_decimal_6.
  cbv [String.append].
  rewrite compare_field_4 by lia.
  repeat (rewrite compare_same || rewrite compare_field_2 by lia).
  reflexivity.
Qed.

Lemma isoformat_ltb a b :
  valid_datetime a -> valid_datetime b ->
  String.ltb (isoformat a) (isoformat b) = dt_ltb a b.
Proof.
  intros Ha Hb. unfold String.ltb. rewrite (isoformat_compare a b Ha Hb).
  unfold dt_ltb.
  destruct (Z.compare_spec (ordinal a) (ordinal b)) as [Heq|Hlt|Hgt].
  - rewrite Heq, Z.ltb_irrefl, Z.eqb_refl. cbn.
    destruct (Z.compare_spec (us_of_day a) (us_of_day b)); symmetry;
      [apply Z.ltb_ge | apply Z.ltb_lt | apply Z.ltb_ge]; lia.
  - symmetry. apply orb_true_iff. left. apply Z.ltb_lt, Hlt.
  - symmetry. apply orb_false_iff. split; [apply Z.ltb_ge; lia|].
    apply andb_false_iff. left. apply Z.eqb_neq. lia.
Qed.

(** ** A log written with a clock that does not go back *)

Lemma StronglySorted_snoc {A} (R : A -> A -> Prop) l y :
  StronglySorted R l -> Forall (fun x => R x y) l -> StronglySorted R (l ++ [y]).
Proof.
  induction 1 as [|x l Hl IH Hx]; intros Hy.
  - repeat constructor.
  - inversion Hy as [|? ? Hxy Hrest]; subst. cbn. constructor; [apply IH, Hrest|].
    apply Forall_app. split; [exact Hx | repeat constructor; exact Hxy].
Qed.

Lemma stable_sort_sorted l :
  StronglySorted stamp_le l -> stable_sort timestamp key_ltb l = l.
Proof.
  induction 1 as [|x l Hl IH Hx]; [reflexivity|].
  cbn [stable_sort foldr]. fold (stable_sort timestamp key_ltb l). rewrite IH.
  destruct l as [|y l']; [reflexivity|].
  inversion Hx as [|? ? Hxy _]; subst. unfold stamp_le in Hxy.
  cbn [insert_sorted]. rewrite Hxy. reflexivity.
Qed.

Lemma run_presses_sorted presses : forall st,
  logged_state st ->
  Forall (fun p => valid_datetime (p_now' p)) presses ->
  StronglySorted (fun p q => dt_leb (p_now' p) (p_now' q) = true) presses ->
  StronglySorted stamp_le (history st) ->
  (forall e p, e ∈ history st -> p ∈ presses ->
     key_ltb (Some (isoformat (p_now' p))) (timestamp e) = false) ->
  StronglySorted stamp_le (history (run_presses presses st)).
Proof.
  induction presses as [|p presses IH]; intros st Hst Hvalid Hclock Hsorted Hbelow;
    [exact Hsorted|].
  change (run_presses (p :: presses) st)
    with (run_presses presses (switch_project (p_project p) (p_color p) (p_now p)
                                 (p_now' p) st)).
  destruct (switch_project_step (p_project p) (p_color p) (p_now p) (p_now' p) st Hst)
    as (Hst' & Hsame & Hnew). cbv zeta in *.
  inversion Hvalid as [|? ? Hp Hvalid']; subst.
  inversion Hclock as [|? ? Hclock' Hafter]; subst.
  apply IH; try assumption.
  - destruct (decide (Some (p_project p) = current_project st)) as [Heq|Hne].
    + rewrite (Hsame Heq). exact Hsorted.
    + destruct (Hnew Hne) as ([color Hh] & _). rewrite Hh.
      apply StronglySorted_snoc; [exact Hsorted|].
      apply Forall_forall. intros e He. unfold stamp_le. cbn [timestamp].
      apply (Hbelow e p He). apply elem_of_cons. left. reflexivity.
  - intros e q He Hq.
    destruct (decide (Some (p_project p) = current_project st)) as [Heq|Hne].
    + rewrite (Hsame Heq) in He. apply (Hbelow e q He). apply elem_of_cons. right. exact Hq.
    + destruct (Hnew Hne) as ([color Hh] & _). rewrite Hh in He.
      apply elem_of_app in He as [He|He].
      * apply (Hbelow e q He). apply elem_of_cons. right. exact Hq.
      * apply list_elem_of_singleton in He as ->. cbn [timestamp key_ltb].
        rewrite Forall_forall in Hvalid', Hafter.
        rewrite (isoformat_ltb _ _ (Hvalid' q Hq) Hp).
        specialize (Hafter q Hq). unfold dt_leb in Hafter.
        destruct (dt_ltb (p_now' q) (p_now' p)); [discriminate | reflexivity].
Qed.

Lemma chronological_sorted l :
  (forall e, e ∈ l -> exists d, timestamp e = Some (isoformat d) /\ valid_datetime d) ->
  StronglySorted stamp_le l -> chronological fromisoformat l = true.
Proof.
  intros Hstamps Hsorted. induction Hsorted as [|e l Hl IH He]; [reflexivity|].
  destruct l as [|e' l']; [reflexivity|].
  change (chronological fromisoformat (e :: e' :: l'))
    with (match parse_event fromisoformat e, parse_event fromisoformat e' with
          | (_, Ok a), (_, Ok b) => dt_leb a b
          | _, _ => false
          end && chronological fromisoformat (e' :: l')).
  rewrite IH by (intros x Hx; apply Hstamps, elem_of_cons; right; exact Hx).
  destruct (Hstamps e) as (d & Hd & Vd); [apply elem_of_cons; left; reflexivity|].
  destruct (Hstamps e') as (d' & Hd' & Vd');
    [apply elem_of_cons; right; apply elem_of_cons; left; reflexivity|].
  rewrite (parse_written_stamp e d Hd Vd), (parse_written_stamp e' d' Hd' Vd').
  inversion He as [|? ? Hee' _]; subst. unfold stamp_le in Hee'.
  rewrite Hd, Hd' in Hee'. cbn [key_ltb] in Hee'.
  rewrite (isoformat_ltb _ _ Vd' Vd) in Hee'.
  unfold dt_leb. rewrite Hee'. reflexivity.
Qed.

(** The string sort of the visualiser leaves a log of the dashboard as it
    is, when the clock of the dashboard never went back: the timestamps
    [isoformat] writes sort as strings exactly as their times do, so the
    sorted log is the log, with its events in the order of their times. *)
Theorem dashboard_log_keeps_its_order (presses : list press) :
  Forall (fun p => valid_datetime (p_now' p)) presses ->
  StronglySorted (fun p q => dt_leb (p_now' p) (p_now' q) = true) presses ->
  let log := history (run_presses presses fresh_dashboard) in
  sort_events log = Ok log /\ chronological fromisoformat log = true.
Proof.
  intros Hvalid Hclock. cbv zeta.
  destruct (run_presses_logged presses _ fresh_dashboard_logged)
    as ((_ & _ & _ & Hfields & _) & _).
  assert (StronglySorted stamp_le (history (run_presses presses fresh_dashboard))) as Hsorted.
  { apply run_presses_sorted; try assumption.
    - apply fresh_dashboard_logged.
    - constructor.
    - intros e p He. inversion He. }
  split.
  - unfold sort_events.
    replace (existsb _ (history (run_presses presses fresh_dashboard))) with false.
    + rewrite andb_false_r, (stable_sort_sorted _ Hsorted). reflexivity.
    + symmetry. apply not_true_is_false. intros Hex.
      apply existsb_exists in Hex as (e & He & Hn).
      rewrite Forall_forall in Hfields. apply list_elem_of_In in He.
      destruct (Hfields e He) as (Hts & _).
      rewrite bool_decide_eq_true_2 in Hn by assumption. discriminate.
  - apply chronological_sorted; [|exact Hsorted].
    intros e He.
    destruct (run_presses_stamps presses _ fresh_dashboard_logged e He)
      as [Hold|(p & Hp & Hts & _)]; [inversion Hold|].
    exists (p_now' p). split; [exact Hts|].
    rewrite Forall_forall in Hvalid. apply (Hvalid p Hp).
Qed.

Lemma dashboard_log_keeps_its_order_witness :
  sort_events (history (run_presses [mk_press "Job1" None sample_start sample_start;
                                     mk_press "Job2" None sample_end sample_end]
                          fresh_dashboard))
  = Ok (history (run_presses [mk_press "Job1" None sample_start sample_start;
                              mk_press "Job2" None sample_end sample_end]
                   fresh_dashboard))
  /\ chronological fromisoformat
       (history (run_presses [mk_press "Job1" None sample_start sample_start;
                              mk_press "Job2" None sample_end sample_end]
                   fresh_dashboard)) = true.
Proof.
  apply (dashboard_log_keeps_its_order
           [mk_press "Job1" None sample_start sample_start;
            mk_press "Job2" None sample_end sample_end]).
  - repeat constructor; vm_compute; congruence.
  - repeat constructor.
Defined.
